(** * azureenergylabelerlib: energy labels of subscriptions, resource groups
      and tenants

    A shallow embedding of [azureenergylabelerlib/entities.py].  Python
    objects become records, attribute mutation becomes explicit state
    passing (a method returns the updated object next to its result), and
    raised exceptions become the [Raise] branch of the [result] type.

    Strings are lists of bytes ([string]); counts and maxima are Python
    integers ([Z]); the percentage arithmetic of the tenant label is IEEE
    binary64, as Python's [float] is ([PrimFloat.float]). *)

From Stdlib Require Import ZArith String Ascii List Floats Uint63.
From stdpp Require Import base option list sorting gmap strings.

Local Open Scope string_scope.
Local Open Scope list_scope.
Local Open Scope stdpp_scope.
Local Open Scope Z_scope.

(** ** Exceptions and fallible results *)

(** The exceptions that the modelled code can raise: Python's built-in ones
    and [SubscriptionNotPartOfTenant] of
    [azureenergylabelerlibexceptions]; [OtherException] stands for whatever
    the argument validation of [validations.py] raises. *)
Inductive exn : Type :=
| KeyError (key : string)
| AttributeError (attribute : string)
| ZeroDivisionError
| ValueError (message : string)
| TypeError (message : string)
| SubscriptionNotPartOfTenant (subscriptions_not_in_tenant : gset string)
| OtherException (name : string).

Inductive result (A : Type) : Type :=
| Return (a : A)
| Raise (e : exn).
Arguments Return {A} a.
Arguments Raise {A} e.

Global Instance result_ret : MRet result := fun _ a => Return a.
Global Instance result_bind : MBind result := fun _ _ f m =>
  match m with
  | Return a => f a
  | Raise e => Raise e
  end.
Global Instance result_fmap : FMap result := fun _ _ f m =>
  match m with
  | Return a => Return (f a)
  | Raise e => Raise e
  end.

(** ** Data frames

    The part of [pandas.DataFrame] that the labelling code uses: named
    columns over rows of cells, selection of a column ([df[key]], a
    [KeyError] when the frame has no such column), comparison of a column
    with a value ([series == value]), selection of rows by a boolean mask
    ([df[mask]]) and the number of rows ([df.shape[0]]). *)
Module DataFrame.
Record t : Type := mk { columns : list string; values : list (list string) }.

Fixpoint get_loc (columns : list string) (key : string) : option nat :=
  match columns with
  | [] => None
  | c :: columns' =>
      if String.eqb c key then Some 0%nat else S <$> get_loc columns' key
  end.

(** [df[key]] *)
Definition getitem (df : t) (key : string) : result (list string) :=
  match get_loc (columns df) key with
  | None => Raise (KeyError key)
  | Some i => Return (map (fun row => nth i row "") (values df))
  end.

(** [series == value] *)
Definition eq (series : list string) (value : string) : list bool :=
  map (fun cell => String.eqb cell value) series.

Fixpoint boolean_mask {A : Type} (mask : list bool) (rows : list A) : list A :=
  match mask, rows with
  | b :: mask', row :: rows' =>
      if b then row :: boolean_mask mask' rows' else boolean_mask mask' rows'
  | _, _ => []
  end.

(** [df[mask]] *)
Definition getitem_mask (df : t) (mask : list bool) : t :=
  mk (columns df) (boolean_mask mask (values df)).

(** [df.shape[0]] *)
Definition shape0 (df : t) : Z := Z.of_nat (length (values df)).

(** [df[df[key] == value]] *)
Definition where_eq (df : t) (key value : string) : result t :=
  series ← getitem df key;
  mret (getitem_mask df (eq series value)).
End DataFrame.

(** ** Findings *)

(** The dictionary that [Finding.measurement_data] builds; its three keys
    are fixed. *)
Module MeasurementData.
Record t : Type := mk {
  Subscription_ID : string;
  Resource_Group_Name : string;
  Severity : string
}.

Definition keys : list string :=
  ["Subscription ID"; "Resource Group Name"; "Severity"].

Definition row (m : t) : list string :=
  [Subscription_ID m; Resource_Group_Name m; Severity m].
End MeasurementData.

(** [pd.DataFrame(records)] for a list of measurement dictionaries: the
    columns are the keys of the records, and there are none when the list is
    empty. *)
Definition pd_DataFrame (records : list MeasurementData.t) : DataFrame.t :=
  match records with
  | [] => DataFrame.mk [] []
  | _ :: _ => DataFrame.mk MeasurementData.keys (map MeasurementData.row records)
  end.

Module Finding.
(** A finding wraps the raw record of the findings query, a dictionary. *)
Record t : Type := mk { _data : gmap string string }.

(** [self._data.get(key, '')] *)
Definition get (self : t) (key : string) : string :=
  default "" (_data self !! key).

Definition subscription_id (self : t) : string := get self "subscriptionId".
Definition resource_group (self : t) : string := get self "resourceGroup".
Definition severity (self : t) : string := get self "severity".

Definition measurement_data (self : t) : MeasurementData.t :=
  MeasurementData.mk (subscription_id self) (resource_group self) (severity self).

(** The class body defines [__eq__] and [__ne__] and no [__hash__].  For
    such a class Python sets [__hash__] to [None] when it creates the
    class, and the built-in [hash] raises a [TypeError] on an instance
    whose class has no hash function. *)
Definition __hash__ : option (t → Z) := None.

Definition hash (self : t) : result Z :=
  match __hash__ with
  | Some f => Return (f self)
  | None => Raise (TypeError "unhashable type: 'Finding'")
  end.

(** The right operand of a comparison: a finding, or an object of another
    class. *)
Inductive object : Type :=
| Finding_instance (other : t)
| other_instance (repr : string).

Definition __eq__ (self : t) (other : object) : result bool :=
  match other with
  | other_instance _ => Raise (ValueError "Not a Finding object")
  | Finding_instance other =>
      h ← hash self;
      h' ← hash other;
      mret (h =? h')
  end.

Definition __ne__ (self : t) (other : object) : result bool :=
  match other with
  | other_instance _ => Raise (ValueError "Not a Finding object")
  | Finding_instance other =>
      h ← hash self;
      h' ← hash other;
      mret (negb (h =? h'))
  end.
End Finding.

(** The [findings] argument of [get_energy_label]: a data frame, or a list
    of findings that is turned into one. *)
Inductive findings_arg : Type :=
| Frame (df : DataFrame.t)
| Findings (findings : list Finding.t).

(** [if not issubclass(DataFrame, type(findings)):
       findings = pd.DataFrame([finding.measurement_data for finding in findings])] *)
Definition as_frame (findings : findings_arg) : DataFrame.t :=
  match findings with
  | Frame df => df
  | Findings fs => pd_DataFrame (map Finding.measurement_data fs)
  end.

(** ** Labels and threshold tables *)

(** Modelled from the spec: the label classes of [labels.py], which is not
    among the sources.  An energy label is {label, highCount, mediumCount,
    lowCount}; the attribute names are the ones [datamodels.py] reads.  The
    two classes [ResourceGroupEnergyLabel] and [SubscriptionEnergyLabel]
    take the same four constructor arguments, and the record keeps which
    class was instantiated. *)
Module EnergyLabel.
Inductive class : Type := ResourceGroupEnergyLabel | SubscriptionEnergyLabel.

Record t : Type := mk {
  __class__ : class;
  label : string;
  number_of_high_findings : Z;
  number_of_medium_findings : Z;
  number_of_low_findings : Z
}.
End EnergyLabel.

(** Modelled from the spec: a rule of [SUBSCRIPTION_THRESHOLDS] or
    [RESOURCE_GROUP_THRESHOLDS] of [configuration.py], which is not among
    the sources: {label, maxHigh, maxMedium, maxLow}, read by the code as
    [threshold['label']], [threshold['high']], [threshold['medium']] and
    [threshold['low']].  The tables themselves are taken as they are found
    on the entity. *)
Module Threshold.
Record t : Type := mk { label : string; high : Z; medium : Z; low : Z }.
End Threshold.

(** [open_findings[open_findings['Severity'] == severity].shape[0]] *)
Definition number_of_findings (open_findings : DataFrame.t) (severity : string)
  : result Z :=
  DataFrame.shape0 <$> DataFrame.where_eq open_findings "Severity" severity.

(** [all([number_of_high_findings <= threshold['high'],
         number_of_medium_findings <= threshold['medium'],
         number_of_low_findings <= threshold['low']])] *)
Definition within (threshold : Threshold.t) (high medium low : Z) : bool :=
  (high <=? Threshold.high threshold)
  && (medium <=? Threshold.medium threshold)
  && (low <=? Threshold.low threshold).

(** The loop over the thresholds, which [Subscription.get_energy_label] and
    [ResourceGroup.get_energy_label] have in common but for the label class
    [new]: the first rule that holds sets the label and breaks out; every
    rule that does not hold sets the label to F.  The last argument is the
    [energy_label] attribute on entry ([None] while it is not set), the
    result is the attribute on exit. *)
Fixpoint for_threshold (new : string → Z → Z → Z → EnergyLabel.t)
    (thresholds : list Threshold.t) (high medium low : Z)
    (energy_label : option EnergyLabel.t) : option EnergyLabel.t :=
  match thresholds with
  | [] => energy_label
  | threshold :: thresholds' =>
      if within threshold high medium low
      then Some (new (Threshold.label threshold) high medium low)
      else for_threshold new thresholds' high medium low
             (Some (new "F" high medium low))
  end.

(** The body of the second [try] block: the three counts, then the loop. *)
Definition calculate (new : string → Z → Z → Z → EnergyLabel.t)
    (thresholds : list Threshold.t) (open_findings : DataFrame.t)
    (energy_label : option EnergyLabel.t) : result (option EnergyLabel.t) :=
  number_of_high_findings ← number_of_findings open_findings "High";
  number_of_medium_findings ← number_of_findings open_findings "Medium";
  number_of_low_findings ← number_of_findings open_findings "Low";
  mret (for_threshold new thresholds number_of_high_findings
          number_of_medium_findings number_of_low_findings energy_label).

(** Reading [self.energy_label]: an [AttributeError] while no call has set
    the attribute (no [__init__] defines it). *)
Definition getattr_energy_label (energy_label : option EnergyLabel.t)
  : result EnergyLabel.t :=
  match energy_label with
  | Some l => Return l
  | None => Raise (AttributeError "energy_label")
  end.

(** ** Subscriptions *)
Module Subscription.
(** The subscription details of the Azure listing. *)
Record data : Type := mk_data {
  data_id : string;
  data_subscription_id : string;
  data_display_name : string;
  data_tenant_id : string;
  data_state : string
}.

Record t : Type := mk {
  _data : data;
  _subscription_thresholds : list Threshold.t;
  energy_label : option EnergyLabel.t
}.

Definition subscription_id (self : t) : string := data_subscription_id (_data self).
Definition display_name (self : t) : string := data_display_name (_data self).

Definition set_energy_label (self : t) (l : option EnergyLabel.t) : t :=
  mk (_data self) (_subscription_thresholds self) l.

(** [get_energy_label]: the subscription after the call, and what the call
    returns or raises. *)
Definition get_energy_label (self : t) (findings : findings_arg)
  : t * result EnergyLabel.t :=
  let df := as_frame findings in
  match DataFrame.where_eq df "Subscription ID" (subscription_id self) with
  | Raise (KeyError _) =>
      let l := EnergyLabel.mk EnergyLabel.ResourceGroupEnergyLabel "A" 0 0 0 in
      (set_energy_label self (Some l), Return l)
  | Raise e => (self, Raise e)
  | Return open_findings =>
      let self :=
        match calculate (EnergyLabel.mk EnergyLabel.SubscriptionEnergyLabel)
                (_subscription_thresholds self) open_findings (energy_label self) with
        | Return l => set_energy_label self l
        | Raise _ => self  (* except Exception: logged *)
        end in
      (self, getattr_energy_label (energy_label self))
  end.
End Subscription.


(** ** Resource groups *)
Module ResourceGroup.
Record data : Type := mk_data { data_name : string; data_location : string }.

Record t : Type := mk {
  _data : data;
  _threshold : list Threshold.t;
  energy_label : option EnergyLabel.t
}.

Definition name (self : t) : string := data_name (_data self).
Definition location (self : t) : string := data_location (_data self).

Definition set_energy_label (self : t) (l : option EnergyLabel.t) : t :=
  mk (_data self) (_threshold self) l.

Section Lower.
(** [str.lower], the case mapping of Python's strings.  Its tables are part
    of Python and not of the sources, and the method is modelled for
    whatever the case mapping is: what is proved of a resource group below
    is proved for every function [lower], and so for [str.lower]. *)
Variable lower : string → string.

Definition get_energy_label (self : t) (findings : findings_arg)
  : t * result EnergyLabel.t :=
  let df := as_frame findings in
  match DataFrame.where_eq df "Resource Group Name" (lower (name self)) with
  | Raise (KeyError _) =>
      let l := EnergyLabel.mk EnergyLabel.ResourceGroupEnergyLabel "A" 0 0 0 in
      (set_energy_label self (Some l), Return l)
  | Raise e => (self, Raise e)
  | Return open_findings =>
      let self :=
        match calculate (EnergyLabel.mk EnergyLabel.ResourceGroupEnergyLabel)
                (_threshold self) open_findings (energy_label self) with
        | Return l => set_energy_label self l
        | Raise _ => self  (* except Exception: logged *)
        end in
      (self, getattr_energy_label (energy_label self))
  end.
End Lower.
End ResourceGroup.

(** ** Tenants *)

(** Modelled from the spec: a rule of [TENANT_THRESHOLDS] of
    [configuration.py], which is not among the sources: {label,
    cumulativePercentage}, read by the code as [threshold.get('label')] and
    [threshold.get('percentage')].  The percentage is a number between 0 and
    100; an integer percentage is the binary64 number of the same value. *)
Module TenantThreshold.
Record t : Type := mk { label : string; percentage : float }.
End TenantThreshold.

(** Modelled from the spec: the class [AggregateSubscriptionEnergyLabel] of
    [labels.py], which is not among the sources: {label, bestLabelSeen,
    worstLabelSeen, populationSize}, in the order of the constructor call. *)
Module AggregateSubscriptionEnergyLabel.
Record t : Type := mk {
  label : string;
  best_label : string;
  worst_label : string;
  number_of_subscriptions : Z
}.
End AggregateSubscriptionEnergyLabel.

(** [collections.Counter(labels)] *)
Definition Counter (labels : list string) : gmap string Z :=
  foldl (fun counter l => <[l := default 0 (counter !! l) + 1]> counter) ∅ labels.

(** [label_counter.keys()] *)
Definition keys (label_counter : gmap string Z) : list string :=
  (map_to_list label_counter).*1.

(** [min] and [max] of a sequence of strings: a [ValueError] when it is
    empty. *)
Definition py_min (l : list string) : result string :=
  match l with
  | [] => Raise (ValueError "min() arg is an empty sequence")
  | x :: l' => Return (foldl (fun m y => if String.ltb y m then y else m) x l')
  end.

Definition py_max (l : list string) : result string :=
  match l with
  | [] => Raise (ValueError "max() arg is an empty sequence")
  | x :: l' => Return (foldl (fun m y => if String.ltb m y then y else m) x l')
  end.

(** [sum(l)] *)
Definition sum (l : list Z) : Z := foldl Z.add 0 l.

(** The operand of a true division: a Python integer, as the binary number
    with that mantissa and the exponent 0. *)
Definition int_operand (z : Z) : spec_float :=
  match z with
  | Z0 => S754_zero false
  | Zpos p => S754_finite false p 0
  | Zneg p => S754_finite true p 0
  end.

(** [a / b] for integers [a] and [b], [b] not 0: true division.  Python
    divides the integers themselves, whatever their size, and rounds the
    quotient once, to the nearest binary64 number, ties to even; that is
    the division of binary64 arithmetic with the two integers as
    operands.  A quotient of 2^1024 or more, where Python raises
    [OverflowError], is infinite here; a sum of counts over the number of
    subscriptions is that large only with a table of 2^1024 rules or
    more. *)
Definition true_divide (a b : Z) : float :=
  SF2Prim (SFdiv prec emax (int_operand a) (int_operand b)).

(** [a / b * 100] for integers [a] and [b]: true division, which raises
    [ZeroDivisionError] when [b] is 0, then a binary64 product. *)
Definition div_times_100 (a b : Z) : result float :=
  if b =? 0 then Raise ZeroDivisionError
  else Return (PrimFloat.mul (true_divide a b) 100).

(** The loop over the tenant thresholds: [Some label] when it breaks at a
    rule, [None] when it runs to its end (the [else] branch of the [for]).
    [subscription_sums] is the list of that name on entry. *)
Fixpoint for_tenant_threshold (thresholds : list TenantThreshold.t)
    (label_counter : gmap string Z) (number_of_subscriptions : Z)
    (subscription_sums : list Z) : result (option string) :=
  match thresholds with
  | [] => Return None
  | threshold :: thresholds' =>
      let label := TenantThreshold.label threshold in
      let percentage := TenantThreshold.percentage threshold in
      let subscription_sums :=
        subscription_sums ++ [default 0 (label_counter !! label)] in
      covered ← div_times_100 (sum subscription_sums) number_of_subscriptions;
      if PrimFloat.leb percentage covered
      then Return (Some label)
      else for_tenant_threshold thresholds' label_counter
             number_of_subscriptions subscription_sums
  end.

(** Lines 261 to 285 of [get_energy_label_of_targeted_subscriptions]: the
    aggregate label of the labels of the labeled subscriptions. *)
Definition aggregate_energy_label (thresholds : list TenantThreshold.t)
    (labels : list string) : result AggregateSubscriptionEnergyLabel.t :=
  let label_counter := Counter labels in
  let number_of_subscriptions := Z.of_nat (length labels) in
  matched ← for_tenant_threshold thresholds label_counter number_of_subscriptions [];
  let label := default "F" matched in
  best ← py_min (keys label_counter);
  worst ← py_max (keys label_counter);
  mret (AggregateSubscriptionEnergyLabel.mk label best worst number_of_subscriptions).

Module Tenant.
Record t : Type := mk {
  tenant_id : string;
  thresholds : list TenantThreshold.t;
  subscription_thresholds : list Threshold.t;
  resource_group_thresholds : list Threshold.t;
  (** what the [subscriptions] property lists (and keeps for the life of
      its cache): the subscription objects of the tenant *)
  subscriptions : list Subscription.t;
  allowed_subscription_ids : list string;
  denied_subscription_ids : list string;
  (** the cached list of subscriptions to label; it holds objects of
      [subscriptions], here by their position in that list *)
  _subscriptions_to_be_labeled : option (list nat);
  _targeted_subscriptions_energy_label : option AggregateSubscriptionEnergyLabel.t
}.

Definition _validate_tenant_subscription_ids
    (subscription_ids tenant_account_ids : list string) : result (list string) :=
  let subscriptions_not_in_tenant : gset string :=
    list_to_set subscription_ids ∖ list_to_set tenant_account_ids in
  if bool_decide (subscriptions_not_in_tenant ≠ ∅)
  then Raise (SubscriptionNotPartOfTenant subscriptions_not_in_tenant)
  else Return subscription_ids.

Section Init.
(** [validations.validate_allowed_denied_subscription_ids], which is
    not among the sources: it takes the two optional arguments and
    returns the two lists, or raises. *)
Variable validate_allowed_denied_subscription_ids :
  option (list string) → option (list string) → result (list string * list string).

(** [listing] is what the subscription client lists for the credential. *)
Definition __init__ (listing : list Subscription.t) (tenant_id : string)
    (thresholds : list TenantThreshold.t)
    (subscription_thresholds resource_group_thresholds : list Threshold.t)
    (allowed_subscription_ids denied_subscription_ids : option (list string))
  : result t :=
  let subscription_ids := map Subscription.subscription_id listing in
  validated ← validate_allowed_denied_subscription_ids
                allowed_subscription_ids denied_subscription_ids;
  allowed ← _validate_tenant_subscription_ids validated.1 subscription_ids;
  denied ← _validate_tenant_subscription_ids validated.2 subscription_ids;
  mret (mk tenant_id thresholds subscription_thresholds
          resource_group_thresholds listing allowed denied None None).
End Init.

(** The positions in the listing of the subscriptions that satisfy [keep]:
    [[subscription for subscription in self.subscriptions if keep]]. *)
Fixpoint positions (keep : Subscription.t → bool) (listing : list Subscription.t)
    (i : nat) : list nat :=
  match listing with
  | [] => []
  | subscription :: listing' =>
      if keep subscription then i :: positions keep listing' (S i)
      else positions keep listing' (S i)
  end.

Definition get_allowed_subscriptions (self : t) : list nat :=
  positions (fun subscription =>
               bool_decide (Subscription.subscription_id subscription
                            ∈ allowed_subscription_ids self))
    (subscriptions self) 0.

Definition get_not_denied_subscriptions (self : t) : list nat :=
  positions (fun subscription =>
               bool_decide (Subscription.subscription_id subscription
                            ∉ denied_subscription_ids self))
    (subscriptions self) 0.

Definition set_subscriptions_to_be_labeled (self : t) (l : list nat) : t :=
  mk (tenant_id self) (thresholds self) (subscription_thresholds self)
    (resource_group_thresholds self) (subscriptions self)
    (allowed_subscription_ids self) (denied_subscription_ids self)
    (Some l) (_targeted_subscriptions_energy_label self).

Definition set_subscriptions (self : t) (l : list Subscription.t) : t :=
  mk (tenant_id self) (thresholds self) (subscription_thresholds self)
    (resource_group_thresholds self) l
    (allowed_subscription_ids self) (denied_subscription_ids self)
    (_subscriptions_to_be_labeled self) (_targeted_subscriptions_energy_label self).

Definition set_targeted_subscriptions_energy_label (self : t)
    (l : AggregateSubscriptionEnergyLabel.t) : t :=
  mk (tenant_id self) (thresholds self) (subscription_thresholds self)
    (resource_group_thresholds self) (subscriptions self)
    (allowed_subscription_ids self) (denied_subscription_ids self)
    (_subscriptions_to_be_labeled self) (Some l).

(** The property [subscriptions_to_be_labeled]: the tenant after the
    access, and the list. *)
Definition subscriptions_to_be_labeled (self : t) : t * list nat :=
  match _subscriptions_to_be_labeled self with
  | Some l => (self, l)
  | None =>
      let l :=
        if bool_decide (allowed_subscription_ids self ≠ [])
        then get_allowed_subscriptions self
        else if bool_decide (denied_subscription_ids self ≠ [])
        then get_not_denied_subscriptions self
        else seq 0 (length (subscriptions self)) in
      (set_subscriptions_to_be_labeled self l, l)
  end.

(** The loop of [get_labeled_targeted_subscriptions] over the positions
    [todo]: the subscription objects after it, and the labeled
    subscriptions, unless a call raised. *)
Fixpoint label_subscriptions (dataframe_measurements : DataFrame.t)
    (objects : list Subscription.t) (todo : list nat)
  : list Subscription.t * result (list Subscription.t) :=
  match todo with
  | [] => (objects, Return [])
  | i :: todo' =>
      match objects !! i with
      | None => (objects, Raise (OtherException "IndexError"))
      | Some subscription =>
          let '(subscription, r) :=
            Subscription.get_energy_label subscription (Frame dataframe_measurements) in
          let objects := <[i := subscription]> objects in
          match r with
          | Raise e => (objects, Raise e)
          | Return _ =>
              let '(objects, labeled) :=
                label_subscriptions dataframe_measurements objects todo' in
              (objects, cons subscription <$> labeled)
          end
      end
  end.

Definition get_labeled_targeted_subscriptions (self : t)
    (defender_for_cloud_findings : list Finding.t)
  : t * result (list Subscription.t) :=
  let dataframe_measurements :=
    pd_DataFrame (map Finding.measurement_data defender_for_cloud_findings) in
  let '(self, todo) := subscriptions_to_be_labeled self in
  let '(objects, labeled) :=
    label_subscriptions dataframe_measurements (subscriptions self) todo in
  (set_subscriptions self objects, labeled).

(** [[subscription.energy_label.label for subscription in labeled_subscriptions]] *)
Definition labels_of (labeled_subscriptions : list Subscription.t)
  : result (list string) :=
  mapM (fun subscription =>
          EnergyLabel.label <$>
            getattr_energy_label (Subscription.energy_label subscription))
    labeled_subscriptions.

Definition get_energy_label_of_targeted_subscriptions (self : t)
    (defender_for_cloud_findings : list Finding.t)
  : t * result AggregateSubscriptionEnergyLabel.t :=
  match _targeted_subscriptions_energy_label self with
  | Some l => (self, Return l)
  | None =>
      let '(self, labeled) :=
        get_labeled_targeted_subscriptions self defender_for_cloud_findings in
      let energy_label :=
        labeled_subscriptions ← labeled;
        labels ← labels_of labeled_subscriptions;
        aggregate_energy_label (thresholds self) labels in
      match energy_label with
      | Raise e => (self, Raise e)
      | Return l => (set_targeted_subscriptions_energy_label self l, Return l)
      end
  end.

(** Modelled from the spec: the class [TenantEnergyLabel] of [labels.py],
    which is not among the sources: {label, bestLabelSeen, worstLabelSeen,
    coveragePercent}, with the keyword names of the constructor call. *)
Record TenantEnergyLabel : Type := mk_TenantEnergyLabel {
  label : string;
  best_label : string;
  worst_label : string;
  coverage : string
}.

Section Coverage.
(** The format [f'{coverage_percentage:.2f}'] of a binary64 number. *)
Variable format_2f : float → string.

Definition get_energy_label (self : t)
    (defender_for_cloud_findings : list Finding.t)
  : t * result TenantEnergyLabel :=
  let '(self, aggregate_label) :=
    get_energy_label_of_targeted_subscriptions self defender_for_cloud_findings in
  match aggregate_label with
  | Raise e => (self, Raise e)
  | Return aggregate_label =>
      let '(self, todo) := subscriptions_to_be_labeled self in
      (self,
       coverage_percentage ←
         div_times_100 (Z.of_nat (length todo))
           (Z.of_nat (length (subscriptions self)));
       mret (mk_TenantEnergyLabel
               (AggregateSubscriptionEnergyLabel.label aggregate_label)
               (AggregateSubscriptionEnergyLabel.best_label aggregate_label)
               (AggregateSubscriptionEnergyLabel.worst_label aggregate_label)
               (format_2f coverage_percentage +:+ "%")))
  end.
End Coverage.
End Tenant.

(** ** What an entity observes in a list of findings

    These follow the words of the specification: the findings of an entity
    are the ones whose identifier equals the entity's, and the observed
    count of a severity is how many of them carry it.  The identifier of a
    subscription is its subscription id; the identifier of a resource group
    is its name in lower case, [lower name] for the case mapping [lower]. *)
Definition observed (severity : string) (open_findings : list Finding.t) : Z :=
  Z.of_nat (length (filter (fun f => Finding.severity f = severity) open_findings)).

Definition findings_of_subscription (self : Subscription.t)
    (findings : list Finding.t) : list Finding.t :=
  filter (fun f => Finding.subscription_id f = Subscription.subscription_id self)
    findings.

Definition findings_of_resource_group (lower : string → string)
    (self : ResourceGroup.t) (findings : list Finding.t) : list Finding.t :=
  filter (fun f => Finding.resource_group f = lower (ResourceGroup.name self))
    findings.

(** A rule holds for observed counts when none of them exceeds its maximum. *)
Definition holds (rule : Threshold.t) (high medium low : Z) : Prop :=
  high ≤ Threshold.high rule ∧ medium ≤ Threshold.medium rule
  ∧ low ≤ Threshold.low rule.

(** [rule] is the first rule of the table, in table order, that holds. *)
Definition first_rule (thresholds : list Threshold.t) (high medium low : Z)
    (rule : Threshold.t) : Prop :=
  ∃ before after,
    thresholds = before ++ rule :: after
    ∧ Forall (fun earlier => ¬ holds earlier high medium low) before
    ∧ holds rule high medium low.


(** ** Concrete values for the examples *)

(** The case mapping of the examples, whose names are ASCII: on a string
    of ASCII characters [str.lower] maps the letters A to Z to a to z and
    keeps every other character. *)
Definition ascii_lower (c : ascii) : ascii :=
  let n := N_of_ascii c in
  if ((65 <=? n) && (n <=? 90))%N then ascii_of_N (n + 32) else c.

Fixpoint lower_ascii (s : string) : string :=
  match s with
  | EmptyString => EmptyString
  | String c s' => String (ascii_lower c) (lower_ascii s')
  end.

(** A finding as the findings query returns it, with the three fields that
    matter for labelling. *)
Definition finding (subscription_id resource_group severity : string) : Finding.t :=
  Finding.mk (list_to_map [("subscriptionId", subscription_id);
                           ("resourceGroup", resource_group);
                           ("severity", severity)]).

(** A subscription and a resource group as they are after [__init__]: no
    [energy_label] attribute yet. *)
Definition new_subscription (subscription_id : string)
    (thresholds : list Threshold.t) : Subscription.t :=
  Subscription.mk
    (Subscription.mk_data ("/subscriptions/" +:+ subscription_id) subscription_id
       subscription_id "tenant" "Enabled")
    thresholds None.

Definition new_resource_group (name : string) (thresholds : list Threshold.t)
  : ResourceGroup.t :=
  ResourceGroup.mk (ResourceGroup.mk_data name "westeurope") thresholds None.

(** The table of the specification's example, with a large number for its
    unbounded maxima. *)
Definition example_thresholds : list Threshold.t :=
  [Threshold.mk "A" 0 0 5; Threshold.mk "B" 0 5 10;
   Threshold.mk "F" 1000000 1000000 1000000].

Definition example_findings : list Finding.t :=
  [finding "sub-1" "rg-1" "Medium"; finding "sub-1" "rg-1" "Low";
   finding "sub-2" "rg-1" "High"; finding "sub-1" "rg-2" "Medium"].

(** A table whose only rule no count can satisfy. *)
Definition impossible_thresholds : list Threshold.t := [Threshold.mk "A" (-1) (-1) (-1)].

(** A table whose rules allow no high finding at all. *)
Definition strict_thresholds : list Threshold.t :=
  [Threshold.mk "A" 0 0 5; Threshold.mk "B" 0 5 10].

(** A table that starts below the best label. *)
Definition thresholds_from_B : list Threshold.t :=
  [Threshold.mk "B" 0 5 10; Threshold.mk "F" 1000000 1000000 1000000].

(** The label A with no findings, whichever label class carries it. *)
Definition is_A_without_findings (l : EnergyLabel.t) : Prop :=
  EnergyLabel.label l = "A"
  ∧ EnergyLabel.number_of_high_findings l = 0
  ∧ EnergyLabel.number_of_medium_findings l = 0
  ∧ EnergyLabel.number_of_low_findings l = 0.

(** A frame of findings without the severity column. *)
Definition frame_without_severity : DataFrame.t :=
  DataFrame.mk ["Subscription ID"; "Resource Group Name"] [["sub-1"; "rg-1"]].

(** A frame of findings that has the columns and no rows. *)
Definition frame_without_rows : DataFrame.t :=
  DataFrame.mk ["Subscription ID"; "Resource Group Name"; "Severity"] [].

(** A subscription that an earlier call labeled A. *)
Definition labeled_subscription : Subscription.t :=
  Subscription.set_energy_label (new_subscription "sub-1" example_thresholds)
    (Some (EnergyLabel.mk EnergyLabel.SubscriptionEnergyLabel "A" 0 0 0)).

(** What a resource group can see of a finding: the name of its resource
    group and its severity. *)
Definition name_and_severity (f : Finding.t) : string * string :=
  (Finding.resource_group f, Finding.severity f).

(** An argument validation that takes the two lists as they are given, and
    no list as the empty list. *)
Definition lists_as_given (allowed denied : option (list string))
  : result (list string * list string) :=
  Return (default [] allowed, default [] denied).

Definition example_listing : list Subscription.t :=
  [new_subscription "sub-1" example_thresholds;
   new_subscription "sub-2" example_thresholds;
   new_subscription "sub-3" example_thresholds].

(** ** What the aggregation rules see of a population

    The population is the list of the labels of the labeled subscriptions.
    [subscription_sums labels rules] is the list of that name in the code
    after the rules [rules]: for each of them, in table order, the number
    of subscriptions that carry the label of the rule
    ([label_counter.get(label, 0)]).  [rules] are the rules up to and
    including the current one; the code compares the sum of the list, as a
    percentage of the population, with the percentage of the current
    rule. *)
Definition subscription_sums (labels : list string)
    (rules : list TenantThreshold.t) : list Z :=
  map (fun rule => default 0 (Counter labels !! TenantThreshold.label rule)) rules.

(** [sum(subscription_sums) / number_of_subscriptions * 100], in binary64
    as the code computes it. *)
Definition percentage_of_sum (count : Z) (labels : list string) : float :=
  PrimFloat.mul (true_divide count (Z.of_nat (length labels))) 100.

Definition cumulative_percentage (labels : list string)
    (rules : list TenantThreshold.t) : float :=
  percentage_of_sum (sum (subscription_sums labels rules)) labels.

(** The percentage check of [rule], which comes after the rules [before]. *)
Definition reached (labels : list string) (before : list TenantThreshold.t)
    (rule : TenantThreshold.t) : bool :=
  PrimFloat.leb (TenantThreshold.percentage rule)
    (cumulative_percentage labels (before ++ [rule])).



Definition example_tenant_thresholds : list TenantThreshold.t :=
  [TenantThreshold.mk "A" 90; TenantThreshold.mk "B" 70;
   TenantThreshold.mk "C" 50; TenantThreshold.mk "D" 30;
   TenantThreshold.mk "E" 20].

(** The label of the first rule of [todo] whose percentage check succeeds,
    where the rules [done] come before [todo] in the table. *)
Fixpoint first_reached_label (labels : list string)
    (done todo : list TenantThreshold.t) : option string :=
  match todo with
  | [] => None
  | rule :: todo' =>
      if reached labels done rule then Some (TenantThreshold.label rule)
      else first_reached_label labels (done ++ [rule]) todo'
  end.

(** The labels of four labeled subscriptions. *)
Definition example_labels : list string := ["A"; "B"; "A"; "F"].

(** A tenant whose listing has no subscription. *)
Definition empty_tenant : Tenant.t :=
  Tenant.mk "tenant" example_tenant_thresholds example_thresholds
    example_thresholds [] [] [] None None.

(** ** The order of the labels, and tables in that order

    The labels are compared as strings, as the code does with [min] and
    [max]: A is the best label and F the worst. *)
Definition better (l l' : string) : Prop := String.ltb l l' = true.

Definition better_or_equal (l l' : string) : Prop := String.leb l l' = true.

Global Instance better_or_equal_dec (l l' : string) : Decision (better_or_equal l l').
Proof. unfold better_or_equal. apply _. Defined.



(** The number of subscriptions whose label is the label of one of the
    rules. *)
Definition count_with_rule (labels : list string)
    (rules : list TenantThreshold.t) : Z :=
  Z.of_nat (length (filter (fun l => l ∈ map TenantThreshold.label rules) labels)).



(** A table of rules from the best to the worst label, none worse than F. *)
Definition best_to_worst (thresholds : list TenantThreshold.t) : Prop :=
  StronglySorted better (map TenantThreshold.label thresholds)
  ∧ Forall (fun l => better_or_equal l "F") (map TenantThreshold.label thresholds).

(** A table without a rule for the label A. *)
Definition thresholds_without_A : list TenantThreshold.t :=
  [TenantThreshold.mk "B" 70; TenantThreshold.mk "C" 50;
   TenantThreshold.mk "D" 30; TenantThreshold.mk "E" 20].

(** A population for the table without A. *)
Definition three_B_one_A : list string := ["B"; "B"; "B"; "A"].

(** ** Defender for Cloud *)
Module DefenderForCloud.
(** The accepted frameworks, a set in the source. *)
Definition frameworks : gset string :=
  {[ "Azure Security Benchmark"; "SOC TSP"; "Azure CIS 1.1.0" ]}.

Record t : Type := mk { subscription_list : list string }.

(** The [frameworks] argument: one framework, or a list or tuple of them. *)
Inductive frameworks_arg : Type :=
| One (framework : string)
| Many (frameworks : list string).

(** [validate_frameworks]; the exception [InvalidFrameworks] of
    [azureenergylabelerlibexceptions] is [OtherException "InvalidFrameworks"]. *)
Definition validate_frameworks (frameworks : frameworks_arg) : result (list string) :=
  let frameworks :=
    match frameworks with
    | One framework => [framework]
    | Many frameworks => frameworks
    end in
  if bool_decide ((list_to_set frameworks : gset string) ⊆ DefenderForCloud.frameworks)
  then Return frameworks
  else Raise (OtherException "InvalidFrameworks").

Section Query.
(** The resource graph query for the findings of one framework over the
    subscriptions of the list: the records of its answer, or what it
    raises. *)
Variable resources : list string → string → result (list (gmap string string)).

(** The loop over the frameworks; [finding_details_list] is the list of
    that name on entry. *)
Fixpoint for_framework (subscription_list frameworks : list string)
    (finding_details_list : list Finding.t) : result (list Finding.t) :=
  match frameworks with
  | [] => Return finding_details_list
  | framework :: frameworks' =>
      finding_data ← resources subscription_list framework;
      for_framework subscription_list frameworks'
        (finding_details_list ++ map Finding.mk finding_data)
  end.

Definition get_findings (self : t) (frameworks : frameworks_arg)
  : result (list Finding.t) :=
  frameworks ← validate_frameworks frameworks;
  for_framework (subscription_list self) frameworks [].
End Query.
End DefenderForCloud.

(** The subscription objects at the positions [l] of the listing of a
    tenant. *)
Definition subscriptions_at (self : Tenant.t) (l : list nat)
  : list (option Subscription.t) :=
  map (fun i => Tenant.subscriptions self !! i) l.

(** The severities that are counted. *)
Definition counted_severity (severity : string) : Prop :=
  severity = "High" ∨ severity = "Medium" ∨ severity = "Low".

(** A frame with a row and a misspelt identifier column. *)
Definition frame_without_identifier : DataFrame.t :=
  DataFrame.mk ["subscription id"; "Resource group"; "Severity"]
    [["sub-1"; "rg-1"; "High"]].

(** A tenant over the example listing with the given lists, before any
    access to its subscriptions to be labeled. *)
Definition tenant_with (allowed denied : list string) : Tenant.t :=
  Tenant.mk "tenant" example_tenant_thresholds example_thresholds
    example_thresholds example_listing allowed denied None None.

(** The frameworks of an argument, as the list that is validated. *)
Definition frameworks_of (frameworks : DefenderForCloud.frameworks_arg) : list string :=
  match frameworks with
  | DefenderForCloud.One framework => [framework]
  | DefenderForCloud.Many frameworks => frameworks
  end.

(** A framework is accepted when it is one of the three names, letter for
    letter. *)
Definition accepted (framework : string) : Prop :=
  framework = "Azure Security Benchmark" ∨ framework = "SOC TSP"
  ∨ framework = "Azure CIS 1.1.0".

(** A query that answers with one record for SOC TSP, two for the Azure
    Security Benchmark, and fails for every other framework. *)
Definition example_resources (subscription_list : list string) (framework : string)
  : result (list (gmap string string)) :=
  if String.eqb framework "SOC TSP"
  then Return [Finding._data (finding "sub-1" "rg-1" "High")]
  else if String.eqb framework "Azure Security Benchmark"
  then Return [Finding._data (finding "sub-1" "rg-1" "Low");
               Finding._data (finding "sub-2" "rg-2" "Medium")]
  else Raise (OtherException "HttpResponseError").

(** ** Rounding to binary64, on integers

    The operations of binary64 arithmetic round a mantissa [m] with the
    position [l] of what was cut off below it: nothing, less than half a
    unit, half a unit, or more.  The pair is one integer here, its code:
    four times the mantissa plus 0, 1, 2 or 3.  Codes at one exponent are
    in the order of the numbers that they stand for. *)
Definition code (m : Z) (l : location) : Z :=
  4 * m + match l with
          | loc_Exact => 0
          | loc_Inexact Lt => 1
          | loc_Inexact Eq => 2
          | loc_Inexact Gt => 3
          end.

Definition shr_code (mrs : shr_record) : Z :=
  4 * shr_m mrs + (if shr_r mrs then 2 else 0) + (if shr_s mrs then 1 else 0).

(** The code after a shift to the right by one bit, and by [n] bits. *)
Definition half (k : Z) : Z := 2 * (k / 4) + (if k mod 4 =? 0 then 0 else 1).

Definition halves (n : nat) (k : Z) : Z := Nat.iter n half k.

(** The mantissa that a code rounds to: to nearest, ties to even. *)
Definition round_code (k : Z) : Z :=
  k / 4 + (if (k mod 4 =? 3) || ((k mod 4 =? 2) && Z.odd (k / 4)) then 1 else 0).

(** The code of the quotient [a / b] at the exponent 1. *)
Definition ratio_code (a b : Z) : Z := 2 * (a / b) + (if a mod b =? 0 then 0 else 1).

(** The code of the quotient [c / n] at the exponent [E], for [E] up to 1. *)
Definition quotient_code (c n E : Z) : Z := ratio_code (c * 2 ^ (1 - E)) n.

(** A mantissa that rounding has carried to 2^53 is the mantissa 2^52 one
    exponent higher. *)
Definition normal_mantissa (r : Z) : Z := if r =? 2 ^ 53 then 2 ^ 52 else r.

Definition normal_exponent (r E : Z) : Z := if r =? 2 ^ 53 then E + 1 else E.

(** The binary64 number of a rounded mantissa [r] at the exponent [E]. *)
Definition rounded (r E : Z) : spec_float :=
  if r =? 0 then S754_zero false
  else S754_finite false (Z.to_pos (normal_mantissa r)) (normal_exponent r E).

(** A code [k] at the exponent [E] is in range when it has at most 53 bits
    of mantissa, and exactly 53 unless [E] is the least exponent. *)
Definition in_range (k E : Z) : Prop :=
  0 ≤ k < 2 ^ 55 ∧ (2 ^ 54 ≤ k ∨ E = -1074) ∧ -1074 ≤ E.

(** The order of two rounded numbers. *)
Definition rounded_le (r E r' E' : Z) : Prop :=
  r = 0
  ∨ (0 < r'
     ∧ (normal_exponent r E < normal_exponent r' E'
        ∨ (normal_exponent r E = normal_exponent r' E'
           ∧ normal_mantissa r ≤ normal_mantissa r'))).

(** The mantissa of the binary64 number 100, whose exponent is -46. *)
Definition mantissa_100 : Z := 100 * 2 ^ 46.

(** The product of a mantissa and the mantissa of 100, as a code at
    the exponent [E]; [exponent] is the exponent of the mantissa. *)
Definition product_code (mantissa exponent E : Z) : Z :=
  halves (Z.to_nat (E - (exponent - 46))) (4 * (mantissa * mantissa_100)).
(** * Properties *)

(** ** Data frames of findings *)

Lemma within_holds rule high medium low :
  within rule high medium low = true ↔ holds rule high medium low.
Proof.
  unfold within, holds. rewrite !andb_true_iff, !Z.leb_le. tauto.
Qed.

Lemma within_not_holds rule high medium low :
  within rule high medium low = false ↔ ¬ holds rule high medium low.
Proof.
  rewrite <- within_holds. destruct (within rule high medium low); split; congruence.
Qed.

Lemma boolean_mask_map {A B : Type} (p : A → bool) (g : A → B) (l : list A) :
  DataFrame.boolean_mask (map p l) (map g l) = map g (List.filter p l).
Proof.
  induction l as [|a l IH]; simpl; [reflexivity|].
  destruct (p a); simpl; rewrite IH; reflexivity.
Qed.

Lemma filter_eqb_decide {A : Type} (g : A → string) (v : string) (l : list A) :
  List.filter (fun a => String.eqb (g a) v) l = filter (fun a => g a = v) l.
Proof.
  induction l as [|a l IH]; simpl; [reflexivity|].
  rewrite filter_cons. destruct (String.eqb_spec (g a) v) as [Heq|Hne].
  - rewrite decide_True by assumption. f_equal. exact IH.
  - rewrite decide_False by assumption. exact IH.
Qed.

(** Selecting the rows of a frame of measurements by the value of one of
    its three columns. *)
Lemma where_eq_rows (i : nat) (key value : string) (rows : list MeasurementData.t) :
  DataFrame.get_loc MeasurementData.keys key = Some i →
  DataFrame.where_eq
    (DataFrame.mk MeasurementData.keys (map MeasurementData.row rows)) key value
  = Return (DataFrame.mk MeasurementData.keys
              (map MeasurementData.row
                 (filter (fun m => nth i (MeasurementData.row m) "" = value) rows))).
Proof.
  intros Hloc. unfold DataFrame.where_eq, DataFrame.getitem. simpl DataFrame.columns.
  rewrite Hloc. simpl. unfold DataFrame.getitem_mask, DataFrame.eq. simpl.
  rewrite !map_map, boolean_mask_map, filter_eqb_decide. reflexivity.
Qed.

Lemma filter_measurement_data (P : MeasurementData.t → Prop)
    `{!∀ m, Decision (P m)} (findings : list Finding.t) :
  filter P (map Finding.measurement_data findings)
  = map Finding.measurement_data
      (filter (fun f => P (Finding.measurement_data f)) findings).
Proof.
  induction findings as [|f fs IH]; simpl; [reflexivity|].
  rewrite !filter_cons. destruct (decide (P (Finding.measurement_data f))); simpl;
    rewrite IH; reflexivity.
Qed.

(** The number of findings of one severity in the frame of the rows of
    [open_findings]. *)
Lemma number_of_findings_rows (severity : string) (open_findings : list Finding.t) :
  number_of_findings
    (DataFrame.mk MeasurementData.keys
       (map MeasurementData.row (map Finding.measurement_data open_findings)))
    severity
  = Return (observed severity open_findings).
Proof.
  unfold number_of_findings. rewrite (where_eq_rows 2) by reflexivity.
  simpl. unfold DataFrame.shape0, observed. simpl.
  rewrite filter_measurement_data, !length_map. reflexivity.
Qed.

(** The three counts and then the loop, on such a frame. *)
Lemma calculate_rows new thresholds (open_findings : list Finding.t) energy_label :
  calculate new thresholds
    (DataFrame.mk MeasurementData.keys
       (map MeasurementData.row (map Finding.measurement_data open_findings)))
    energy_label
  = Return (for_threshold new thresholds (observed "High" open_findings)
              (observed "Medium" open_findings) (observed "Low" open_findings)
              energy_label).
Proof.
  unfold calculate. rewrite !number_of_findings_rows. reflexivity.
Qed.

Lemma pd_DataFrame_cons (f : Finding.t) (findings : list Finding.t) :
  pd_DataFrame (map Finding.measurement_data (f :: findings))
  = DataFrame.mk MeasurementData.keys
      (map MeasurementData.row (map Finding.measurement_data (f :: findings))).
Proof. reflexivity. Qed.

(** ** The loop over the thresholds *)

Lemma for_threshold_first new thresholds high medium low rule energy_label :
  first_rule thresholds high medium low rule →
  for_threshold new thresholds high medium low energy_label
  = Some (new (Threshold.label rule) high medium low).
Proof.
  intros (before & after & -> & Hbefore & Hrule).
  revert energy_label.
  induction Hbefore as [|earlier before Hearlier _ IH]; intros energy_label; simpl.
  - apply within_holds in Hrule. rewrite Hrule. reflexivity.
  - apply within_not_holds in Hearlier. rewrite Hearlier. apply IH.
Qed.

Lemma for_threshold_none new thresholds high medium low energy_label :
  thresholds ≠ [] →
  Forall (fun rule => ¬ holds rule high medium low) thresholds →
  for_threshold new thresholds high medium low energy_label
  = Some (new "F" high medium low).
Proof.
  intros Hne Hall. revert energy_label Hne.
  induction Hall as [|rule rest Hrule Hrest IH]; intros energy_label Hne;
    [congruence|].
  simpl. apply within_not_holds in Hrule. rewrite Hrule.
  destruct rest as [|rule' rest]; [reflexivity|].
  apply IH. discriminate.
Qed.

(** ** [get_energy_label] on a list of findings that is not empty *)

Lemma Subscription_get_energy_label_findings (self : Subscription.t)
    (findings : list Finding.t) :
  findings ≠ [] →
  let open_findings := findings_of_subscription self findings in
  let l := for_threshold (EnergyLabel.mk EnergyLabel.SubscriptionEnergyLabel)
             (Subscription._subscription_thresholds self)
             (observed "High" open_findings) (observed "Medium" open_findings)
             (observed "Low" open_findings) (Subscription.energy_label self) in
  Subscription.get_energy_label self (Findings findings)
  = (Subscription.set_energy_label self l, getattr_energy_label l).
Proof.
  intros Hne. destruct findings as [|f fs]; [congruence|].
  unfold Subscription.get_energy_label, as_frame.
  rewrite pd_DataFrame_cons, (where_eq_rows 0) by reflexivity.
  rewrite filter_measurement_data, calculate_rows. reflexivity.
Qed.

Lemma ResourceGroup_get_energy_label_findings (lower : string → string)
    (self : ResourceGroup.t)
    (findings : list Finding.t) :
  findings ≠ [] →
  let open_findings := findings_of_resource_group lower self findings in
  let l := for_threshold (EnergyLabel.mk EnergyLabel.ResourceGroupEnergyLabel)
             (ResourceGroup._threshold self)
             (observed "High" open_findings) (observed "Medium" open_findings)
             (observed "Low" open_findings) (ResourceGroup.energy_label self) in
  ResourceGroup.get_energy_label lower self (Findings findings)
  = (ResourceGroup.set_energy_label self l, getattr_energy_label l).
Proof.
  intros Hne. destruct findings as [|f fs]; [congruence|].
  unfold ResourceGroup.get_energy_label, as_frame.
  rewrite pd_DataFrame_cons, (where_eq_rows 1) by reflexivity.
  rewrite filter_measurement_data, calculate_rows. reflexivity.
Qed.

(** The frame that [Tenant.get_labeled_targeted_subscriptions] builds and
    passes on is the frame that a list of findings is turned into. *)
Lemma get_energy_label_frame (self : Subscription.t) (findings : list Finding.t) :
  Subscription.get_energy_label self
    (Frame (pd_DataFrame (map Finding.measurement_data findings)))
  = Subscription.get_energy_label self (Findings findings).
Proof. reflexivity. Qed.

(** On an empty list of findings the frame has no columns, and the label is
    A with no findings, whatever the thresholds are. *)
Lemma Subscription_get_energy_label_nil (self : Subscription.t) :
  let l := EnergyLabel.mk EnergyLabel.ResourceGroupEnergyLabel "A" 0 0 0 in
  Subscription.get_energy_label self (Findings [])
  = (Subscription.set_energy_label self (Some l), Return l).
Proof. reflexivity. Qed.

Lemma ResourceGroup_get_energy_label_nil (lower : string → string)
    (self : ResourceGroup.t) :
  let l := EnergyLabel.mk EnergyLabel.ResourceGroupEnergyLabel "A" 0 0 0 in
  ResourceGroup.get_energy_label lower self (Findings [])
  = (ResourceGroup.set_energy_label self (Some l), Return l).
Proof. reflexivity. Qed.

(** ** Classification of an entity *)

(** C1: for an entity (subscription or resource group) with at least one
    matching finding, [get_energy_label] returns, and leaves on the entity,
    the label of the first rule of the table, in table order, none of whose
    maxima is exceeded by the observed counts, together with the observed
    counts; the comparison is inclusive, so counts equal to the maxima of a
    rule are within that rule. *)
Theorem get_energy_label_first_rule :
  (∀ (self : Subscription.t) (findings : list Finding.t) (rule : Threshold.t),
     let open_findings := findings_of_subscription self findings in
     let high := observed "High" open_findings in
     let medium := observed "Medium" open_findings in
     let low := observed "Low" open_findings in
     let l := EnergyLabel.mk EnergyLabel.SubscriptionEnergyLabel
                (Threshold.label rule) high medium low in
     open_findings ≠ [] →
     first_rule (Subscription._subscription_thresholds self) high medium low rule →
     Subscription.get_energy_label self (Findings findings)
     = (Subscription.set_energy_label self (Some l), Return l))
  ∧ (∀ (lower : string → string) (self : ResourceGroup.t)
       (findings : list Finding.t) (rule : Threshold.t),
       let open_findings := findings_of_resource_group lower self findings in
       let high := observed "High" open_findings in
       let medium := observed "Medium" open_findings in
       let low := observed "Low" open_findings in
       let l := EnergyLabel.mk EnergyLabel.ResourceGroupEnergyLabel
                  (Threshold.label rule) high medium low in
       open_findings ≠ [] →
       first_rule (ResourceGroup._threshold self) high medium low rule →
       ResourceGroup.get_energy_label lower self (Findings findings)
       = (ResourceGroup.set_energy_label self (Some l), Return l))
  ∧ (∀ rule : Threshold.t,
       within rule (Threshold.high rule) (Threshold.medium rule)
         (Threshold.low rule) = true).
Proof.
  split; [|split].
  - intros self findings rule open_findings high medium low l Hopen Hfirst.
    assert (findings ≠ []) as Hne.
    { intros ->. apply Hopen. reflexivity. }
    rewrite Subscription_get_energy_label_findings by exact Hne.
    fold open_findings high medium low.
    rewrite (for_threshold_first _ _ _ _ _ rule) by exact Hfirst.
    reflexivity.
  - intros lower self findings rule open_findings high medium low l Hopen Hfirst.
    assert (findings ≠ []) as Hne.
    { intros ->. apply Hopen. reflexivity. }
    rewrite ResourceGroup_get_energy_label_findings by exact Hne.
    fold open_findings high medium low.
    rewrite (for_threshold_first _ _ _ _ _ rule) by exact Hfirst.
    reflexivity.
  - intros rule. apply within_holds. unfold holds. lia.
Qed.

Lemma get_energy_label_first_rule_witness :
  Subscription.get_energy_label (new_subscription "sub-1" example_thresholds)
    (Findings example_findings)
  = (Subscription.set_energy_label (new_subscription "sub-1" example_thresholds)
       (Some (EnergyLabel.mk EnergyLabel.SubscriptionEnergyLabel "B" 0 2 1)),
     Return (EnergyLabel.mk EnergyLabel.SubscriptionEnergyLabel "B" 0 2 1))
  ∧ ResourceGroup.get_energy_label lower_ascii
      (new_resource_group "RG-1" example_thresholds) (Findings example_findings)
    = (ResourceGroup.set_energy_label (new_resource_group "RG-1" example_thresholds)
         (Some (EnergyLabel.mk EnergyLabel.ResourceGroupEnergyLabel "F" 1 1 1)),
       Return (EnergyLabel.mk EnergyLabel.ResourceGroupEnergyLabel "F" 1 1 1)).
Proof.
  split.
  - apply (proj1 get_energy_label_first_rule
             (new_subscription "sub-1" example_thresholds) example_findings
             (Threshold.mk "B" 0 5 10)).
    + vm_compute. discriminate.
    + exists [Threshold.mk "A" 0 0 5], [Threshold.mk "F" 1000000 1000000 1000000].
      split; [reflexivity|]. split.
      * constructor; [|constructor]. vm_compute. intros (_ & H & _). apply H. reflexivity.
      * vm_compute. repeat split; discriminate.
  - apply (proj1 (proj2 get_energy_label_first_rule) lower_ascii
             (new_resource_group "RG-1" example_thresholds) example_findings
             (Threshold.mk "F" 1000000 1000000 1000000)).
    + vm_compute. discriminate.
    + exists [Threshold.mk "A" 0 0 5; Threshold.mk "B" 0 5 10], [].
      split; [reflexivity|]. split.
      * repeat constructor; vm_compute; intros (H & _); apply H; reflexivity.
      * vm_compute. repeat split; discriminate.
Defined.

(** A frame that has the identifier column and no severity column: the
    [KeyError] of the severity lookup is caught and logged, no label is
    assigned, and the method ends by reading the attribute as it was. *)
Lemma Subscription_get_energy_label_no_severity (self : Subscription.t)
    (df : DataFrame.t) (i : nat) :
  DataFrame.get_loc (DataFrame.columns df) "Subscription ID" = Some i →
  DataFrame.get_loc (DataFrame.columns df) "Severity" = None →
  Subscription.get_energy_label self (Frame df)
  = (self, getattr_energy_label (Subscription.energy_label self)).
Proof.
  intros Hid Hseverity.
  unfold Subscription.get_energy_label, as_frame, DataFrame.where_eq, DataFrame.getitem.
  rewrite Hid. simpl.
  unfold calculate, number_of_findings, DataFrame.where_eq, DataFrame.getitem.
  simpl. rewrite Hseverity. reflexivity.
Qed.

(** What the code does when no rule holds, on a table that has rules and
    findings that are not empty: the label is F with the observed counts. *)
Lemma Subscription_get_energy_label_no_rule (self : Subscription.t)
    (findings : list Finding.t) :
  let open_findings := findings_of_subscription self findings in
  let high := observed "High" open_findings in
  let medium := observed "Medium" open_findings in
  let low := observed "Low" open_findings in
  let l := EnergyLabel.mk EnergyLabel.SubscriptionEnergyLabel "F" high medium low in
  findings ≠ [] →
  Subscription._subscription_thresholds self ≠ [] →
  Forall (fun rule => ¬ holds rule high medium low)
    (Subscription._subscription_thresholds self) →
  Subscription.get_energy_label self (Findings findings)
  = (Subscription.set_energy_label self (Some l), Return l).
Proof.
  intros open_findings high medium low l Hne Htable Hall.
  rewrite Subscription_get_energy_label_findings by exact Hne.
  fold open_findings high medium low.
  rewrite for_threshold_none by assumption. reflexivity.
Qed.

Lemma ResourceGroup_get_energy_label_no_rule (lower : string → string)
    (self : ResourceGroup.t)
    (findings : list Finding.t) :
  let open_findings := findings_of_resource_group lower self findings in
  let high := observed "High" open_findings in
  let medium := observed "Medium" open_findings in
  let low := observed "Low" open_findings in
  let l := EnergyLabel.mk EnergyLabel.ResourceGroupEnergyLabel "F" high medium low in
  findings ≠ [] →
  ResourceGroup._threshold self ≠ [] →
  Forall (fun rule => ¬ holds rule high medium low) (ResourceGroup._threshold self) →
  ResourceGroup.get_energy_label lower self (Findings findings)
  = (ResourceGroup.set_energy_label self (Some l), Return l).
Proof.
  intros open_findings high medium low l Hne Htable Hall.
  rewrite ResourceGroup_get_energy_label_findings by exact Hne.
  fold open_findings high medium low.
  rewrite for_threshold_none by assumption. reflexivity.
Qed.

(** C3, as amended: for every entity, every list of findings that is not
    empty and every threshold table that has at least one rule, if the
    observed counts of the entity fail every rule of the table, then
    [get_energy_label] returns, and leaves on the entity, the label F with
    the observed counts. *)
Theorem get_energy_label_no_rule :
  (∀ (self : Subscription.t) (findings : list Finding.t),
     let open_findings := findings_of_subscription self findings in
     let high := observed "High" open_findings in
     let medium := observed "Medium" open_findings in
     let low := observed "Low" open_findings in
     let l := EnergyLabel.mk EnergyLabel.SubscriptionEnergyLabel "F" high medium low in
     findings ≠ [] →
     Subscription._subscription_thresholds self ≠ [] →
     Forall (fun rule => ¬ holds rule high medium low)
       (Subscription._subscription_thresholds self) →
     Subscription.get_energy_label self (Findings findings)
     = (Subscription.set_energy_label self (Some l), Return l))
  ∧ (∀ (lower : string → string) (self : ResourceGroup.t)
       (findings : list Finding.t),
       let open_findings := findings_of_resource_group lower self findings in
       let high := observed "High" open_findings in
       let medium := observed "Medium" open_findings in
       let low := observed "Low" open_findings in
       let l := EnergyLabel.mk EnergyLabel.ResourceGroupEnergyLabel "F" high medium low in
       findings ≠ [] →
       ResourceGroup._threshold self ≠ [] →
       Forall (fun rule => ¬ holds rule high medium low) (ResourceGroup._threshold self) →
       ResourceGroup.get_energy_label lower self (Findings findings)
       = (ResourceGroup.set_energy_label self (Some l), Return l)).
Proof.
  split.
  - exact Subscription_get_energy_label_no_rule.
  - exact ResourceGroup_get_energy_label_no_rule.
Qed.

Lemma get_energy_label_no_rule_witness :
  Subscription.get_energy_label (new_subscription "sub-2" strict_thresholds)
    (Findings example_findings)
  = (Subscription.set_energy_label (new_subscription "sub-2" strict_thresholds)
       (Some (EnergyLabel.mk EnergyLabel.SubscriptionEnergyLabel "F" 1 0 0)),
     Return (EnergyLabel.mk EnergyLabel.SubscriptionEnergyLabel "F" 1 0 0))
  ∧ ResourceGroup.get_energy_label lower_ascii
      (new_resource_group "rg-1" strict_thresholds) (Findings example_findings)
    = (ResourceGroup.set_energy_label (new_resource_group "rg-1" strict_thresholds)
         (Some (EnergyLabel.mk EnergyLabel.ResourceGroupEnergyLabel "F" 1 1 1)),
       Return (EnergyLabel.mk EnergyLabel.ResourceGroupEnergyLabel "F" 1 1 1)).
Proof.
  split.
  - apply (proj1 get_energy_label_no_rule
             (new_subscription "sub-2" strict_thresholds) example_findings).
    + discriminate.
    + discriminate.
    + repeat constructor; vm_compute; intros (H & _); apply H; reflexivity.
  - apply (proj2 get_energy_label_no_rule lower_ascii
             (new_resource_group "rg-1" strict_thresholds) example_findings).
    + discriminate.
    + discriminate.
    + repeat constructor; vm_compute; intros (H & _); apply H; reflexivity.
Defined.

(** C3 as stated fails on a table without rules: the counts fail every rule
    of it, the loop body never runs, no label is assigned, and on a
    subscription that was not labeled before the method ends in an
    [AttributeError] instead of the label F.  It also fails on an empty list
    of findings when no rule holds for the counts 0: the frame has no
    columns and the label is A before any rule is looked at. *)
Lemma get_energy_label_no_rule_counterexample :
  (let self := new_subscription "sub-1" [] in
   let findings := [finding "sub-1" "rg-1" "High"] in
   let open_findings := findings_of_subscription self findings in
   Forall (fun rule => ¬ holds rule (observed "High" open_findings)
                           (observed "Medium" open_findings)
                           (observed "Low" open_findings))
     (Subscription._subscription_thresholds self)
   ∧ Subscription.get_energy_label self (Findings findings)
     = (self, Raise (AttributeError "energy_label")))
  ∧ (let self := new_subscription "sub-1" impossible_thresholds in
     let open_findings := findings_of_subscription self [] in
     Forall (fun rule => ¬ holds rule (observed "High" open_findings)
                             (observed "Medium" open_findings)
                             (observed "Low" open_findings))
       (Subscription._subscription_thresholds self)
     ∧ (Subscription.get_energy_label self (Findings [])).2
       = Return (EnergyLabel.mk EnergyLabel.ResourceGroupEnergyLabel "A" 0 0 0)).
Proof.
  split; (split; [|reflexivity]).
  - constructor.
  - repeat constructor. vm_compute. intros (H & _). apply H. reflexivity.
Qed.

Lemma observed_nil (severity : string) : observed severity [] = 0.
Proof. reflexivity. Qed.

(** A frame none of whose rows carries the value in the column [key], and
    which has a severity column, has no row for any severity after the
    selection. *)
Lemma get_loc_elem_of (columns : list string) (key : string) :
  key ∈ columns → ∃ i, DataFrame.get_loc columns key = Some i.
Proof.
  induction columns as [|c columns IH]; intros Hin; [inversion Hin|].
  simpl. destruct (String.eqb_spec c key) as [->|Hne]; [eauto|].
  apply elem_of_cons in Hin as [->|Hin]; [congruence|].
  destruct (IH Hin) as [i ->]. eauto.
Qed.

Lemma boolean_mask_none {A : Type} (series : list string) (value : string)
    (rows : list A) :
  value ∉ series → DataFrame.boolean_mask (DataFrame.eq series value) rows = [].
Proof.
  revert rows. induction series as [|cell series IH]; intros rows Hout; [reflexivity|].
  destruct rows as [|row rows]; [reflexivity|]. simpl.
  destruct (String.eqb_spec cell value) as [->|_].
  - exfalso. apply Hout. apply elem_of_cons. left. reflexivity.
  - apply IH. intros Hin. apply Hout. apply elem_of_cons. right. exact Hin.
Qed.

Lemma calculate_no_rows new thresholds (columns : list string) energy_label :
  "Severity" ∈ columns →
  calculate new thresholds (DataFrame.mk columns []) energy_label
  = Return (for_threshold new thresholds 0 0 0 energy_label).
Proof.
  intros Hseverity. destruct (get_loc_elem_of _ _ Hseverity) as [i Hi].
  unfold calculate, number_of_findings, DataFrame.where_eq, DataFrame.getitem.
  simpl. rewrite Hi. reflexivity.
Qed.

(** C4, as amended: for every entity that matches no finding,
    [get_energy_label] returns the label A with counts 0 when the findings
    are an empty list, whose frame has no columns.  When they are a list
    that is not empty, or a frame that has the identifier column and the
    severity column (with or without rows), it returns the counts 0 with
    the label of the first rule of the table that holds for counts 0; that
    rule is the first rule of the table when its maxima are not negative,
    and so the label is A for every table that starts with such a rule for
    A. *)
Theorem get_energy_label_no_findings :
  (∀ self : Subscription.t,
     ∃ l, (Subscription.get_energy_label self (Findings [])).2 = Return l
          ∧ is_A_without_findings l)
  ∧ (∀ (lower : string → string) (self : ResourceGroup.t),
       ∃ l, (ResourceGroup.get_energy_label lower self (Findings [])).2 = Return l
            ∧ is_A_without_findings l)
  ∧ (∀ (self : Subscription.t) (findings : list Finding.t) (rule : Threshold.t),
       findings ≠ [] →
       findings_of_subscription self findings = [] →
       first_rule (Subscription._subscription_thresholds self) 0 0 0 rule →
       (Subscription.get_energy_label self (Findings findings)).2
       = Return (EnergyLabel.mk EnergyLabel.SubscriptionEnergyLabel
                   (Threshold.label rule) 0 0 0))
  ∧ (∀ (lower : string → string) (self : ResourceGroup.t)
       (findings : list Finding.t) (rule : Threshold.t),
       findings ≠ [] →
       findings_of_resource_group lower self findings = [] →
       first_rule (ResourceGroup._threshold self) 0 0 0 rule →
       (ResourceGroup.get_energy_label lower self (Findings findings)).2
       = Return (EnergyLabel.mk EnergyLabel.ResourceGroupEnergyLabel
                   (Threshold.label rule) 0 0 0))
  ∧ (∀ (self : Subscription.t) (df : DataFrame.t) (series : list string)
       (rule : Threshold.t),
       NoDup (DataFrame.columns df) →
       DataFrame.getitem df "Subscription ID" = Return series →
       Subscription.subscription_id self ∉ series →
       "Severity" ∈ DataFrame.columns df →
       first_rule (Subscription._subscription_thresholds self) 0 0 0 rule →
       (Subscription.get_energy_label self (Frame df)).2
       = Return (EnergyLabel.mk EnergyLabel.SubscriptionEnergyLabel
                   (Threshold.label rule) 0 0 0))
  ∧ (∀ (lower : string → string) (self : ResourceGroup.t) (df : DataFrame.t)
       (series : list string) (rule : Threshold.t),
       NoDup (DataFrame.columns df) →
       DataFrame.getitem df "Resource Group Name" = Return series →
       lower (ResourceGroup.name self) ∉ series →
       "Severity" ∈ DataFrame.columns df →
       first_rule (ResourceGroup._threshold self) 0 0 0 rule →
       (ResourceGroup.get_energy_label lower self (Frame df)).2
       = Return (EnergyLabel.mk EnergyLabel.ResourceGroupEnergyLabel
                   (Threshold.label rule) 0 0 0))
  ∧ (∀ (rule : Threshold.t) (rest : list Threshold.t),
       0 ≤ Threshold.high rule → 0 ≤ Threshold.medium rule →
       0 ≤ Threshold.low rule →
       first_rule (rule :: rest) 0 0 0 rule).
Proof.
  split; [|split; [|split; [|split; [|split; [|split]]]]].
  - intros self. eexists. split; [reflexivity|]. repeat split.
  - intros lower self. eexists. split; [reflexivity|]. repeat split.
  - intros self findings rule Hne Hopen Hfirst.
    rewrite Subscription_get_energy_label_findings by exact Hne.
    rewrite Hopen, !observed_nil.
    rewrite (for_threshold_first _ _ _ _ _ rule) by exact Hfirst. reflexivity.
  - intros lower self findings rule Hne Hopen Hfirst.
    rewrite ResourceGroup_get_energy_label_findings by exact Hne.
    rewrite Hopen, !observed_nil.
    rewrite (for_threshold_first _ _ _ _ _ rule) by exact Hfirst. reflexivity.
  - intros self df series rule _ Hseries Hout Hseverity Hfirst.
    unfold Subscription.get_energy_label, as_frame, DataFrame.where_eq.
    rewrite Hseries. simpl. unfold DataFrame.getitem_mask.
    rewrite boolean_mask_none by exact Hout.
    rewrite calculate_no_rows by exact Hseverity.
    rewrite (for_threshold_first _ _ _ _ _ rule) by exact Hfirst. reflexivity.
  - intros lower self df series rule _ Hseries Hout Hseverity Hfirst.
    unfold ResourceGroup.get_energy_label, as_frame, DataFrame.where_eq.
    rewrite Hseries. simpl. unfold DataFrame.getitem_mask.
    rewrite boolean_mask_none by exact Hout.
    rewrite calculate_no_rows by exact Hseverity.
    rewrite (for_threshold_first _ _ _ _ _ rule) by exact Hfirst. reflexivity.
  - intros rule rest Hhigh Hmedium Hlow. exists [], rest.
    split; [reflexivity|]. split; [constructor|]. unfold holds. lia.
Qed.

Lemma get_energy_label_no_findings_witness :
  (Subscription.get_energy_label (new_subscription "sub-3" example_thresholds)
     (Findings example_findings)).2
  = Return (EnergyLabel.mk EnergyLabel.SubscriptionEnergyLabel "A" 0 0 0)
  ∧ (ResourceGroup.get_energy_label lower_ascii
       (new_resource_group "rg-3" example_thresholds) (Findings example_findings)).2
    = Return (EnergyLabel.mk EnergyLabel.ResourceGroupEnergyLabel "A" 0 0 0)
  ∧ (Subscription.get_energy_label (new_subscription "sub-3" thresholds_from_B)
       (Frame frame_without_rows)).2
    = Return (EnergyLabel.mk EnergyLabel.SubscriptionEnergyLabel "B" 0 0 0)
  ∧ (ResourceGroup.get_energy_label lower_ascii
       (new_resource_group "RG-3" thresholds_from_B) (Frame frame_without_rows)).2
    = Return (EnergyLabel.mk EnergyLabel.ResourceGroupEnergyLabel "B" 0 0 0).
Proof.
  destruct get_energy_label_no_findings
    as (_ & _ & Hsubscription & Hgroup & Hsubscription_frame & Hgroup_frame & Hfirst).
  split; [|split; [|split]].
  - apply (Hsubscription (new_subscription "sub-3" example_thresholds)
             example_findings (Threshold.mk "A" 0 0 5)).
    + discriminate.
    + reflexivity.
    + apply Hfirst; simpl; lia.
  - apply (Hgroup lower_ascii (new_resource_group "rg-3" example_thresholds)
             example_findings (Threshold.mk "A" 0 0 5)).
    + discriminate.
    + reflexivity.
    + apply Hfirst; simpl; lia.
  - apply (Hsubscription_frame (new_subscription "sub-3" thresholds_from_B)
             frame_without_rows [] (Threshold.mk "B" 0 5 10)).
    + compute_done.
    + reflexivity.
    + apply not_elem_of_nil.
    + compute_done.
    + apply Hfirst; simpl; lia.
  - apply (Hgroup_frame lower_ascii (new_resource_group "RG-3" thresholds_from_B)
             frame_without_rows [] (Threshold.mk "B" 0 5 10)).
    + compute_done.
    + reflexivity.
    + apply not_elem_of_nil.
    + compute_done.
    + apply Hfirst; simpl; lia.
Defined.

(** C4 as stated fails when the findings are not empty and the table does
    not start with an A rule: the subscription matches none of the findings
    and is labeled B, the first rule that holds for counts 0. *)
Lemma get_energy_label_no_findings_counterexample :
  let self := new_subscription "sub-3" thresholds_from_B in
  findings_of_subscription self example_findings = []
  ∧ (Subscription.get_energy_label self (Findings example_findings)).2
    = Return (EnergyLabel.mk EnergyLabel.SubscriptionEnergyLabel "B" 0 0 0)
  ∧ ¬ (∃ l, (Subscription.get_energy_label self (Findings example_findings)).2
            = Return l
            ∧ is_A_without_findings l).
Proof.
  split; [reflexivity|]. split; [reflexivity|].
  intros (l & Hl & Hlabel & _).
  vm_compute in Hl. injection Hl as <-. discriminate Hlabel.
Qed.

(** C5: the handler of the second [try] block only logs.  On a frame that
    has no severity column the lookup raises inside the block, no label is
    assigned, and the [return] after the handler reads the attribute: a
    subscription that was never labeled raises an [AttributeError], and a
    subscription that an earlier call labeled A returns that A.  Neither
    gets the label F. *)
Theorem get_energy_label_missing_severity :
  Subscription.get_energy_label (new_subscription "sub-1" example_thresholds)
    (Frame frame_without_severity)
  = (new_subscription "sub-1" example_thresholds, Raise (AttributeError "energy_label"))
  ∧ Subscription.get_energy_label labeled_subscription (Frame frame_without_severity)
    = (labeled_subscription,
       Return (EnergyLabel.mk EnergyLabel.SubscriptionEnergyLabel "A" 0 0 0))
  ∧ ResourceGroup.get_energy_label lower_ascii
      (new_resource_group "rg-1" example_thresholds) (Frame frame_without_severity)
    = (new_resource_group "rg-1" example_thresholds,
       Raise (AttributeError "energy_label")).
Proof. repeat split. Qed.

(** ** Which findings a resource group counts *)

Lemma for_threshold_counts new thresholds high medium low energy_label :
  thresholds ≠ [] →
  ∃ label, for_threshold new thresholds high medium low energy_label
           = Some (new label high medium low).
Proof.
  revert energy_label.
  induction thresholds as [|rule rest IH]; intros energy_label Hne; [congruence|].
  simpl. destruct (within rule high medium low).
  - eexists. reflexivity.
  - destruct rest as [|rule' rest].
    + eexists. reflexivity.
    + apply IH. discriminate.
Qed.

(** The counts of a resource group are a function of the names and
    severities of the findings. *)
Lemma observed_name_and_severity (lower : string → string)
    (self : ResourceGroup.t) (severity : string)
    (findings findings' : list Finding.t) :
  map name_and_severity findings' = map name_and_severity findings →
  observed severity (findings_of_resource_group lower self findings')
  = observed severity (findings_of_resource_group lower self findings).
Proof.
  unfold observed, findings_of_resource_group. intros Hmap. f_equal.
  revert findings Hmap.
  induction findings' as [|f' fs' IH]; intros [|f fs] Hmap; try discriminate Hmap;
    [reflexivity|].
  rewrite !map_cons in Hmap. unfold name_and_severity at 1 3 in Hmap.
  injection Hmap as Hname Hseverity Hfs.
  specialize (IH fs Hfs).
  rewrite !filter_cons, Hname.
  destruct (decide (Finding.resource_group f = lower (ResourceGroup.name self)));
    [|exact IH].
  rewrite !filter_cons, Hseverity.
  destruct (decide (Finding.severity f = severity)); simpl; rewrite IH; reflexivity.
Qed.

(** C9, as amended: [ResourceGroup.get_energy_label] counts exactly the
    findings whose resource group name equals the lower-cased name of the
    resource group, whatever their subscription id is: the counts of the
    label are the numbers of those findings per severity, and two lists of
    findings that agree on the resource group names and severities, and
    differ in subscription ids only, give the same result. *)
Theorem ResourceGroup_get_energy_label_by_name :
  ∀ (lower : string → string) (self : ResourceGroup.t) (findings : list Finding.t),
    (findings ≠ [] →
     ResourceGroup._threshold self ≠ [] →
     ∃ l, (ResourceGroup.get_energy_label lower self (Findings findings)).2 = Return l
          ∧ EnergyLabel.number_of_high_findings l
            = observed "High" (findings_of_resource_group lower self findings)
          ∧ EnergyLabel.number_of_medium_findings l
            = observed "Medium" (findings_of_resource_group lower self findings)
          ∧ EnergyLabel.number_of_low_findings l
            = observed "Low" (findings_of_resource_group lower self findings))
    ∧ (∀ findings' : list Finding.t,
         map name_and_severity findings' = map name_and_severity findings →
         ResourceGroup.get_energy_label lower self (Findings findings')
         = ResourceGroup.get_energy_label lower self (Findings findings)).
Proof.
  intros lower self findings. split.
  - intros Hne Htable.
    rewrite ResourceGroup_get_energy_label_findings by exact Hne. simpl.
    destruct (for_threshold_counts
                (EnergyLabel.mk EnergyLabel.ResourceGroupEnergyLabel)
                (ResourceGroup._threshold self)
                (observed "High" (findings_of_resource_group lower self findings))
                (observed "Medium" (findings_of_resource_group lower self findings))
                (observed "Low" (findings_of_resource_group lower self findings))
                (ResourceGroup.energy_label self) Htable) as [label ->].
    eexists. split; [reflexivity|]. repeat split.
  - intros findings' Hmap.
    destruct findings as [|f fs].
    + destruct findings'; [reflexivity|discriminate Hmap].
    + destruct findings' as [|f' fs']; [discriminate Hmap|].
      rewrite !ResourceGroup_get_energy_label_findings by discriminate.
      rewrite !(observed_name_and_severity lower self _ (f :: fs) (f' :: fs'))
        by exact Hmap.
      reflexivity.
Qed.

Lemma ResourceGroup_get_energy_label_by_name_witness :
  (∃ l, (ResourceGroup.get_energy_label lower_ascii
           (new_resource_group "rg-1" example_thresholds)
           (Findings example_findings)).2 = Return l
        ∧ EnergyLabel.number_of_high_findings l = 1
        ∧ EnergyLabel.number_of_medium_findings l = 1
        ∧ EnergyLabel.number_of_low_findings l = 1)
  ∧ ResourceGroup.get_energy_label lower_ascii
      (new_resource_group "rg-1" example_thresholds)
      (Findings [finding "sub-9" "rg-1" "Medium"; finding "sub-9" "rg-1" "Low";
                 finding "sub-9" "rg-1" "High"; finding "sub-9" "rg-2" "Medium"])
    = ResourceGroup.get_energy_label lower_ascii
        (new_resource_group "rg-1" example_thresholds) (Findings example_findings).
Proof.
  destruct (ResourceGroup_get_energy_label_by_name lower_ascii
              (new_resource_group "rg-1" example_thresholds) example_findings)
    as [Hcounts Hsame].
  split.
  - apply Hcounts; discriminate.
  - apply Hsame. reflexivity.
Defined.

(** C9 as stated fails: two findings name the resource group rg-1, one in
    each of two subscriptions.  Whichever subscription owns the group, one
    of them belongs to another subscription, and both are counted. *)
Lemma ResourceGroup_get_energy_label_counterexample :
  let self := new_resource_group "rg-1" example_thresholds in
  let findings := [finding "sub-1" "rg-1" "High"; finding "sub-2" "rg-1" "High"] in
  Finding.subscription_id (finding "sub-1" "rg-1" "High")
  ≠ Finding.subscription_id (finding "sub-2" "rg-1" "High")
  ∧ (ResourceGroup.get_energy_label lower_ascii self (Findings findings)).2
    = Return (EnergyLabel.mk EnergyLabel.ResourceGroupEnergyLabel "F" 2 0 0).
Proof.
  split; [vm_compute; discriminate|reflexivity].
Qed.

(** ** Equality of findings *)

(** C10: [Finding] has no hash function, so the [hash(self)] of [__eq__]
    and of [__ne__] raises a [TypeError] for every pair of findings, also
    for two findings of the same raw data; no comparison returns. *)
Theorem Finding_eq_unhashable :
  ∀ self other : Finding.t,
    Finding.__eq__ self (Finding.Finding_instance other)
    = Raise (TypeError "unhashable type: 'Finding'")
    ∧ Finding.__ne__ self (Finding.Finding_instance other)
      = Raise (TypeError "unhashable type: 'Finding'").
Proof. intros self other. split; reflexivity. Qed.

(** ** The allow list and the deny list of a tenant *)

Lemma not_in_tenant_empty (subscription_ids tenant_account_ids : list string) :
  (list_to_set subscription_ids ∖ list_to_set tenant_account_ids : gset string) = ∅
  ↔ ∀ id, id ∈ subscription_ids → id ∈ tenant_account_ids.
Proof.
  split.
  - intros Hempty id Hid.
    destruct (decide (id ∈ tenant_account_ids)) as [|Hnot]; [assumption|].
    assert (id ∈ (list_to_set subscription_ids ∖ list_to_set tenant_account_ids
                  : gset string)) as Hin.
    { apply elem_of_difference. rewrite !elem_of_list_to_set. auto. }
    rewrite Hempty in Hin. apply not_elem_of_empty in Hin. contradiction.
  - intros Hall. apply set_eq. intros id.
    rewrite elem_of_difference, !elem_of_list_to_set. split.
    + intros [Hid Hnot]. exfalso. auto.
    + intros Hin. apply not_elem_of_empty in Hin. contradiction.
Qed.

Lemma validate_tenant_subscription_ids_foreign subscription_ids tenant_account_ids :
  (∃ id, id ∈ subscription_ids ∧ id ∉ tenant_account_ids) →
  Tenant._validate_tenant_subscription_ids subscription_ids tenant_account_ids
  = Raise (SubscriptionNotPartOfTenant
             (list_to_set subscription_ids ∖ list_to_set tenant_account_ids)).
Proof.
  intros (id & Hid & Hnot). unfold Tenant._validate_tenant_subscription_ids.
  rewrite bool_decide_eq_true_2; [reflexivity|].
  rewrite not_in_tenant_empty. intros Hall. auto.
Qed.

Lemma validate_tenant_subscription_ids_part subscription_ids tenant_account_ids :
  (∀ id, id ∈ subscription_ids → id ∈ tenant_account_ids) →
  Tenant._validate_tenant_subscription_ids subscription_ids tenant_account_ids
  = Return subscription_ids.
Proof.
  intros Hall. unfold Tenant._validate_tenant_subscription_ids.
  rewrite bool_decide_eq_false_2; [reflexivity|].
  intros Hne. apply Hne. apply not_in_tenant_empty. exact Hall.
Qed.

(** C7: a subscription id of the allow list, or of the deny list, that is
    not among the subscription ids of the tenant makes
    [_validate_tenant_subscription_ids], and with it the construction of the
    tenant, raise [SubscriptionNotPartOfTenant]; the constructor takes no
    findings, so this is before any finding is processed.  When every id
    of both lists belongs to the tenant, the lists are returned, and kept
    on the tenant, as they are.  The lists are the ones that the argument
    validation of [validations.py] returns. *)
Theorem validate_tenant_subscription_ids :
  (∀ subscription_ids tenant_account_ids : list string,
     (∃ id, id ∈ subscription_ids ∧ id ∉ tenant_account_ids) →
     Tenant._validate_tenant_subscription_ids subscription_ids tenant_account_ids
     = Raise (SubscriptionNotPartOfTenant
                (list_to_set subscription_ids ∖ list_to_set tenant_account_ids)))
  ∧ (∀ subscription_ids tenant_account_ids : list string,
       (∀ id, id ∈ subscription_ids → id ∈ tenant_account_ids) →
       Tenant._validate_tenant_subscription_ids subscription_ids tenant_account_ids
       = Return subscription_ids)
  ∧ (∀ validate listing tenant_id thresholds subscription_thresholds
       resource_group_thresholds allowed_argument denied_argument
       (allowed denied : list string),
       let tenant_ids := map Subscription.subscription_id listing in
       validate allowed_argument denied_argument = Return (allowed, denied) →
       (∃ id, id ∈ allowed ∧ id ∉ tenant_ids) ∨ (∃ id, id ∈ denied ∧ id ∉ tenant_ids) →
       ∃ not_in_tenant,
         Tenant.__init__ validate listing tenant_id thresholds subscription_thresholds
           resource_group_thresholds allowed_argument denied_argument
         = Raise (SubscriptionNotPartOfTenant not_in_tenant))
  ∧ (∀ validate listing tenant_id thresholds subscription_thresholds
       resource_group_thresholds allowed_argument denied_argument
       (allowed denied : list string),
       let tenant_ids := map Subscription.subscription_id listing in
       validate allowed_argument denied_argument = Return (allowed, denied) →
       (∀ id, id ∈ allowed → id ∈ tenant_ids) →
       (∀ id, id ∈ denied → id ∈ tenant_ids) →
       ∃ tenant,
         Tenant.__init__ validate listing tenant_id thresholds subscription_thresholds
           resource_group_thresholds allowed_argument denied_argument
         = Return tenant
         ∧ Tenant.allowed_subscription_ids tenant = allowed
         ∧ Tenant.denied_subscription_ids tenant = denied).
Proof.
  split; [exact validate_tenant_subscription_ids_foreign|].
  split; [exact validate_tenant_subscription_ids_part|].
  split.
  - intros validate listing tenant_id thresholds st rt a d allowed denied tenant_ids
      Hvalidate Hforeign.
    unfold Tenant.__init__. rewrite Hvalidate. simpl.
    destruct (decide (Forall (fun id => id ∈ tenant_ids) allowed)) as [Hall|Hnot].
    + rewrite Forall_forall in Hall.
      destruct Hforeign as [(id & Hid & Hout)|Hdenied]; [exfalso; auto|].
      rewrite (validate_tenant_subscription_ids_part allowed) by exact Hall. simpl.
      rewrite (validate_tenant_subscription_ids_foreign denied) by exact Hdenied.
      eexists. reflexivity.
    + apply not_Forall_Exists in Hnot; [|intros id; apply _].
      apply Exists_exists in Hnot as (id & Hid & Hout).
      rewrite (validate_tenant_subscription_ids_foreign allowed) by eauto.
      eexists. reflexivity.
  - intros validate listing tenant_id thresholds st rt a d allowed denied tenant_ids
      Hvalidate Hallowed Hdenied.
    unfold Tenant.__init__. rewrite Hvalidate. simpl.
    rewrite (validate_tenant_subscription_ids_part allowed) by exact Hallowed. simpl.
    rewrite (validate_tenant_subscription_ids_part denied) by exact Hdenied. simpl.
    eexists. repeat split.
Qed.

Lemma validate_tenant_subscription_ids_witness :
  Tenant._validate_tenant_subscription_ids ["sub-1"; "sub-4"]
    ["sub-1"; "sub-2"; "sub-3"]
  = Raise (SubscriptionNotPartOfTenant
             (list_to_set ["sub-1"; "sub-4"] ∖ list_to_set ["sub-1"; "sub-2"; "sub-3"]))
  ∧ Tenant._validate_tenant_subscription_ids ["sub-3"; "sub-1"]
      ["sub-1"; "sub-2"; "sub-3"]
    = Return ["sub-3"; "sub-1"]
  ∧ (∃ not_in_tenant,
       Tenant.__init__ lists_as_given example_listing "tenant"
         example_tenant_thresholds example_thresholds example_thresholds
         None (Some ["sub-1"; "sub-4"])
       = Raise (SubscriptionNotPartOfTenant not_in_tenant))
  ∧ (∃ tenant,
       Tenant.__init__ lists_as_given example_listing "tenant"
         example_tenant_thresholds example_thresholds example_thresholds
         (Some ["sub-3"; "sub-1"]) None
       = Return tenant
       ∧ Tenant.allowed_subscription_ids tenant = ["sub-3"; "sub-1"]
       ∧ Tenant.denied_subscription_ids tenant = []).
Proof.
  destruct validate_tenant_subscription_ids as (Hforeign & Hpart & Hraise & Hkeep).
  split; [|split; [|split]].
  - apply Hforeign. exists "sub-4". split; compute_done.
  - apply Hpart. apply Forall_forall. compute_done.
  - apply (Hraise lists_as_given example_listing "tenant" example_tenant_thresholds
             example_thresholds example_thresholds None (Some ["sub-1"; "sub-4"])
             [] ["sub-1"; "sub-4"]); [reflexivity|].
    right. exists "sub-4". split; compute_done.
  - apply (Hkeep lists_as_given example_listing "tenant" example_tenant_thresholds
             example_thresholds example_thresholds (Some ["sub-3"; "sub-1"]) None
             ["sub-3"; "sub-1"] []); [reflexivity| |].
    + apply Forall_forall. compute_done.
    + apply Forall_forall. compute_done.
Defined.

(** ** The aggregate label of the labeled subscriptions *)

Lemma Counter_foldl (labels : list string) (counter : gmap string Z) (l : string) :
  default 0
    (foldl (fun counter l => <[l := default 0 (counter !! l) + 1]> counter)
       counter labels !! l)
  = default 0 (counter !! l) + Z.of_nat (length (filter (fun x => x = l) labels)).
Proof.
  revert counter. induction labels as [|x labels IH]; intros counter; simpl.
  - lia.
  - rewrite IH, filter_cons. destruct (decide (x = l)) as [->|Hne].
    + rewrite lookup_insert_eq. simpl length. simpl default at 1. lia.
    + rewrite lookup_insert_ne by exact Hne. reflexivity.
Qed.

(** [label_counter.get(label, 0)] is the number of subscriptions that carry
    the label. *)
Lemma Counter_get (labels : list string) (l : string) :
  default 0 (Counter labels !! l)
  = Z.of_nat (length (filter (fun x => x = l) labels)).
Proof. unfold Counter. rewrite Counter_foldl, lookup_empty. reflexivity. Qed.

Lemma Counter_keys (labels : list string) : labels ≠ [] → keys (Counter labels) ≠ [].
Proof.
  intros Hne Hkeys. destruct labels as [|x labels]; [congruence|].
  assert (is_Some (Counter (x :: labels) !! x)) as [c Hc].
  { destruct (Counter (x :: labels) !! x) as [c|] eqn:Hlookup; [eauto|].
    pose proof (Counter_get (x :: labels) x) as Hget.
    rewrite Hlookup, filter_cons, decide_True in Hget by reflexivity.
    simpl in Hget. lia. }
  unfold keys in Hkeys. apply fmap_nil_inv in Hkeys.
  apply map_to_list_empty_iff in Hkeys. rewrite Hkeys, lookup_empty in Hc.
  discriminate Hc.
Qed.

Lemma sum_snoc (l : list Z) (x : Z) : sum (l ++ [x]) = sum l + x.
Proof. unfold sum. rewrite foldl_app. reflexivity. Qed.

Lemma subscription_sums_snoc (labels : list string)
    (rules : list TenantThreshold.t) (rule : TenantThreshold.t) :
  subscription_sums labels (rules ++ [rule])
  = subscription_sums labels rules
    ++ [default 0 (Counter labels !! TenantThreshold.label rule)].
Proof. unfold subscription_sums. rewrite map_app. reflexivity. Qed.

(** The loop over the tenant thresholds breaks at the first rule whose
    percentage check succeeds; [done] are the rules that the loop has left
    behind. *)
Lemma for_tenant_threshold_first_reached_label (labels : list string)
    (todo done : list TenantThreshold.t) :
  labels ≠ [] →
  for_tenant_threshold todo (Counter labels) (Z.of_nat (length labels))
    (subscription_sums labels done)
  = Return (first_reached_label labels done todo).
Proof.
  intros Hne. revert done.
  induction todo as [|rule todo IH]; intros done; [reflexivity|].
  simpl. unfold div_times_100.
  destruct (Z.eqb_spec (Z.of_nat (length labels)) 0) as [Hzero|_].
  { destruct labels; [congruence|]. simpl in Hzero. lia. }
  simpl. rewrite <- subscription_sums_snoc.
  unfold reached, cumulative_percentage, percentage_of_sum.
  destruct (PrimFloat.leb _ _); [reflexivity|].
  apply IH.
Qed.



(** The aggregate label is the label of the first rule that is reached, or
    F when there is none; the population is not empty, so its best and
    worst labels exist. *)
Lemma aggregate_energy_label_label (thresholds : list TenantThreshold.t)
    (labels : list string) :
  labels ≠ [] →
  AggregateSubscriptionEnergyLabel.label <$> aggregate_energy_label thresholds labels
  = Return (default "F" (first_reached_label labels [] thresholds)).
Proof.
  intros Hne. unfold aggregate_energy_label.
  pose proof (for_tenant_threshold_first_reached_label labels thresholds [] Hne)
    as Hloop.
  change (subscription_sums labels []) with (@nil Z) in Hloop. rewrite Hloop.
  simpl. pose proof (Counter_keys labels Hne) as Hkeys.
  destruct (keys (Counter labels)) as [|k ks]; [congruence|]. reflexivity.
Qed.

(** ** The method on the tenant *)

Lemma thresholds_get_labeled_targeted_subscriptions (self : Tenant.t)
    (findings : list Finding.t) :
  Tenant.thresholds (Tenant.get_labeled_targeted_subscriptions self findings).1
  = Tenant.thresholds self.
Proof.
  unfold Tenant.get_labeled_targeted_subscriptions, Tenant.subscriptions_to_be_labeled.
  destruct (Tenant._subscriptions_to_be_labeled self) as [todo|];
    destruct (Tenant.label_subscriptions _ _ _); reflexivity.
Qed.

(** While no aggregate label is cached, the method labels the targeted
    subscriptions, collects their labels and aggregates them. *)
Lemma get_energy_label_of_targeted_subscriptions_aggregate (self : Tenant.t)
    (findings : list Finding.t) :
  Tenant._targeted_subscriptions_energy_label self = None →
  (Tenant.get_energy_label_of_targeted_subscriptions self findings).2
  = (labeled_subscriptions ← (Tenant.get_labeled_targeted_subscriptions self findings).2;
     labels ← Tenant.labels_of labeled_subscriptions;
     aggregate_energy_label (Tenant.thresholds self) labels).
Proof.
  intros Hcache. unfold Tenant.get_energy_label_of_targeted_subscriptions.
  rewrite Hcache.
  rewrite <- (thresholds_get_labeled_targeted_subscriptions self findings).
  destruct (Tenant.get_labeled_targeted_subscriptions self findings) as [self' labeled].
  simpl. destruct (_ ≫= _); reflexivity.
Qed.

(** With no subscription to label, the list of labeled subscriptions is
    empty. *)
Lemma get_labeled_targeted_subscriptions_nil (self : Tenant.t)
    (findings : list Finding.t) :
  Tenant._subscriptions_to_be_labeled self = None →
  Tenant.subscriptions self = [] →
  (Tenant.get_labeled_targeted_subscriptions self findings).2 = Return [].
Proof.
  intros Hcache Hlisting.
  unfold Tenant.get_labeled_targeted_subscriptions, Tenant.subscriptions_to_be_labeled,
    Tenant.get_allowed_subscriptions, Tenant.get_not_denied_subscriptions.
  rewrite Hcache, Hlisting. simpl.
  repeat case_bool_decide; reflexivity.
Qed.


(** ** The running sum and the order of the labels *)

Lemma count_with_rule_snoc (labels : list string)
    (rules : list TenantThreshold.t) (rule : TenantThreshold.t) :
  TenantThreshold.label rule ∉ map TenantThreshold.label rules →
  count_with_rule labels (rules ++ [rule])
  = count_with_rule labels rules
    + Z.of_nat (length (filter (fun x => x = TenantThreshold.label rule) labels)).
Proof.
  intros Hfresh. unfold count_with_rule. rewrite <- Nat2Z.inj_add. f_equal.
  rewrite map_app. simpl map.
  induction labels as [|x labels IH]; [reflexivity|].
  rewrite !filter_cons.
  destruct (decide (x = TenantThreshold.label rule)) as [->|Hne].
  - rewrite decide_True by (apply elem_of_app; right; apply list_elem_of_singleton;
                            reflexivity).
    rewrite decide_False by exact Hfresh.
    simpl. rewrite IH. lia.
  - destruct (decide (x ∈ map TenantThreshold.label rules)) as [Hin|Hout].
    + rewrite decide_True by (apply elem_of_app; left; exact Hin).
      simpl. rewrite IH. reflexivity.
    + rewrite decide_False; [exact IH|].
      intros [Hin|Hin]%elem_of_app; [contradiction|].
      apply list_elem_of_singleton in Hin. contradiction.
Qed.

Lemma count_with_rule_nil (labels : list string) : count_with_rule labels [] = 0.
Proof.
  unfold count_with_rule. simpl.
  induction labels as [|x labels IH]; [reflexivity|].
  rewrite filter_cons, decide_False by apply not_elem_of_nil. exact IH.
Qed.

(** In a table whose labels are distinct, the running sum of the code is
    the number of subscriptions whose label has a rule so far. *)
Lemma sum_subscription_sums (labels : list string) (rules : list TenantThreshold.t) :
  NoDup (map TenantThreshold.label rules) →
  sum (subscription_sums labels rules) = count_with_rule labels rules.
Proof.
  induction rules as [|rule rules IH] using rev_ind; intros Hdup.
  - rewrite count_with_rule_nil. reflexivity.
  - rewrite map_app in Hdup. apply NoDup_app in Hdup as (Hrules & Hdisjoint & _).
    rewrite subscription_sums_snoc, sum_snoc, IH, Counter_get by exact Hrules.
    rewrite count_with_rule_snoc; [reflexivity|].
    intros Hin. apply (Hdisjoint _ Hin). simpl. apply elem_of_cons. left. reflexivity.
Qed.

Lemma string_compare_refl (s : string) : String.compare s s = Eq.
Proof.
  induction s as [|a s IH]; simpl; [reflexivity|].
  unfold Ascii.compare. rewrite N.compare_refl. exact IH.
Qed.

Lemma better_or_equal_refl (l : string) : better_or_equal l l.
Proof. unfold better_or_equal, String.leb. rewrite string_compare_refl. reflexivity. Qed.

Lemma better_better_or_equal (l l' : string) : better l l' → better_or_equal l l'.
Proof.
  unfold better, better_or_equal, String.ltb, String.leb.
  destruct (String.compare l l'); congruence.
Qed.

Lemma better_irrefl (l : string) : ¬ better l l.
Proof. unfold better, String.ltb. rewrite string_compare_refl. discriminate. Qed.

(** Labels in strictly increasing order are distinct. *)
Lemma StronglySorted_better_NoDup (ls : list string) :
  StronglySorted better ls → NoDup ls.
Proof.
  intros Hsorted. induction Hsorted as [|l ls Hsorted IH Hall]; constructor.
  - intros Hin. rewrite Forall_forall in Hall. exact (better_irrefl l (Hall l Hin)).
  - exact IH.
Qed.

Lemma best_to_worst_NoDup (thresholds : list TenantThreshold.t) :
  best_to_worst thresholds → NoDup (map TenantThreshold.label thresholds).
Proof. intros [Hsorted _]. apply StronglySorted_better_NoDup. exact Hsorted. Qed.





(** C6, as amended: on an empty population the aggregation has no error of
    its own.  With a table that has a rule, the division of the first
    percentage check raises [ZeroDivisionError]; with a table that has no
    rule, [min] over the labels, of which there are none, raises
    [ValueError].  The method on a tenant without subscriptions to label
    raises the same [ZeroDivisionError]. *)
Theorem aggregate_energy_label_empty_population :
  (∀ thresholds : list TenantThreshold.t,
     thresholds ≠ [] →
     aggregate_energy_label thresholds [] = Raise ZeroDivisionError)
  ∧ aggregate_energy_label [] [] = Raise (ValueError "min() arg is an empty sequence")
  ∧ (∀ (self : Tenant.t) (findings : list Finding.t),
       Tenant._targeted_subscriptions_energy_label self = None →
       Tenant._subscriptions_to_be_labeled self = None →
       Tenant.subscriptions self = [] →
       Tenant.thresholds self ≠ [] →
       (Tenant.get_energy_label_of_targeted_subscriptions self findings).2
       = Raise ZeroDivisionError).
Proof.
  assert (∀ thresholds : list TenantThreshold.t,
            thresholds ≠ [] →
            aggregate_energy_label thresholds [] = Raise ZeroDivisionError) as Hdiv.
  { intros [|rule rest] Hne; [congruence|]. reflexivity. }
  split; [exact Hdiv|]. split; [reflexivity|].
  intros self findings Hlabel Htodo Hlisting Htable.
  rewrite get_energy_label_of_targeted_subscriptions_aggregate by exact Hlabel.
  rewrite get_labeled_targeted_subscriptions_nil by assumption.
  simpl. apply Hdiv. exact Htable.
Qed.

Lemma aggregate_energy_label_empty_population_witness :
  aggregate_energy_label example_tenant_thresholds [] = Raise ZeroDivisionError
  ∧ (Tenant.get_energy_label_of_targeted_subscriptions empty_tenant
       example_findings).2
    = Raise ZeroDivisionError.
Proof.
  destruct aggregate_energy_label_empty_population as (Hdiv & _ & Hmethod).
  split.
  - apply Hdiv. discriminate.
  - apply Hmethod; [reflexivity|reflexivity|reflexivity|discriminate].
Defined.

(** C6 as stated fails: the aggregation of an empty population ends in the
    [ZeroDivisionError] of its first division. *)
Lemma aggregate_energy_label_empty_population_counterexample :
  aggregate_energy_label example_tenant_thresholds [] = Raise ZeroDivisionError.
Proof. reflexivity. Qed.

(** ** The order of binary64 numbers

    It is transitive. *)
Lemma SFleb_trans x y z :
  SFleb x y = true → SFleb y z = true → SFleb x z = true.
Proof.
  unfold SFleb, SFcompare.
  destruct x as [sx|sx| |sx mx ex], y as [sy|sy| |sy my ey], z as [sz|sz| |sz mz ez];
    try discriminate; try reflexivity;
    repeat match goal with s : bool |- _ => destruct s end;
    try discriminate; try reflexivity; try (intros _ H; exact H); try (intros H _; exact H).
  all: change (Pos.compare_cont Eq) with Pos.compare.
  all: destruct (Z.compare_spec ex ey), (Z.compare_spec ey ez), (Z.compare_spec ex ez);
    try discriminate; try reflexivity; try lia; subst.
  all: destruct (Pos.compare_spec mx my), (Pos.compare_spec my mz), (Pos.compare_spec mx mz);
    simpl; try discriminate; try reflexivity; try lia.
Qed.

Lemma float_leb_trans (x y z : float) :
  PrimFloat.leb x y = true → PrimFloat.leb y z = true → PrimFloat.leb x z = true.
Proof. rewrite !FloatAxioms.leb_spec. apply SFleb_trans. Qed.

(** ** Rounding to binary64

    The percentage of a count in a population does not fall when the count
    and the population both grow by one.  That is plain for the quotient of
    the integers; the lemmas below carry it through the two roundings of
    [count / size * 100], following the operations of binary64 arithmetic
    step by step on the codes of the numbers. *)

Lemma shr_code_of_loc (m : Z) (l : location) :
  shr_code (shr_record_of_loc m l) = code m l.
Proof. destruct l as [|[]]; unfold shr_code, code; simpl; lia. Qed.

Lemma code_loc_of_shr_record (mrs : shr_record) :
  code (shr_m mrs) (loc_of_shr_record mrs) = shr_code mrs.
Proof. destruct mrs as [m [] []]; unfold shr_code, code; simpl; lia. Qed.

Lemma half_spec (a b : Z) : 0 ≤ b < 4 → half (4 * a + b) = 2 * a + (if b =? 0 then 0 else 1).
Proof.
  intros Hb. unfold half.
  assert ((4 * a + b) / 4 = a) as -> by (symmetry; apply (Z.div_unique _ 4 a b); lia).
  assert ((4 * a + b) mod 4 = b) as -> by (symmetry; apply (Z.mod_unique _ 4 a b); lia).
  reflexivity.
Qed.

Lemma shr_1_code (mrs : shr_record) :
  0 ≤ shr_m mrs →
  shr_code (shr_1 mrs) = half (shr_code mrs) ∧ 0 ≤ shr_m (shr_1 mrs).
Proof.
  destruct mrs as [m r s]. simpl. intros Hm. unfold shr_code.
  destruct m as [|p|p]; [| |lia].
  - simpl shr_m. simpl shr_r. simpl shr_s.
    replace (4 * 0 + (if r then 2 else 0) + (if s then 1 else 0))
      with (4 * 0 + ((if r then 2 else 0) + (if s then 1 else 0))) by lia.
    rewrite half_spec by (destruct r, s; lia).
    destruct r, s; simpl; lia.
  - destruct p as [p|p|]; simpl shr_m; simpl shr_r; simpl shr_s.
    + replace (4 * Z.pos p~1 + (if r then 2 else 0) + (if s then 1 else 0))
        with (4 * Z.pos p~1 + ((if r then 2 else 0) + (if s then 1 else 0))) by lia.
      rewrite half_spec by (destruct r, s; lia).
      destruct r, s; simpl; lia.
    + replace (4 * Z.pos p~0 + (if r then 2 else 0) + (if s then 1 else 0))
        with (4 * Z.pos p~0 + ((if r then 2 else 0) + (if s then 1 else 0))) by lia.
      rewrite half_spec by (destruct r, s; lia).
      destruct r, s; simpl; lia.
    + replace (4 * 1 + (if r then 2 else 0) + (if s then 1 else 0))
        with (4 * 1 + ((if r then 2 else 0) + (if s then 1 else 0))) by lia.
      rewrite half_spec by (destruct r, s; lia).
      destruct r, s; simpl; lia.
Qed.

Lemma iter_pos_iter {A : Type} (f : A → A) (p : positive) (x : A) :
  SpecFloat.iter_pos f p x = Nat.iter (Pos.to_nat p) f x.
Proof.
  revert x. induction p as [p IH|p IH|]; intros x; simpl SpecFloat.iter_pos.
  - rewrite !IH, Pos2Nat.inj_xI.
    replace (S (2 * Pos.to_nat p)) with (Pos.to_nat p + S (Pos.to_nat p))%nat by lia.
    rewrite Nat.iter_add, Nat.iter_succ_r. reflexivity.
  - rewrite !IH, Pos2Nat.inj_xO.
    replace (2 * Pos.to_nat p)%nat with (Pos.to_nat p + Pos.to_nat p)%nat by lia.
    rewrite Nat.iter_add. reflexivity.
  - reflexivity.
Qed.

Lemma iter_shr_1_code (n : nat) (mrs : shr_record) :
  0 ≤ shr_m mrs →
  shr_code (Nat.iter n shr_1 mrs) = halves n (shr_code mrs)
  ∧ 0 ≤ shr_m (Nat.iter n shr_1 mrs).
Proof.
  intros Hm. induction n as [|n [IHcode IHm]]; [split; [reflexivity|exact Hm]|].
  simpl. destruct (shr_1_code _ IHm) as [Hcode Hm']. split; [|exact Hm'].
  rewrite Hcode, IHcode. reflexivity.
Qed.

(** [shr] by a shift that is not negative. *)
Lemma shr_code_shift (mrs : shr_record) (e n : Z) :
  0 ≤ shr_m mrs → 0 ≤ n →
  shr_code (shr mrs e n).1 = halves (Z.to_nat n) (shr_code mrs)
  ∧ 0 ≤ shr_m (shr mrs e n).1
  ∧ (shr mrs e n).2 = e + n.
Proof.
  intros Hm Hn. unfold shr. destruct n as [|p|p]; [| |lia].
  - simpl. repeat split; [exact Hm|lia].
  - simpl fst. simpl snd. rewrite iter_pos_iter.
    destruct (iter_shr_1_code (Pos.to_nat p) mrs Hm) as [Hcode Hm'].
    rewrite Z2Nat.inj_pos. auto.
Qed.


Lemma half_bounds (k : Z) : 0 ≤ k → 0 ≤ half k ≤ k ∧ half k / 4 = k / 4 / 2.
Proof.
  intros Hk. unfold half. destruct (Z.eqb_spec (k mod 4) 0); Z.to_euclidean_division_equations; lia.
Qed.

Lemma half_mono (k k' : Z) : 0 ≤ k ≤ k' → half k ≤ half k'.
Proof.
  intros Hk. unfold half.
  destruct (Z.eqb_spec (k mod 4) 0), (Z.eqb_spec (k' mod 4) 0);
    Z.to_euclidean_division_equations; lia.
Qed.

Lemma halves_bounds (n : nat) (k : Z) : 0 ≤ k → 0 ≤ halves n k ≤ k.
Proof.
  intros Hk. induction n as [|n IH]; simpl; [lia|].
  pose proof (half_bounds (halves n k) (proj1 IH)) as [Hhalf _]. unfold halves in *. lia.
Qed.

Lemma halves_mono (n : nat) (k k' : Z) : 0 ≤ k ≤ k' → halves n k ≤ halves n k'.
Proof.
  intros Hk. induction n as [|n IH]; simpl; [lia|].
  apply half_mono. split; [|exact IH]. apply halves_bounds. lia.
Qed.

Lemma halves_add (n m : nat) (k : Z) : halves (n + m) k = halves n (halves m k).
Proof. apply Nat.iter_add. Qed.

Lemma halves_S (n : nat) (k : Z) : halves (S n) k = halves n (half k).
Proof. unfold halves. apply Nat.iter_succ_r. Qed.

Lemma halves_div4 (n : nat) (k : Z) :
  0 ≤ k → halves n k / 4 = k / 4 / 2 ^ Z.of_nat n.
Proof.
  intros Hk. induction n as [|n IH].
  - simpl. rewrite Z.div_1_r. reflexivity.
  - change (halves (S n) k) with (half (halves n k)).
    destruct (half_bounds (halves n k)) as [_ ->]; [apply halves_bounds; exact Hk|].
    rewrite IH, Nat2Z.inj_succ, Z.pow_succ_r by lia.
    rewrite Z.div_div by lia. f_equal. lia.
Qed.

Lemma round_code_bounds (k : Z) : k / 4 ≤ round_code k ≤ k / 4 + 1.
Proof. unfold round_code. destruct (_ || _); lia. Qed.

Lemma round_code_mono (k k' : Z) : 0 ≤ k ≤ k' → round_code k ≤ round_code k'.
Proof.
  intros Hk. destruct (Z.eq_dec (k / 4) (k' / 4)) as [Heq|Hne].
  - assert (k mod 4 ≤ k' mod 4) as Hmod by (Z.to_euclidean_division_equations; lia).
    assert (0 ≤ k mod 4 < 4) as Hrange by (apply Z.mod_pos_bound; lia).
    assert (0 ≤ k' mod 4 < 4) as Hrange' by (apply Z.mod_pos_bound; lia).
    unfold round_code. rewrite Heq.
    destruct (Z.odd (k' / 4));
      destruct (Z.eqb_spec (k mod 4) 3), (Z.eqb_spec (k mod 4) 2),
        (Z.eqb_spec (k' mod 4) 3), (Z.eqb_spec (k' mod 4) 2); simpl; lia.
  - pose proof (round_code_bounds k). pose proof (round_code_bounds k').
    assert (k / 4 < k' / 4) by (Z.to_euclidean_division_equations; lia). lia.
Qed.

(** An exact code rounds to its mantissa. *)
Lemma round_code_exact (m : Z) : round_code (4 * m) = m.
Proof.
  unfold round_code.
  assert ((4 * m) / 4 = m) as -> by (Z.to_euclidean_division_equations; lia).
  assert ((4 * m) mod 4 = 0) as -> by (Z.to_euclidean_division_equations; lia).
  simpl. lia.
Qed.

Lemma ratio_code_nonneg (a b : Z) : 0 ≤ a → 0 < b → 0 ≤ ratio_code a b.
Proof.
  intros Ha Hb. unfold ratio_code. pose proof (Z.div_pos a b Ha Hb).
  destruct (_ =? _); lia.
Qed.

Lemma ratio_code_div4 (a b : Z) : 0 ≤ a → 0 < b → ratio_code a b / 4 = a / (2 * b).
Proof.
  intros Ha Hb. unfold ratio_code.
  rewrite <- (Z.mul_comm b), <- Z.div_div by lia.
  pose proof (Z.div_pos a b Ha Hb).
  destruct (_ =? _); Z.to_euclidean_division_equations; lia.
Qed.

Lemma ratio_code_half (a b : Z) :
  0 ≤ a → 0 < b → half (ratio_code a b) = ratio_code a (2 * b).
Proof.
  intros Ha Hb. unfold ratio_code at 2.
  rewrite <- (Z.mul_comm b), <- Z.div_div by lia.
  rewrite Z.rem_mul_r by lia.
  unfold ratio_code, half.
  pose proof (Z.div_pos a b Ha Hb).
  pose proof (Z.mod_pos_bound a b Hb).
  set (q := a / b) in *. set (r := a mod b) in *.
  destruct (Z.eqb_spec r 0) as [Hr|Hr].
  - rewrite Hr. destruct (Z.eqb_spec (0 + b * (q mod 2)) 0) as [Hz|Hz].
    + assert (q mod 2 = 0) by nia.
      destruct (Z.eqb_spec ((2 * q + 0) mod 4) 0); Z.to_euclidean_division_equations; lia.
    + assert (q mod 2 = 1) by (Z.to_euclidean_division_equations; nia).
      destruct (Z.eqb_spec ((2 * q + 0) mod 4) 0); Z.to_euclidean_division_equations; lia.
  - destruct (Z.eqb_spec (r + b * (q mod 2)) 0) as [Hz|Hz].
    + assert (0 ≤ q mod 2) by (Z.to_euclidean_division_equations; lia). nia.
    + destruct (Z.eqb_spec ((2 * q + 1) mod 4) 0); Z.to_euclidean_division_equations; lia.
Qed.

Lemma ratio_code_halves (n : nat) (a b : Z) :
  0 ≤ a → 0 < b → halves n (ratio_code a b) = ratio_code a (b * 2 ^ Z.of_nat n).
Proof.
  intros Ha Hb. revert b Hb. induction n as [|n IH]; intros b Hb.
  - simpl. rewrite Z.mul_1_r. reflexivity.
  - rewrite halves_S, ratio_code_half, IH by lia.
    rewrite Nat2Z.inj_succ, Z.pow_succ_r by lia. f_equal. lia.
Qed.

Lemma ratio_code_mono (a b a' b' : Z) :
  0 ≤ a → 0 < b → 0 < b' → a * b' ≤ a' * b →
  ratio_code a b ≤ ratio_code a' b'.
Proof.
  intros Ha Hb Hb' Hle. unfold ratio_code.
  pose proof (Z.div_mod a b ltac:(lia)) as Hdiv.
  pose proof (Z.div_mod a' b' ltac:(lia)) as Hdiv'.
  pose proof (Z.mod_pos_bound a b Hb) as Hmod.
  pose proof (Z.mod_pos_bound a' b' Hb') as Hmod'.
  set (q := a / b) in *. set (r := a mod b) in *.
  set (q' := a' / b') in *. set (r' := a' mod b') in *.
  assert (q ≤ q') as Hq.
  { destruct (Z_le_gt_dec q q') as [|Hgt]; [assumption|exfalso].
    assert (b * q * b' ≤ a * b') by nia.
    assert (a' * b < (q' + 1) * b' * b) by nia.
    assert ((q' + 1) * b' * b ≤ b * q * b') by nia. lia. }
  destruct (Z.eqb_spec r 0) as [Hr|Hr], (Z.eqb_spec r' 0) as [Hr'|Hr']; try lia.
  assert (q < q'); [|lia].
  destruct (Z.eq_dec q q') as [Heq|]; [exfalso|lia].
  rewrite <- Heq, Hr', Z.add_0_r in Hdiv'.
  assert (a * b' ≤ b * q * b') by nia. assert (0 < r * b') by nia. nia.
Qed.

Lemma ratio_code_eq (a b a' b' : Z) :
  0 ≤ a → 0 < b → 0 < b' → a * b' = a' * b →
  ratio_code a b = ratio_code a' b'.
Proof.
  intros Ha Hb Hb' Heq. assert (0 ≤ a') as Ha' by nia.
  apply Z.le_antisymm; apply ratio_code_mono; lia.
Qed.

Lemma digits2_pos_size (p : positive) : digits2_pos p = Pos.size p.
Proof. induction p as [p IH|p IH|]; simpl; congruence. Qed.

Lemma Zdigits2_bounds (m : Z) :
  0 < m → 1 ≤ Zdigits2 m ∧ 2 ^ (Zdigits2 m - 1) ≤ m < 2 ^ Zdigits2 m.
Proof.
  intros Hm. destruct m as [|p|p]; try lia. simpl. rewrite digits2_pos_size.
  split; [lia|]. split.
  - pose proof (Pos.size_le p) as Hle.
    apply Pos2Z.pos_le_pos in Hle. rewrite Pos2Z.inj_pow in Hle.
    replace (Z.pos (Pos.size p)) with (Z.pos (Pos.size p) - 1 + 1) in Hle by lia.
    rewrite Z.pow_add_r in Hle by lia. change (Z.pos p~0) with (2 * Z.pos p) in Hle. lia.
  - pose proof (Pos.size_gt p) as Hgt.
    apply Pos2Z.pos_lt_pos in Hgt. rewrite Pos2Z.inj_pow in Hgt. exact Hgt.
Qed.

Lemma Zdigits2_le (m d : Z) : 0 < m → m < 2 ^ d → Zdigits2 m ≤ d.
Proof.
  intros Hm Hhigh. destruct (Zdigits2_bounds m Hm) as (Hone & Hlow & _).
  assert (0 ≤ d) as Hd.
  { destruct (Z_lt_le_dec d 0) as [Hlt|]; [|assumption]. exfalso.
    rewrite Z.pow_neg_r in Hhigh by lia. lia. }
  assert (Zdigits2 m - 1 < d); [|lia].
  apply (Z.pow_lt_mono_r_iff 2); lia.
Qed.

Lemma Zdigits2_ge (m d : Z) : 0 < m → 2 ^ (d - 1) ≤ m → d ≤ Zdigits2 m.
Proof.
  intros Hm Hlow. destruct (Zdigits2_bounds m Hm) as (Hone & _ & Hhigh).
  assert (d - 1 < Zdigits2 m); [|lia].
  apply (Z.pow_lt_mono_r_iff 2); lia.
Qed.

Lemma Zdigits2_unique (m d : Z) :
  0 < m → 2 ^ (d - 1) ≤ m < 2 ^ d → Zdigits2 m = d.
Proof.
  intros Hm [Hlow Hhigh].
  pose proof (Zdigits2_le m d Hm Hhigh). pose proof (Zdigits2_ge m d Hm Hlow). lia.
Qed.

Lemma fexp_spec (x : Z) : fexp prec emax x = Z.max (x - 53) (-1074).
Proof. reflexivity. Qed.

Lemma div4_spec (a b : Z) :
  0 ≤ b < 4 → (4 * a + b) / 4 = a ∧ (4 * a + b) mod 4 = b.
Proof. intros Hb. Z.to_euclidean_division_equations. lia. Qed.

Lemma round_nearest_even_code (m : Z) (l : location) :
  round_nearest_even m l = round_code (code m l).
Proof.
  unfold round_code, code.
  destruct l as [|[]]; simpl round_nearest_even;
    match goal with
    | |- context [4 * m + ?c] =>
        destruct (div4_spec m c ltac:(lia)) as [-> ->]
    end; simpl; try lia.
  rewrite <- Z.negb_even. destruct (Z.even m); simpl; lia.
Qed.

Lemma shr_nonpos (mrs : shr_record) (e n : Z) : n ≤ 0 → shr mrs e n = (mrs, e).
Proof. intros Hn. unfold shr. destruct n as [|p|p]; [reflexivity|lia|reflexivity]. Qed.

Lemma in_range_mantissa (k E : Z) :
  in_range k E →
  0 ≤ round_code k ≤ 2 ^ 53
  ∧ (2 ^ 54 ≤ k → 2 ^ 52 ≤ round_code k).
Proof.
  intros ([Hlow Hhigh] & _ & _). pose proof (round_code_bounds k) as Hround.
  change (2 ^ 55) with (4 * 2 ^ 53) in Hhigh. change (2 ^ 54) with (4 * 2 ^ 52).
  split; [|intros Hnormal]; Z.to_euclidean_division_equations; lia.
Qed.

(** The rounding step of the binary64 operations, when the shift is not
    negative and the result does not overflow: the mantissa and the
    position are shifted to the exponent of the result and rounded to
    nearest, ties to even. *)
Lemma binary_round_aux_code (m e : Z) (l : location) :
  0 ≤ m →
  let E := fexp prec emax (Zdigits2 m + e) in
  e ≤ E → E < 971 →
  let k := halves (Z.to_nat (E - e)) (code m l) in
  in_range k E
  ∧ binary_round_aux prec emax false m e l = rounded (round_code k) E.
Proof.
  intros Hm E Hshift Hover k.
  assert (-1074 ≤ E) as Hmin by (unfold E; rewrite fexp_spec; lia).
  assert (0 ≤ code m l) as Hcode by (unfold code; destruct l as [|[]]; lia).
  assert (0 < 2 ^ (E - e)) as Hpow by (apply Z.pow_pos_nonneg; lia).
  assert (k / 4 = m / 2 ^ (E - e)) as Hk4.
  { unfold k. rewrite halves_div4 by exact Hcode. rewrite Z2Nat.id by lia.
    f_equal. unfold code. destruct l as [|[]]; Z.to_euclidean_division_equations; lia. }
  assert (0 ≤ k) as Hk0 by (apply halves_bounds; exact Hcode).
  assert (k / 4 < 2 ^ 53) as Hhigh.
  { rewrite Hk4. apply Z.div_lt_upper_bound; [exact Hpow|].
    destruct (Z.eq_dec m 0) as [->|Hne]; [lia|].
    destruct (Zdigits2_bounds m ltac:(lia)) as (_ & _ & Hdigits).
    rewrite <- Z.pow_add_r by lia.
    eapply Z.lt_le_trans; [exact Hdigits|].
    apply Z.pow_le_mono_r; [lia|]. unfold E. rewrite fexp_spec. lia. }
  assert (E ≠ -1074 → 2 ^ 52 ≤ k / 4) as Hlow.
  { intros Hnormal. rewrite Hk4.
    assert (E = Zdigits2 m + e - 53) as HE by (unfold E in *; rewrite fexp_spec in *; lia).
    assert (0 < m) as Hpositive.
    { destruct (Z.eq_dec m 0) as [->|]; [|lia]. simpl in HE. lia. }
    destruct (Zdigits2_bounds m Hpositive) as (_ & Hdigits & _).
    apply Z.div_le_lower_bound; [exact Hpow|].
    rewrite <- Z.pow_add_r by lia.
    replace (E - e + 52) with (Zdigits2 m - 1) by lia. exact Hdigits. }
  assert (in_range k E) as Hrange.
  { split; [|split; [|exact Hmin]].
    - change (2 ^ 55) with (4 * 2 ^ 53). Z.to_euclidean_division_equations. lia.
    - destruct (Z.eq_dec E (-1074)) as [|Hnormal]; [right; assumption|left].
      specialize (Hlow Hnormal). change (2 ^ 54) with (4 * 2 ^ 52).
      Z.to_euclidean_division_equations. lia. }
  split; [exact Hrange|].
  unfold binary_round_aux, shr_fexp. fold E.
  destruct (shr_code_shift (shr_record_of_loc m l) e (E - e))
    as (Hcode' & Hnonneg & Hexp).
  { destruct l as [|[]]; simpl; lia. }
  { lia. }
  destruct (shr (shr_record_of_loc m l) e (E - e)) as [mrs' e'].
  simpl in Hcode', Hnonneg, Hexp.
  rewrite shr_code_of_loc in Hcode'. fold k in Hcode'.
  rewrite round_nearest_even_code, code_loc_of_shr_record, Hcode'.
  assert (e' = E) as -> by lia.
  destruct (in_range_mantissa k E Hrange) as [Hround _].
  unfold rounded, normal_mantissa, normal_exponent.
  destruct (Z.eqb_spec (round_code k) 0) as [->|Hzero].
  - rewrite shr_nonpos by (simpl Zdigits2; rewrite fexp_spec; lia). reflexivity.
  - destruct (Z.eqb_spec (round_code k) (2 ^ 53)) as [->|Hne].
    + change (Zdigits2 (2 ^ 53)) with 54. rewrite fexp_spec.
      replace (Z.max (54 + E - 53) (-1074) - E) with 1 by lia. simpl.
      destruct (Z.leb_spec (E + 1) (emax - prec)) as [_|Hlarge];
        [reflexivity|unfold emax, prec in Hlarge; lia].
    + pose proof (Zdigits2_le (round_code k) 53 ltac:(lia) ltac:(lia)) as Hdigits.
      rewrite shr_nonpos by (rewrite fexp_spec; lia). simpl.
      destruct (round_code k) as [|p|p] eqn:Hp; try lia.
      destruct (Z.leb_spec E (emax - prec)) as [_|Hlarge];
        [reflexivity|unfold emax, prec in Hlarge; lia].
Qed.

(** What is rounded is a binary64 number. *)
Lemma rounded_valid (k E : Z) :
  in_range k E → E < 971 → valid_binary (rounded (round_code k) E) = true.
Proof.
  intros Hrange Hover. destruct (in_range_mantissa k E Hrange) as [Hround Hnormal].
  destruct Hrange as (Hk & Hclass & Hmin).
  unfold rounded, normal_mantissa, normal_exponent.
  destruct (Z.eqb_spec (round_code k) 0) as [|Hzero]; [reflexivity|].
  unfold SpecFloat.valid_binary, bounded, canonical_mantissa.
  apply andb_true_iff.
  destruct (Z.eqb_spec (round_code k) (2 ^ 53)) as [|Hne].
  - change (Z.pos (digits2_pos (Z.to_pos (2 ^ 52)))) with 53. rewrite fexp_spec.
    split; [apply Z.eqb_eq|apply Z.leb_le; unfold emax, prec]; lia.
  - change (Z.pos (digits2_pos (Z.to_pos (round_code k))))
      with (Zdigits2 (Z.pos (Z.to_pos (round_code k)))).
    rewrite Z2Pos.id by lia. rewrite fexp_spec.
    pose proof (Zdigits2_le (round_code k) 53 ltac:(lia) ltac:(lia)) as Hdigits.
    split; [apply Z.eqb_eq|apply Z.leb_le; unfold emax, prec; lia].
    destruct Hclass as [Hlarge|HE]; [|lia].
    pose proof (Zdigits2_ge (round_code k) 53 ltac:(lia)
                  ltac:(change (53 - 1) with 52; apply Hnormal; exact Hlarge)).
    lia.
Qed.

(** Rounding keeps the order: when the code of one number, taken at the
    exponent of the other where that is coarser, is not above the code of
    the other, the rounded numbers are in that order. *)
Lemma rounded_order (k E k' E' : Z) :
  in_range k E → in_range k' E' →
  (E' ≤ E → k ≤ halves (Z.to_nat (E - E')) k') →
  rounded_le (round_code k) E (round_code k') E'.
Proof.
  intros Hrange Hrange' Hle.
  destruct (in_range_mantissa k E Hrange) as [Hround Hnormal].
  destruct (in_range_mantissa k' E' Hrange') as [Hround' Hnormal'].
  destruct Hrange as (Hk & Hclass & Hmin). destruct Hrange' as (Hk' & Hclass' & Hmin').
  unfold rounded_le.
  destruct (Z.eq_dec (round_code k) 0) as [|Hzero]; [left; assumption|right].
  destruct (Z.lt_trichotomy E E') as [Hlt|[->|Hgt]].
  - destruct Hclass' as [Hlarge'|]; [|lia]. specialize (Hnormal' Hlarge').
    split; [lia|]. unfold normal_exponent, normal_mantissa.
    destruct (Z.eqb_spec (round_code k) (2 ^ 53)),
      (Z.eqb_spec (round_code k') (2 ^ 53)); lia.
  - specialize (Hle ltac:(lia)). rewrite Z.sub_diag in Hle. simpl in Hle.
    pose proof (round_code_mono k k' ltac:(lia)) as Hmono.
    split; [lia|]. unfold normal_exponent, normal_mantissa.
    destruct (Z.eqb_spec (round_code k) (2 ^ 53)),
      (Z.eqb_spec (round_code k') (2 ^ 53)); lia.
  - exfalso. specialize (Hle ltac:(lia)).
    destruct Hclass as [Hlarge|]; [|lia].
    destruct (Z.to_nat (E - E')) as [|n] eqn:Hn; [lia|].
    change (halves (S n) k') with (half (halves n k')) in Hle.
    pose proof (halves_bounds n k' ltac:(lia)) as Hbound.
    pose proof (half_mono (halves n k') k' Hbound) as Hhalf.
    assert (half k' < 2 ^ 54); [|lia].
    unfold half. change (2 ^ 54) with (2 * 2 ^ 53).
    change (2 ^ 55) with (4 * 2 ^ 53) in Hk'.
    destruct (_ =? _); Z.to_euclidean_division_equations; lia.
Qed.

Lemma rounded_le_leb (r E r' E' : Z) :
  0 ≤ r → 0 ≤ r' → 0 < normal_mantissa r' ∨ r' = 0 →
  rounded_le r E r' E' →
  SFleb (rounded r E) (rounded r' E') = true.
Proof.
  intros Hr Hr' Hm' Hle. unfold rounded.
  destruct (Z.eqb_spec r 0) as [->|Hzero].
  - destruct (r' =? 0); reflexivity.
  - destruct Hle as [|[Hpositive Horder]]; [lia|].
    destruct (Z.eqb_spec r' 0) as [|_]; [lia|].
    unfold SFleb, SFcompare.
    destruct Horder as [Hlt|[-> Hmantissa]].
    + rewrite (proj2 (Z.compare_lt_iff _ _) Hlt). reflexivity.
    + rewrite Z.compare_refl.
      change (Pos.compare_cont Eq ?x ?y) with (x ?= y)%positive.
      destruct (_ ?= _)%positive eqn:Hcompare; try reflexivity.
      apply Pos.compare_gt_iff in Hcompare.
      assert (0 < normal_mantissa r) by (unfold normal_mantissa; destruct (_ =? _); lia).
      lia.
Qed.

Lemma ratio_code_remainder (q r b : Z) :
  0 < b → 0 ≤ r < b → 0 ≤ q →
  ratio_code (2 * (b * q + r)) b = 4 * q + ratio_code (2 * r) b.
Proof.
  intros Hb Hr Hq. unfold ratio_code.
  replace (2 * (b * q + r)) with (2 * r + (2 * q) * b) by lia.
  rewrite Z.div_add, Z.mod_add by lia. lia.
Qed.

(** The position that the division reads off the remainder is the code of
    the remainder over the divisor. *)
Lemma new_location_code (q r b : Z) :
  0 < b → 0 ≤ r < b →
  code q (new_location b r) = 4 * q + ratio_code (2 * r) b.
Proof.
  intros Hb Hr. unfold code. f_equal. unfold ratio_code.
  assert (2 * r / b = 0 ∨ 2 * r / b = 1) as Hdiv.
  { assert (0 ≤ 2 * r / b) by (apply Z.div_pos; lia).
    assert (2 * r / b < 2) by (apply Z.div_lt_upper_bound; lia). lia. }
  pose proof (Z.div_mod (2 * r) b ltac:(lia)) as Hmod.
  pose proof (Z.mod_pos_bound (2 * r) b Hb) as Hbound.
  unfold new_location, new_location_even, new_location_odd.
  destruct (Z.even b) eqn:Heven.
  - destruct (Z.eqb_spec r 0) as [->|Hne].
    + reflexivity.
    + destruct (Z.compare_spec (2 * r) b) as [Heq|Hlt|Hgt];
        destruct (Z.eqb_spec (2 * r mod b) 0); nia.
  - destruct (Z.eqb_spec r 0) as [->|Hne].
    + reflexivity.
    + assert (2 * r ≠ b) as Hodd.
      { intros <-. rewrite Z.even_mul in Heven. discriminate Heven. }
      destruct (Z.compare_spec (2 * r + 1) b) as [Heq|Hlt|Hgt];
        destruct (Z.eqb_spec (2 * r mod b) 0); nia.
Qed.

Lemma quotient_code_halves (j : nat) (c n E : Z) :
  0 ≤ c → 0 < n → E + Z.of_nat j ≤ 1 →
  halves j (quotient_code c n E) = quotient_code c n (E + Z.of_nat j).
Proof.
  intros Hc Hn HE. unfold quotient_code.
  assert (0 < 2 ^ Z.of_nat j) by (apply Z.pow_pos_nonneg; lia).
  assert (0 ≤ 2 ^ (1 - E)) by (apply Z.pow_nonneg; lia).
  assert (0 ≤ 2 ^ (1 - (E + Z.of_nat j))) by (apply Z.pow_nonneg; lia).
  rewrite ratio_code_halves by nia.
  apply ratio_code_eq; [nia|nia|lia|].
  replace (1 - E) with (1 - (E + Z.of_nat j) + Z.of_nat j) by lia.
  rewrite Z.pow_add_r by lia. ring.
Qed.

Lemma quotient_code_mono (c n c' n' E : Z) :
  0 ≤ c → 0 < n → 0 < n' → c * n' ≤ c' * n → E ≤ 1 →
  quotient_code c n E ≤ quotient_code c' n' E.
Proof.
  intros Hc Hn Hn' Hle HE. unfold quotient_code.
  assert (0 ≤ 2 ^ (1 - E)) by (apply Z.pow_nonneg; lia).
  apply ratio_code_mono; [nia|lia|lia|nia].
Qed.

(** The true division of a count [c] by a size [n] that is not smaller: the
    quotient of the integers, rounded at an exponent [E]. *)
Lemma SFdiv_int_operand (c n : Z) :
  1 ≤ c ≤ n →
  ∃ E,
    E ≤ -52
    ∧ in_range (quotient_code c n E) E
    ∧ SFdiv prec emax (int_operand c) (int_operand n)
      = rounded (round_code (quotient_code c n E)) E.
Proof.
  intros Hc.
  destruct (Zdigits2_bounds c ltac:(lia)) as (Hone1 & Hlow1 & Hhigh1).
  destruct (Zdigits2_bounds n ltac:(lia)) as (Hone2 & Hlow2 & Hhigh2).
  assert (Zdigits2 c ≤ Zdigits2 n) as Hdigits
      by (apply Zdigits2_le; lia).
  destruct c as [|pc|pc]; try lia. destruct n as [|pn|pn]; try lia.
  unfold int_operand, SFdiv. simpl xorb. unfold SFdiv_core_binary.
  set (c := Z.pos pc) in *. set (n := Z.pos pn) in *.
  set (d1 := Zdigits2 c) in *. set (d2 := Zdigits2 n) in *.
  rewrite !Z.add_0_r, Z.sub_0_r, fexp_spec.
  set (e' := Z.max (d1 - d2 - 53) (-1074)).
  replace (Z.min e' 0) with e' by lia.
  assert (0 < - e') as Hs by lia.
  replace (0 - e') with (- e') by lia.
  destruct (- e') as [|s|s] eqn:Hshift; try lia.
  rewrite Z.shiftl_mul_pow2, <- Hshift by lia.
  assert (0 < 2 ^ (- e')) as Hpow by (apply Z.pow_pos_nonneg; lia).
  pose proof (Z.div_mod (c * 2 ^ (- e')) n ltac:(lia)) as Hdiv.
  pose proof (Z.mod_pos_bound (c * 2 ^ (- e')) n ltac:(lia)) as Hmod.
  pose proof (Z.div_pos (c * 2 ^ (- e')) n ltac:(nia) ltac:(lia)) as Hq0.
  assert (c * 2 ^ (- e') / n ≤ 2 ^ (- e')) as Hq1.
  { apply Z.div_le_upper_bound; [lia|nia]. }
  assert (e' ≠ -1074 → 2 ^ 52 ≤ c * 2 ^ (- e') / n) as Hq2.
  { intros Hnormal. apply Z.div_le_lower_bound; [lia|].
    assert (- e' = 53 - d1 + d2) as -> by lia.
    assert (2 ^ d2 * 2 ^ 52 ≤ 2 ^ (d1 - 1) * 2 ^ (53 - d1 + d2)) as Hpowers.
    { rewrite <- !Z.pow_add_r by lia. apply Z.pow_le_mono_r; lia. }
    assert (0 < 2 ^ (53 - d1 + d2)) by (apply Z.pow_pos_nonneg; lia).
    nia. }
  unfold Z.div, Z.modulo in Hdiv, Hmod, Hq0, Hq1, Hq2.
  destruct (Z.div_eucl (c * 2 ^ (- e')) n) as [q r].
  set (E := fexp prec emax (Zdigits2 q + e')).
  assert (e' ≤ E ∧ E ≤ -52) as [HE1 HE2].
  { unfold E. rewrite fexp_spec.
    destruct (Z.eq_dec q 0) as [->|Hpositive]; [simpl; lia|].
    assert (Zdigits2 q ≤ - e' + 1) as Hupper.
    { apply Zdigits2_le; [lia|]. rewrite Z.pow_add_r by lia. lia. }
    split; [|lia].
    destruct (Z.eq_dec e' (-1074)) as [|Hnormal]; [lia|].
    pose proof (Zdigits2_ge q 53 ltac:(lia)
                  ltac:(change (53 - 1) with 52; apply Hq2; exact Hnormal)).
    lia. }
  pose proof (binary_round_aux_code q e' (new_location n r)
                ltac:(lia) ltac:(fold E; lia) ltac:(fold E; lia)) as [Hrange Hround].
  fold E in Hrange, Hround. simpl in Hrange, Hround.
  assert (halves (Z.to_nat (E - e')) (code q (new_location n r))
          = quotient_code c n E) as Hcode.
  { rewrite new_location_code, <- ratio_code_remainder by lia.
    rewrite <- Hdiv.
    replace (2 * (c * 2 ^ (- e'))) with (c * 2 ^ (1 - e'))
      by (replace (1 - e') with (1 + - e') by lia; rewrite Z.pow_add_r by lia; ring).
    change (ratio_code (c * 2 ^ (1 - e')) n) with (quotient_code c n e').
    rewrite quotient_code_halves by lia. f_equal. lia. }
  rewrite Hcode in Hrange, Hround.
  exists E. split; [exact HE2|]. split; [exact Hrange|exact Hround].
Qed.

Lemma Prim2SF_100 :
  Prim2SF 100 = S754_finite false (Z.to_pos mantissa_100) (-46).
Proof. reflexivity. Qed.

(** The mantissa and the exponent of a rounded number that is not zero. *)
Lemma normal_mantissa_exponent (k E : Z) :
  in_range k E → E ≤ -52 → round_code k ≠ 0 →
  let mantissa := normal_mantissa (round_code k) in
  let exponent := normal_exponent (round_code k) E in
  0 < mantissa < 2 ^ 53
  ∧ (2 ^ 52 ≤ mantissa ∨ exponent = -1074)
  ∧ -1074 ≤ exponent ≤ -51.
Proof.
  intros Hrange HE Hzero.
  destruct (in_range_mantissa k E Hrange) as [Hround Hnormal].
  destruct Hrange as (Hk & Hclass & Hmin).
  unfold normal_mantissa, normal_exponent.
  destruct (Z.eqb_spec (round_code k) (2 ^ 53)) as [|Hne]; [lia|].
  split; [lia|]. split; [|lia].
  destruct Hclass as [Hlarge|]; [left; apply Hnormal; exact Hlarge|right; assumption].
Qed.

(** The product of a binary64 number below 100 and 100: the product of the
    mantissas, rounded at an exponent [E]. *)
Lemma SFmul_100 (mantissa exponent : Z) :
  0 < mantissa < 2 ^ 53 →
  2 ^ 52 ≤ mantissa ∨ exponent = -1074 →
  -1074 ≤ exponent ≤ -51 →
  ∃ E,
    exponent - 46 ≤ E < 971
    ∧ in_range (product_code mantissa exponent E) E
    ∧ SFmul prec emax (S754_finite false (Z.to_pos mantissa) exponent) (Prim2SF 100)
      = rounded (round_code (product_code mantissa exponent E)) E.
Proof.
  intros Hm Hclass He. rewrite Prim2SF_100.
  unfold SFmul. simpl xorb.
  assert (0 < mantissa_100) as H100 by (unfold mantissa_100; lia).
  rewrite Pos2Z.inj_mul, !Z2Pos.id by lia.
  set (p := mantissa * mantissa_100).
  assert (0 < p < 2 ^ 106) as Hp.
  { unfold p, mantissa_100. change (2 ^ 106) with (2 ^ 53 * (2 ^ 7 * 2 ^ 46)). nia. }
  pose proof (Zdigits2_le p 106 ltac:(lia) ltac:(lia)) as Hupper.
  destruct (Zdigits2_bounds p ltac:(lia)) as (Hone & _ & _).
  set (E := fexp prec emax (Zdigits2 p + (exponent + -46))).
  assert (exponent - 46 ≤ E < 971) as HE.
  { unfold E. rewrite fexp_spec. split; [|lia].
    destruct Hclass as [Hlarge|]; [|lia].
    assert (105 ≤ Zdigits2 p); [|lia].
    apply Zdigits2_ge; [lia|]. unfold p, mantissa_100.
    change (2 ^ (105 - 1)) with (2 ^ 52 * (2 ^ 6 * 2 ^ 46)). nia. }
  pose proof (binary_round_aux_code p (exponent + -46) loc_Exact
                ltac:(lia) ltac:(fold E; lia) ltac:(fold E; lia)) as [Hrange Hround].
  fold E in Hrange, Hround. unfold code in Hrange, Hround.
  rewrite Z.add_0_r in Hrange, Hround.
  exists E. split; [exact HE|]. split; [exact Hrange|exact Hround].
Qed.

(** Multiplying by 100 keeps the order of two binary64 numbers. *)
Lemma SFmul_100_order (mantissa exponent mantissa' exponent' : Z) :
  0 < mantissa < 2 ^ 53 →
  2 ^ 52 ≤ mantissa ∨ exponent = -1074 →
  -1074 ≤ exponent ≤ -51 →
  0 < mantissa' < 2 ^ 53 →
  2 ^ 52 ≤ mantissa' ∨ exponent' = -1074 →
  -1074 ≤ exponent' ≤ -51 →
  exponent < exponent' ∨ (exponent = exponent' ∧ mantissa ≤ mantissa') →
  SFleb
    (SFmul prec emax (S754_finite false (Z.to_pos mantissa) exponent) (Prim2SF 100))
    (SFmul prec emax (S754_finite false (Z.to_pos mantissa') exponent') (Prim2SF 100))
  = true.
Proof.
  intros Hm Hclass He Hm' Hclass' He' Horder.
  destruct (SFmul_100 mantissa exponent Hm Hclass He) as (E & HE & Hrange & ->).
  destruct (SFmul_100 mantissa' exponent' Hm' Hclass' He') as (E' & HE' & Hrange' & ->).
  assert (0 < mantissa_100) as H100 by (unfold mantissa_100; lia).
  destruct (in_range_mantissa _ _ Hrange) as [Hround _].
  destruct (in_range_mantissa _ _ Hrange') as [Hround' _].
  apply rounded_le_leb; [lia|lia| |].
  { unfold normal_mantissa. destruct (_ =? _); lia. }
  apply rounded_order; [exact Hrange|exact Hrange'|]. intros Hle.
  unfold product_code.
  rewrite <- halves_add, <- Z2Nat.inj_add by lia.
  replace (E - E' + (E' - (exponent' - 46))) with (E - (exponent' - 46)) by lia.
  destruct Horder as [Hlt|[-> Hmantissa]].
  - replace (Z.to_nat (E - (exponent - 46)))
      with (Z.to_nat (E - (exponent' - 46))
            + S (Z.to_nat (exponent' - exponent - 1)))%nat by lia.
    rewrite halves_add. apply halves_mono. split; [apply halves_bounds; nia|].
    rewrite halves_S.
    replace (4 * (mantissa * mantissa_100))
      with (4 * (mantissa * mantissa_100) + 0) at 1 by lia.
    rewrite half_spec by lia. simpl.
    pose proof (halves_bounds (Z.to_nat (exponent' - exponent - 1))
                  (2 * (mantissa * mantissa_100) + 0) ltac:(nia)) as Hbound.
    destruct Hclass' as [Hlarge'|]; [|lia]. nia.
  - apply halves_mono. nia.
Qed.


(** The true division of a count by a size that is not smaller is the
    rounded quotient of the two, as a binary64 number. *)
Lemma Prim2SF_true_divide (c n : Z) :
  1 ≤ c ≤ n →
  ∃ E,
    E ≤ -52
    ∧ in_range (quotient_code c n E) E
    ∧ Prim2SF (true_divide c n) = rounded (round_code (quotient_code c n E)) E.
Proof.
  intros Hc. destruct (SFdiv_int_operand c n Hc) as (E & HE & Hrange & Hdiv).
  exists E. split; [exact HE|]. split; [exact Hrange|].
  unfold true_divide. rewrite Hdiv. apply Prim2SF_SF2Prim.
  apply rounded_valid; [exact Hrange|lia].
Qed.

Lemma Prim2SF_true_divide_0 (n : Z) :
  1 ≤ n → Prim2SF (true_divide 0 n) = S754_zero false.
Proof. intros Hn. destruct n as [|p|p]; try lia. reflexivity. Qed.

(** Rounded numbers times 100, in order. *)
Lemma rounded_times_100 (k E k' E' : Z) :
  in_range k E → E ≤ -52 → in_range k' E' → E' ≤ -52 →
  rounded_le (round_code k) E (round_code k') E' →
  SFleb (SFmul prec emax (rounded (round_code k) E) (Prim2SF 100))
    (SFmul prec emax (rounded (round_code k') E') (Prim2SF 100))
  = true.
Proof.
  intros Hrange HE Hrange' HE' Hle. unfold rounded.
  destruct (Z.eqb_spec (round_code k') 0) as [Hzero'|Hzero'].
  - destruct Hle as [->|[Hpositive _]]; [reflexivity|lia].
  - destruct (normal_mantissa_exponent k' E' Hrange' HE' Hzero')
      as (Hm' & Hclass' & He').
    destruct (Z.eqb_spec (round_code k) 0) as [Hzero|Hzero].
    + destruct (SFmul_100 _ _ Hm' Hclass' He') as (E2 & _ & _ & ->).
      rewrite Prim2SF_100. simpl SFmul. unfold rounded.
      destruct (_ =? _); reflexivity.
    + destruct (normal_mantissa_exponent k E Hrange HE Hzero) as (Hm & Hclass & He).
      destruct Hle as [|[_ Horder]]; [contradiction|].
      apply SFmul_100_order; assumption.
Qed.

(** [c / n * 100 <= (c + 1) / (n + 1) * 100] in binary64, for every count
    [c] of a population of [n] members, whatever its size: the quotient of
    the integers does not fall, and neither the rounding of the quotient nor
    the rounding of the product reverses the order. *)
Lemma percentage_rises (c n : Z) :
  0 ≤ c ≤ n → 1 ≤ n →
  PrimFloat.leb (PrimFloat.mul (true_divide c n) 100)
    (PrimFloat.mul (true_divide (c + 1) (n + 1)) 100)
  = true.
Proof.
  intros Hc Hn.
  rewrite FloatAxioms.leb_spec, !FloatAxioms.mul_spec.
  destruct (Prim2SF_true_divide (c + 1) (n + 1) ltac:(lia))
    as (E' & HE' & Hrange' & ->).
  change SF64mul with (SFmul prec emax).
  destruct (Z.eq_dec c 0) as [->|Hpositive].
  - rewrite Prim2SF_true_divide_0 by lia.
    change (S754_zero false) with (rounded (round_code 0) (-1074)).
    apply rounded_times_100; [|lia|exact Hrange'|exact HE'|left; reflexivity].
    split; [lia|]. split; [right; reflexivity|lia].
  - destruct (Prim2SF_true_divide c n ltac:(lia)) as (E & HE & Hrange & ->).
    apply rounded_times_100; [exact Hrange|exact HE|exact Hrange'|exact HE'|].
    apply rounded_order; [exact Hrange|exact Hrange'|]. intros Hle.
    rewrite quotient_code_halves by lia.
    replace (E' + Z.of_nat (Z.to_nat (E - E'))) with E by lia.
    apply quotient_code_mono; lia.
Qed.

(** ** One more subscription with the best label *)

Lemma count_with_rule_bounds (labels : list string)
    (rules : list TenantThreshold.t) :
  0 ≤ count_with_rule labels rules ≤ Z.of_nat (length labels).
Proof.
  unfold count_with_rule. split; [lia|].
  apply inj_le. apply length_filter.
Qed.

(** One more subscription labeled A is counted at every rule from the A
    rule on. *)
Lemma count_with_rule_one_more (labels : list string)
    (rules : list TenantThreshold.t) :
  "A" ∈ map TenantThreshold.label rules →
  count_with_rule (labels ++ ["A"]) rules = count_with_rule labels rules + 1.
Proof.
  intros HA. unfold count_with_rule.
  rewrite filter_app, length_app, filter_cons, decide_True by exact HA.
  simpl. lia.
Qed.

Lemma reached_one_more (labels : list string) (before : list TenantThreshold.t)
    (rule : TenantThreshold.t) :
  labels ≠ [] →
  NoDup (map TenantThreshold.label (before ++ [rule])) →
  "A" ∈ map TenantThreshold.label (before ++ [rule]) →
  reached labels before rule = true →
  reached (labels ++ ["A"]) before rule = true.
Proof.
  intros Hne Hdup HA. unfold reached, cumulative_percentage, percentage_of_sum.
  rewrite !sum_subscription_sums by exact Hdup.
  rewrite count_with_rule_one_more by exact HA.
  rewrite length_app, Nat2Z.inj_add. simpl length.
  intros Hreached. eapply float_leb_trans; [exact Hreached|].
  apply percentage_rises.
  - apply count_with_rule_bounds.
  - destruct labels; [congruence|]. simpl length in *. lia.
Qed.

Lemma first_reached_label_elem_of (labels : list string)
    (todo done : list TenantThreshold.t) (l : string) :
  first_reached_label labels done todo = Some l →
  l ∈ map TenantThreshold.label todo.
Proof.
  revert done. induction todo as [|rule todo IH]; intros done; simpl; [discriminate|].
  destruct (reached labels done rule).
  - intros [= <-]. apply elem_of_cons. left. reflexivity.
  - intros Hrest. apply elem_of_cons. right. exact (IH _ Hrest).
Qed.

(** When every percentage check that succeeds for [labels] succeeds for
    [labels'] as well, the walk over the rules stops for [labels'] where it
    stops for [labels], or before. *)
Lemma first_reached_label_earlier (labels labels' : list string)
    (todo done : list TenantThreshold.t) :
  (∀ b1 rule b2, todo = b1 ++ rule :: b2 →
     reached labels (done ++ b1) rule = true →
     reached labels' (done ++ b1) rule = true) →
  match first_reached_label labels done todo with
  | Some l =>
      ∃ b1 rule b2,
        todo = b1 ++ rule :: b2
        ∧ first_reached_label labels' done todo = Some (TenantThreshold.label rule)
        ∧ (l = TenantThreshold.label rule ∨ l ∈ map TenantThreshold.label b2)
  | None =>
      first_reached_label labels' done todo = None
      ∨ ∃ l', first_reached_label labels' done todo = Some l'
              ∧ l' ∈ map TenantThreshold.label todo
  end.
Proof.
  revert done. induction todo as [|rule todo IH]; intros done Hmono; simpl.
  - left. reflexivity.
  - pose proof (Hmono [] rule todo eq_refl) as Hrule. rewrite app_nil_r in Hrule.
    destruct (reached labels' done rule) eqn:Hnew.
    + destruct (reached labels done rule) eqn:Hold.
      * exists [], rule, todo. auto.
      * destruct (first_reached_label labels (done ++ [rule]) todo) as [l|] eqn:Hrest.
        -- exists [], rule, todo. split; [reflexivity|]. split; [reflexivity|].
           right. exact (first_reached_label_elem_of _ _ _ _ Hrest).
        -- right. exists (TenantThreshold.label rule). split; [reflexivity|].
           apply elem_of_cons. left. reflexivity.
    + destruct (reached labels done rule) eqn:Hold.
      { specialize (Hrule eq_refl). discriminate Hrule. }
      specialize (IH (done ++ [rule])).
      destruct (first_reached_label labels (done ++ [rule]) todo) as [l|].
      * destruct IH as (b1 & r & b2 & -> & Hfirst & Hl).
        { intros b1 r b2 ->. rewrite <- app_assoc. apply (Hmono (rule :: b1) r b2).
          reflexivity. }
        exists (rule :: b1), r, b2. auto.
      * destruct IH as [Hnone|(l' & Hsome & Hin)].
        { intros b1 r b2 ->. rewrite <- app_assoc. apply (Hmono (rule :: b1) r b2).
          reflexivity. }
        -- left. exact Hnone.
        -- right. exists l'. split; [exact Hsome|]. apply elem_of_cons. right. exact Hin.
Qed.

(** C8, as amended: for every table of rules from the best to the worst
    label whose first rule is the rule of A, and every population of labeled
    subscriptions that is not empty, one more subscription labeled A gives
    an aggregate label that is better than or equal to the aggregate label
    of the population, whatever the size of the population. *)
Theorem aggregate_energy_label_one_more_A :
  ∀ (thresholds rest : list TenantThreshold.t) (percentage : float)
    (labels : list string),
    thresholds = TenantThreshold.mk "A" percentage :: rest →
    best_to_worst thresholds →
    labels ≠ [] →
    ∃ old_label new_label,
      AggregateSubscriptionEnergyLabel.label <$>
        aggregate_energy_label thresholds labels = Return old_label
      ∧ AggregateSubscriptionEnergyLabel.label <$>
          aggregate_energy_label thresholds (labels ++ ["A"]) = Return new_label
      ∧ better_or_equal new_label old_label.
Proof.
  intros thresholds rest percentage labels Hfirst Hordered Hne.
  pose proof (best_to_worst_NoDup thresholds Hordered) as Hdup.
  rewrite !aggregate_energy_label_label; [|by destruct labels|exact Hne].
  do 2 eexists. split; [reflexivity|]. split; [reflexivity|].
  assert (∀ b1 rule b2, thresholds = b1 ++ rule :: b2 →
            reached labels ([] ++ b1) rule = true →
            reached (labels ++ ["A"]) ([] ++ b1) rule = true) as Hmono.
  { intros b1 rule b2 Hsplit. simpl.
    apply reached_one_more; [exact Hne| |].
    - rewrite Hsplit, map_app in Hdup. simpl in Hdup.
      apply NoDup_app in Hdup as (Hb1 & Hdisjoint & Hrest).
      apply NoDup_cons in Hrest as [Hrule _].
      rewrite map_app. simpl. apply NoDup_app. split; [exact Hb1|].
      split; [|apply NoDup_singleton].
      intros l Hl [->|Hin]%elem_of_cons; [|inversion Hin].
      apply (Hdisjoint _ Hl). apply elem_of_cons. left. reflexivity.
    - rewrite map_app. simpl. rewrite Hfirst in Hsplit.
      destruct b1 as [|r b1]; simpl in Hsplit; injection Hsplit as <- _;
        apply elem_of_cons; left; reflexivity. }
  pose proof (first_reached_label_earlier labels (labels ++ ["A"]) thresholds [] Hmono)
    as Hearlier.
  destruct Hordered as [Hsorted Hworst].
  destruct (first_reached_label labels [] thresholds) as [l|].
  - destruct Hearlier as (b1 & rule & b2 & Hsplit & -> & Hl).
    simpl. destruct Hl as [->|Hl]; [apply better_or_equal_refl|].
    apply better_better_or_equal.
    rewrite Hsplit, map_app in Hsorted. apply StronglySorted_app_1_r in Hsorted.
    simpl in Hsorted. apply StronglySorted_inv in Hsorted as [_ Hall].
    rewrite Forall_forall in Hall. exact (Hall l Hl).
  - destruct Hearlier as [->|(l' & -> & Hin)].
    + apply better_or_equal_refl.
    + simpl. rewrite Forall_forall in Hworst. exact (Hworst l' Hin).
Qed.

Lemma aggregate_energy_label_one_more_A_witness :
  ∃ old_label new_label,
    AggregateSubscriptionEnergyLabel.label <$>
      aggregate_energy_label example_tenant_thresholds ["A"; "B"; "F"]
    = Return old_label
    ∧ AggregateSubscriptionEnergyLabel.label <$>
        aggregate_energy_label example_tenant_thresholds (["A"; "B"; "F"] ++ ["A"])
      = Return new_label
    ∧ better_or_equal new_label old_label.
Proof.
  apply (aggregate_energy_label_one_more_A example_tenant_thresholds
           [TenantThreshold.mk "B" 70; TenantThreshold.mk "C" 50;
            TenantThreshold.mk "D" 30; TenantThreshold.mk "E" 20]
           90%float ["A"; "B"; "F"]).
  - reflexivity.
  - split; repeat constructor.
  - discriminate.
Defined.

(** C8 as stated fails on a table without a rule for A: three of four
    subscriptions are labeled B, which is 75 percent and reaches the rule of
    B; with one more subscription labeled A they are 60 percent, the rule of
    B is missed, and the aggregate label drops to C. *)
Lemma aggregate_energy_label_one_more_A_counterexample :
  AggregateSubscriptionEnergyLabel.label <$>
    aggregate_energy_label thresholds_without_A three_B_one_A
  = Return "B"
  ∧ AggregateSubscriptionEnergyLabel.label <$>
      aggregate_energy_label thresholds_without_A (three_B_one_A ++ ["A"])
    = Return "C"
  ∧ better "B" "C".
Proof. repeat split. Qed.

(** * Further properties of the labelling code *)

(** ** What a call of [get_energy_label] can do to an entity *)

Lemma where_eq_raises (df : DataFrame.t) (key value : string) (e : exn) :
  DataFrame.where_eq df key value = Raise e → e = KeyError key.
Proof.
  unfold DataFrame.where_eq, DataFrame.getitem.
  destruct (DataFrame.get_loc (DataFrame.columns df) key); simpl; intros H;
    [discriminate H|injection H as <-; reflexivity].
Qed.

Lemma for_threshold_again new thresholds high medium low energy_label :
  for_threshold new thresholds high medium low
    (for_threshold new thresholds high medium low energy_label)
  = for_threshold new thresholds high medium low energy_label.
Proof.
  destruct thresholds as [|rule rest]; [reflexivity|].
  destruct (for_threshold_counts new (rule :: rest) high medium low energy_label)
    as [l Hl]; [discriminate|].
  destruct (for_threshold_counts new (rule :: rest) high medium low
              (for_threshold new (rule :: rest) high medium low energy_label))
    as [l' Hl']; [discriminate|].
  simpl in *. destruct (within rule high medium low); [reflexivity|].
  clear Hl Hl'. revert energy_label.
  generalize (Some (new "F" high medium low)). intros start energy_label.
  reflexivity.
Qed.

Lemma calculate_again new thresholds open_findings energy_label l :
  calculate new thresholds open_findings energy_label = Return l →
  calculate new thresholds open_findings l = Return l.
Proof.
  unfold calculate.
  destruct (number_of_findings open_findings "High") as [high|]; [|discriminate].
  destruct (number_of_findings open_findings "Medium") as [medium|]; [|discriminate].
  destruct (number_of_findings open_findings "Low") as [low|]; [|discriminate].
  simpl. intros [= <-]. rewrite for_threshold_again. reflexivity.
Qed.

Lemma calculate_raises new thresholds open_findings energy_label energy_label' e :
  calculate new thresholds open_findings energy_label = Raise e →
  calculate new thresholds open_findings energy_label' = Raise e.
Proof.
  unfold calculate.
  destruct (number_of_findings open_findings "High") as [high|]; [|auto].
  destruct (number_of_findings open_findings "Medium") as [medium|]; [|auto].
  destruct (number_of_findings open_findings "Low") as [low|]; [|auto].
  discriminate.
Qed.

(** [get_energy_label] by cases, on an entity given by its fields. *)
Lemma Subscription_get_energy_label_cases data thresholds label findings :
  Subscription.get_energy_label (Subscription.mk data thresholds label) findings
  = match DataFrame.where_eq (as_frame findings) "Subscription ID"
            (Subscription.data_subscription_id data) with
    | Raise _ =>
        let l := EnergyLabel.mk EnergyLabel.ResourceGroupEnergyLabel "A" 0 0 0 in
        (Subscription.mk data thresholds (Some l), Return l)
    | Return open_findings =>
        match calculate (EnergyLabel.mk EnergyLabel.SubscriptionEnergyLabel)
                thresholds open_findings label with
        | Return l => (Subscription.mk data thresholds l, getattr_energy_label l)
        | Raise _ => (Subscription.mk data thresholds label, getattr_energy_label label)
        end
    end.
Proof.
  unfold Subscription.get_energy_label, Subscription.subscription_id. simpl.
  destruct (DataFrame.where_eq _ _ _) as [open_findings|e] eqn:Hopen.
  - destruct (calculate _ _ _ _); reflexivity.
  - apply where_eq_raises in Hopen as ->. reflexivity.
Qed.

Lemma ResourceGroup_get_energy_label_cases (lower : string → string)
    data thresholds label findings :
  ResourceGroup.get_energy_label lower (ResourceGroup.mk data thresholds label) findings
  = match DataFrame.where_eq (as_frame findings) "Resource Group Name"
            (lower (ResourceGroup.data_name data)) with
    | Raise _ =>
        let l := EnergyLabel.mk EnergyLabel.ResourceGroupEnergyLabel "A" 0 0 0 in
        (ResourceGroup.mk data thresholds (Some l), Return l)
    | Return open_findings =>
        match calculate (EnergyLabel.mk EnergyLabel.ResourceGroupEnergyLabel)
                thresholds open_findings label with
        | Return l => (ResourceGroup.mk data thresholds l, getattr_energy_label l)
        | Raise _ => (ResourceGroup.mk data thresholds label, getattr_energy_label label)
        end
    end.
Proof.
  unfold ResourceGroup.get_energy_label, ResourceGroup.name. simpl.
  destruct (DataFrame.where_eq _ _ _) as [open_findings|e] eqn:Hopen.
  - destruct (calculate _ _ _ _); reflexivity.
  - apply where_eq_raises in Hopen as ->. reflexivity.
Qed.

(** X1: labelling an entity a second time with the same findings changes
    nothing: the second call leaves the entity as the first call left it
    and returns, or raises, what the first call did. *)
Theorem get_energy_label_again :
  (∀ (self : Subscription.t) (findings : findings_arg),
     Subscription.get_energy_label
       (Subscription.get_energy_label self findings).1 findings
     = Subscription.get_energy_label self findings)
  ∧ (∀ (lower : string → string) (self : ResourceGroup.t)
       (findings : findings_arg),
       ResourceGroup.get_energy_label lower
         (ResourceGroup.get_energy_label lower self findings).1 findings
       = ResourceGroup.get_energy_label lower self findings).
Proof.
  split.
  - intros [data thresholds label] findings.
    rewrite (Subscription_get_energy_label_cases data thresholds label).
    destruct (DataFrame.where_eq _ _ _) as [open_findings|e] eqn:Hopen.
    + destruct (calculate _ thresholds open_findings label) as [l|e] eqn:Hcalculate;
        simpl; rewrite Subscription_get_energy_label_cases, Hopen.
      * rewrite (calculate_again _ _ _ _ _ Hcalculate). reflexivity.
      * rewrite Hcalculate. reflexivity.
    + simpl. rewrite Subscription_get_energy_label_cases, Hopen. reflexivity.
  - intros lower [data thresholds label] findings.
    rewrite (ResourceGroup_get_energy_label_cases lower data thresholds label).
    destruct (DataFrame.where_eq _ _ _) as [open_findings|e] eqn:Hopen.
    + destruct (calculate _ thresholds open_findings label) as [l|e] eqn:Hcalculate;
        simpl; rewrite ResourceGroup_get_energy_label_cases, Hopen.
      * rewrite (calculate_again _ _ _ _ _ Hcalculate). reflexivity.
      * rewrite Hcalculate. reflexivity.
    + simpl. rewrite ResourceGroup_get_energy_label_cases, Hopen. reflexivity.
Qed.

Lemma calculate_None new thresholds open_findings energy_label :
  calculate new thresholds open_findings energy_label = Return None →
  energy_label = None.
Proof.
  unfold calculate.
  destruct (number_of_findings open_findings "High") as [high|]; [|discriminate].
  destruct (number_of_findings open_findings "Medium") as [medium|]; [|discriminate].
  destruct (number_of_findings open_findings "Low") as [low|]; [|discriminate].
  simpl. intros [= Hnone]. destruct thresholds as [|rule rest]; [exact Hnone|].
  destruct (for_threshold_counts new (rule :: rest) high medium low energy_label)
    as [l Hl]; [discriminate|]. rewrite Hl in Hnone. discriminate Hnone.
Qed.

Lemma Subscription_get_energy_label_outcome (self : Subscription.t)
    (findings : findings_arg) :
  let after := (Subscription.get_energy_label self findings).1 in
  Subscription._data after = Subscription._data self
  ∧ Subscription._subscription_thresholds after
    = Subscription._subscription_thresholds self
  ∧ match (Subscription.get_energy_label self findings).2 with
    | Return l => Subscription.energy_label after = Some l
    | Raise e =>
        e = AttributeError "energy_label"
        ∧ Subscription.energy_label self = None ∧ after = self
    end.
Proof.
  destruct self as [data thresholds label].
  rewrite Subscription_get_energy_label_cases.
  destruct (DataFrame.where_eq _ _ _) as [open_findings|e]; [|simpl; auto].
  destruct (calculate _ thresholds open_findings label) as [[l|]|e] eqn:Hcalculate;
    simpl; auto.
  - apply calculate_None in Hcalculate as ->. auto.
  - destruct label; simpl; auto.
Qed.

Lemma ResourceGroup_get_energy_label_outcome (lower : string → string)
    (self : ResourceGroup.t) (findings : findings_arg) :
  let after := (ResourceGroup.get_energy_label lower self findings).1 in
  ResourceGroup._data after = ResourceGroup._data self
  ∧ ResourceGroup._threshold after = ResourceGroup._threshold self
  ∧ match (ResourceGroup.get_energy_label lower self findings).2 with
    | Return l => ResourceGroup.energy_label after = Some l
    | Raise e =>
        e = AttributeError "energy_label"
        ∧ ResourceGroup.energy_label self = None ∧ after = self
    end.
Proof.
  destruct self as [data thresholds label].
  rewrite ResourceGroup_get_energy_label_cases.
  destruct (DataFrame.where_eq _ _ _) as [open_findings|e]; [|simpl; auto].
  destruct (calculate _ thresholds open_findings label) as [[l|]|e] eqn:Hcalculate;
    simpl; auto.
  - apply calculate_None in Hcalculate as ->. auto.
  - destruct label; simpl; auto.
Qed.

(** The frame that a list of findings is turned into has distinct column
    names. *)
Lemma pd_DataFrame_columns_NoDup (findings : list Finding.t) :
  NoDup (DataFrame.columns (as_frame (Findings findings))).
Proof.
  destruct findings as [|f fs]; simpl; [constructor|]. compute_done.
Qed.

(** X2: on findings whose frame has distinct column names, as every frame
    has that is built from a list of findings, a call of [get_energy_label]
    never changes the data or the thresholds of the entity.  When it
    returns a label, that label is the [energy_label] attribute of the
    entity afterwards.  The only exception that leaves it is the
    [AttributeError] of reading the attribute, and only on an entity that
    had no label, which it leaves as it was. *)
Theorem get_energy_label_outcome :
  (∀ (self : Subscription.t) (findings : findings_arg),
     NoDup (DataFrame.columns (as_frame findings)) →
     let after := (Subscription.get_energy_label self findings).1 in
     Subscription._data after = Subscription._data self
     ∧ Subscription._subscription_thresholds after
       = Subscription._subscription_thresholds self
     ∧ match (Subscription.get_energy_label self findings).2 with
       | Return l => Subscription.energy_label after = Some l
       | Raise e =>
           e = AttributeError "energy_label"
           ∧ Subscription.energy_label self = None ∧ after = self
       end)
  ∧ (∀ (lower : string → string) (self : ResourceGroup.t)
       (findings : findings_arg),
       NoDup (DataFrame.columns (as_frame findings)) →
       let after := (ResourceGroup.get_energy_label lower self findings).1 in
       ResourceGroup._data after = ResourceGroup._data self
       ∧ ResourceGroup._threshold after = ResourceGroup._threshold self
       ∧ match (ResourceGroup.get_energy_label lower self findings).2 with
         | Return l => ResourceGroup.energy_label after = Some l
         | Raise e =>
             e = AttributeError "energy_label"
             ∧ ResourceGroup.energy_label self = None ∧ after = self
         end)
  ∧ (∀ findings : list Finding.t,
       NoDup (DataFrame.columns (as_frame (Findings findings)))).
Proof.
  split; [|split].
  - intros self findings _. exact (Subscription_get_energy_label_outcome self findings).
  - intros lower self findings _.
    exact (ResourceGroup_get_energy_label_outcome lower self findings).
  - exact pd_DataFrame_columns_NoDup.
Qed.

Lemma get_energy_label_outcome_witness :
  Subscription.energy_label
    (Subscription.get_energy_label (new_subscription "sub-1" example_thresholds)
       (Findings example_findings)).1
  = Some (EnergyLabel.mk EnergyLabel.SubscriptionEnergyLabel "B" 0 2 1)
  ∧ (ResourceGroup.get_energy_label lower_ascii
       (new_resource_group "rg-1" example_thresholds)
       (Frame frame_without_severity)).1
    = new_resource_group "rg-1" example_thresholds.
Proof.
  split.
  - pose proof (proj1 get_energy_label_outcome
                  (new_subscription "sub-1" example_thresholds)
                  (Findings example_findings)
                  (pd_DataFrame_columns_NoDup example_findings)) as (_ & _ & Hlabel).
    exact Hlabel.
  - pose proof (proj1 (proj2 get_energy_label_outcome) lower_ascii
                  (new_resource_group "rg-1" example_thresholds)
                  (Frame frame_without_severity)) as Houtcome.
    destruct Houtcome as (_ & _ & _ & _ & Hsame); [compute_done|].
    exact Hsame.
Defined.

(** ** Which findings matter to the label of an entity *)

Lemma observed_Permutation (severity : string) (P : Finding.t → Prop)
    `{!∀ f, Decision (P f)} (findings findings' : list Finding.t) :
  findings ≡ₚ findings' →
  observed severity (filter P findings) = observed severity (filter P findings').
Proof. intros Hperm. unfold observed. rewrite Hperm. reflexivity. Qed.

(** X3: the order of the findings does not matter: two lists of findings
    that are permutations of each other give the same label and leave the
    entity the same. *)
Theorem get_energy_label_Permutation :
  (∀ (self : Subscription.t) (findings findings' : list Finding.t),
     findings ≡ₚ findings' →
     Subscription.get_energy_label self (Findings findings)
     = Subscription.get_energy_label self (Findings findings'))
  ∧ (∀ (lower : string → string) (self : ResourceGroup.t)
       (findings findings' : list Finding.t),
       findings ≡ₚ findings' →
       ResourceGroup.get_energy_label lower self (Findings findings)
       = ResourceGroup.get_energy_label lower self (Findings findings')).
Proof.
  split.
  - intros self findings findings' Hperm.
    destruct findings as [|f fs].
    + apply Permutation_nil_l in Hperm as ->. reflexivity.
    + assert (findings' ≠ []) as Hne.
      { intros ->. apply Permutation_nil_r in Hperm. discriminate Hperm. }
      rewrite !Subscription_get_energy_label_findings by (exact Hne || discriminate).
      unfold findings_of_subscription.
      rewrite !(observed_Permutation _ _ _ _ Hperm). reflexivity.
  - intros lower self findings findings' Hperm.
    destruct findings as [|f fs].
    + apply Permutation_nil_l in Hperm as ->. reflexivity.
    + assert (findings' ≠ []) as Hne.
      { intros ->. apply Permutation_nil_r in Hperm. discriminate Hperm. }
      rewrite !ResourceGroup_get_energy_label_findings by (exact Hne || discriminate).
      unfold findings_of_resource_group.
      rewrite !(observed_Permutation _ _ _ _ Hperm). reflexivity.
Qed.

Lemma get_energy_label_Permutation_witness :
  Subscription.get_energy_label (new_subscription "sub-1" example_thresholds)
    (Findings example_findings)
  = Subscription.get_energy_label (new_subscription "sub-1" example_thresholds)
      (Findings (rev example_findings))
  ∧ ResourceGroup.get_energy_label lower_ascii
      (new_resource_group "rg-1" example_thresholds) (Findings example_findings)
    = ResourceGroup.get_energy_label lower_ascii
        (new_resource_group "rg-1" example_thresholds)
        (Findings (rev example_findings)).
Proof.
  split.
  - apply (proj1 get_energy_label_Permutation). apply Permutation_rev.
  - apply (proj2 get_energy_label_Permutation). apply Permutation_rev.
Defined.

Lemma observed_cons_other (severity : string) (P : Finding.t → Prop)
    `{!∀ f, Decision (P f)} (f : Finding.t) (findings : list Finding.t) :
  ¬ P f ∨ Finding.severity f ≠ severity →
  observed severity (filter P (f :: findings)) = observed severity (filter P findings).
Proof.
  intros Hother. unfold observed. rewrite filter_cons.
  destruct (decide (P f)) as [HP|HP]; [|reflexivity].
  rewrite filter_cons, decide_False; [reflexivity|]. tauto.
Qed.

Lemma not_counted_severity (f : Finding.t) :
  ¬ counted_severity (Finding.severity f) →
  Finding.severity f ≠ "High" ∧ Finding.severity f ≠ "Medium"
  ∧ Finding.severity f ≠ "Low".
Proof. unfold counted_severity. tauto. Qed.

(** X4: beside findings that are there already, a finding of another
    entity (another subscription id; for a resource group, a resource group
    name other than the lower-cased name of the group), and a finding whose
    severity is none of High, Medium and Low (in this spelling), makes no
    difference to the label. *)
Theorem get_energy_label_ignores :
  (∀ (self : Subscription.t) (f : Finding.t) (findings : list Finding.t),
     findings ≠ [] →
     Finding.subscription_id f ≠ Subscription.subscription_id self
     ∨ ¬ counted_severity (Finding.severity f) →
     Subscription.get_energy_label self (Findings (f :: findings))
     = Subscription.get_energy_label self (Findings findings))
  ∧ (∀ (lower : string → string) (self : ResourceGroup.t) (f : Finding.t)
       (findings : list Finding.t),
       findings ≠ [] →
       Finding.resource_group f ≠ lower (ResourceGroup.name self)
       ∨ ¬ counted_severity (Finding.severity f) →
       ResourceGroup.get_energy_label lower self (Findings (f :: findings))
       = ResourceGroup.get_energy_label lower self (Findings findings)).
Proof.
  split.
  - intros self f findings Hne Hother.
    rewrite !Subscription_get_energy_label_findings by (exact Hne || discriminate).
    unfold findings_of_subscription.
    rewrite !observed_cons_other; [reflexivity|..];
      (destruct Hother as [Hid|Hseverity];
       [left; exact Hid|right; apply not_counted_severity in Hseverity; tauto]).
  - intros lower self f findings Hne Hother.
    rewrite !ResourceGroup_get_energy_label_findings by (exact Hne || discriminate).
    unfold findings_of_resource_group.
    rewrite !observed_cons_other; [reflexivity|..];
      (destruct Hother as [Hid|Hseverity];
       [left; exact Hid|right; apply not_counted_severity in Hseverity; tauto]).
Qed.

Lemma get_energy_label_ignores_witness :
  Subscription.get_energy_label (new_subscription "sub-1" example_thresholds)
    (Findings (finding "sub-1" "rg-1" "high" :: example_findings))
  = Subscription.get_energy_label (new_subscription "sub-1" example_thresholds)
      (Findings example_findings)
  ∧ ResourceGroup.get_energy_label lower_ascii
      (new_resource_group "rg-1" example_thresholds)
      (Findings (finding "sub-1" "rg-7" "High" :: example_findings))
    = ResourceGroup.get_energy_label lower_ascii
        (new_resource_group "rg-1" example_thresholds) (Findings example_findings).
Proof.
  split.
  - apply (proj1 get_energy_label_ignores); [discriminate|].
    right. vm_compute. intros [H|[H|H]]; discriminate H.
  - apply (proj2 get_energy_label_ignores); [discriminate|].
    left. vm_compute. discriminate.
Defined.

(** ** More findings, later rules *)

Lemma holds_fewer rule high medium low high' medium' low' :
  high ≤ high' → medium ≤ medium' → low ≤ low' →
  holds rule high' medium' low' → holds rule high medium low.
Proof. unfold holds. lia. Qed.

Lemma first_rule_up_to (before : list Threshold.t) (rule' : Threshold.t)
    (after : list Threshold.t) high medium low :
  holds rule' high medium low →
  ∃ rule,
    (rule = rule' ∨ rule ∈ before)
    ∧ first_rule (before ++ rule' :: after) high medium low rule.
Proof.
  intros Hrule'. induction before as [|earlier before IH].
  - exists rule'. split; [left; reflexivity|].
    exists [], after. split; [reflexivity|]. split; [constructor|exact Hrule'].
  - destruct (within earlier high medium low) eqn:Hearlier.
    + exists earlier. split; [right; apply elem_of_cons; left; reflexivity|].
      exists [], (before ++ rule' :: after). split; [reflexivity|].
      split; [constructor|]. apply within_holds. exact Hearlier.
    + destruct IH as (rule & Hwhere & b1 & b2 & Hsplit & Hb1 & Hrule).
      exists rule. split.
      * destruct Hwhere as [->|Hin]; [left; reflexivity|].
        right. apply elem_of_cons. right. exact Hin.
      * exists (earlier :: b1), b2. split; [simpl; rewrite Hsplit; reflexivity|].
        split; [|exact Hrule]. constructor; [|exact Hb1].
        apply within_not_holds. exact Hearlier.
Qed.

Lemma observed_cons_le (severity : string) (P : Finding.t → Prop)
    `{!∀ f, Decision (P f)} (f : Finding.t) (findings : list Finding.t) :
  observed severity (filter P findings) ≤ observed severity (filter P (f :: findings)).
Proof.
  unfold observed. rewrite filter_cons.
  destruct (decide (P f)); [|lia].
  rewrite filter_cons. destruct (decide (Finding.severity f = severity)); simpl; lia.
Qed.

(** X5: one more finding never moves an entity to an earlier rule of its
    table.  When the first rule that holds with the finding is [rule'], the
    first rule that holds without it is [rule'] or a rule before it; and an
    entity that is labeled F because no rule holds stays F with the
    finding. *)
Theorem get_energy_label_one_more_finding :
  (∀ (self : Subscription.t) (f : Finding.t) (findings : list Finding.t)
     (rule' : Threshold.t),
     let count severity list :=
       observed severity (findings_of_subscription self list) in
     findings ≠ [] →
     first_rule (Subscription._subscription_thresholds self)
       (count "High" (f :: findings)) (count "Medium" (f :: findings))
       (count "Low" (f :: findings)) rule' →
     ∃ rule before after,
       Subscription._subscription_thresholds self = before ++ rule' :: after
       ∧ (rule = rule' ∨ rule ∈ before)
       ∧ (Subscription.get_energy_label self (Findings findings)).2
         = Return (EnergyLabel.mk EnergyLabel.SubscriptionEnergyLabel
                     (Threshold.label rule) (count "High" findings)
                     (count "Medium" findings) (count "Low" findings))
       ∧ (Subscription.get_energy_label self (Findings (f :: findings))).2
         = Return (EnergyLabel.mk EnergyLabel.SubscriptionEnergyLabel
                     (Threshold.label rule') (count "High" (f :: findings))
                     (count "Medium" (f :: findings)) (count "Low" (f :: findings))))
  ∧ (∀ (self : Subscription.t) (f : Finding.t) (findings : list Finding.t),
       let count severity list :=
         observed severity (findings_of_subscription self list) in
       findings ≠ [] →
       Subscription._subscription_thresholds self ≠ [] →
       Forall (fun rule => ¬ holds rule (count "High" findings)
                               (count "Medium" findings) (count "Low" findings))
         (Subscription._subscription_thresholds self) →
       (Subscription.get_energy_label self (Findings (f :: findings))).2
       = Return (EnergyLabel.mk EnergyLabel.SubscriptionEnergyLabel "F"
                   (count "High" (f :: findings)) (count "Medium" (f :: findings))
                   (count "Low" (f :: findings)))).
Proof.
  split.
  - intros self f findings rule' count Hne Hfirst.
    pose proof Hfirst as (before & after & Hsplit & Hbefore & Hrule').
    destruct (first_rule_up_to before rule' after (count "High" findings)
                (count "Medium" findings) (count "Low" findings))
      as (rule & Hwhere & Hrule).
    { eapply holds_fewer; [..|exact Hrule']; apply observed_cons_le. }
    exists rule, before, after. split; [exact Hsplit|]. split; [exact Hwhere|].
    rewrite !Subscription_get_energy_label_findings by (exact Hne || discriminate).
    fold (count "High" findings) (count "Medium" findings) (count "Low" findings)
      (count "High" (f :: findings)) (count "Medium" (f :: findings))
      (count "Low" (f :: findings)).
    rewrite <- Hsplit in Hrule.
    rewrite (for_threshold_first _ _ _ _ _ rule) by exact Hrule.
    rewrite (for_threshold_first _ _ _ _ _ rule') by exact Hfirst.
    split; reflexivity.
  - intros self f findings count Hne Htable Hall.
    rewrite Subscription_get_energy_label_findings by discriminate.
    fold (count "High" (f :: findings)) (count "Medium" (f :: findings))
      (count "Low" (f :: findings)).
    rewrite for_threshold_none; [reflexivity|exact Htable|].
    eapply Forall_impl; [exact Hall|]. intros rule Hnot Hholds. apply Hnot.
    eapply holds_fewer; [..|exact Hholds]; apply observed_cons_le.
Qed.

Lemma get_energy_label_one_more_finding_witness :
  (∃ rule before after,
     example_thresholds = before ++ Threshold.mk "F" 1000000 1000000 1000000 :: after
     ∧ (rule = Threshold.mk "F" 1000000 1000000 1000000 ∨ rule ∈ before)
     ∧ (Subscription.get_energy_label (new_subscription "sub-1" example_thresholds)
          (Findings example_findings)).2
       = Return (EnergyLabel.mk EnergyLabel.SubscriptionEnergyLabel
                   (Threshold.label rule) 0 2 1)
     ∧ (Subscription.get_energy_label (new_subscription "sub-1" example_thresholds)
          (Findings (finding "sub-1" "rg-1" "High" :: example_findings))).2
       = Return (EnergyLabel.mk EnergyLabel.SubscriptionEnergyLabel "F" 1 2 1))
  ∧ (Subscription.get_energy_label (new_subscription "sub-2" strict_thresholds)
       (Findings (finding "sub-2" "rg-1" "Low" :: example_findings))).2
    = Return (EnergyLabel.mk EnergyLabel.SubscriptionEnergyLabel "F" 1 0 1).
Proof.
  split.
  - apply (proj1 get_energy_label_one_more_finding
             (new_subscription "sub-1" example_thresholds)
             (finding "sub-1" "rg-1" "High") example_findings
             (Threshold.mk "F" 1000000 1000000 1000000)); [discriminate|].
    exists [Threshold.mk "A" 0 0 5; Threshold.mk "B" 0 5 10], [].
    split; [reflexivity|]. split.
    + repeat constructor; vm_compute; intros (H & _); apply H; reflexivity.
    + vm_compute. repeat split; discriminate.
  - apply (proj2 get_energy_label_one_more_finding
             (new_subscription "sub-2" strict_thresholds)
             (finding "sub-2" "rg-1" "Low") example_findings);
      [discriminate|discriminate|].
    repeat constructor; vm_compute; intros (H & _); apply H; reflexivity.
Defined.

(** ** Frames without the expected columns *)

(** X6: a frame of findings without the identifier column of the entity
    labels the entity A with no findings, whatever rows the frame has,
    whatever the thresholds are and whatever label the entity had. *)
Theorem get_energy_label_no_identifier_column :
  (∀ (self : Subscription.t) (df : DataFrame.t),
     DataFrame.get_loc (DataFrame.columns df) "Subscription ID" = None →
     Subscription.get_energy_label self (Frame df)
     = (Subscription.set_energy_label self
          (Some (EnergyLabel.mk EnergyLabel.ResourceGroupEnergyLabel "A" 0 0 0)),
        Return (EnergyLabel.mk EnergyLabel.ResourceGroupEnergyLabel "A" 0 0 0)))
  ∧ (∀ (lower : string → string) (self : ResourceGroup.t) (df : DataFrame.t),
       DataFrame.get_loc (DataFrame.columns df) "Resource Group Name" = None →
       ResourceGroup.get_energy_label lower self (Frame df)
       = (ResourceGroup.set_energy_label self
            (Some (EnergyLabel.mk EnergyLabel.ResourceGroupEnergyLabel "A" 0 0 0)),
          Return (EnergyLabel.mk EnergyLabel.ResourceGroupEnergyLabel "A" 0 0 0))).
Proof.
  split.
  - intros self df Hloc.
    unfold Subscription.get_energy_label, as_frame, DataFrame.where_eq, DataFrame.getitem.
    rewrite Hloc. reflexivity.
  - intros lower self df Hloc.
    unfold ResourceGroup.get_energy_label, as_frame, DataFrame.where_eq, DataFrame.getitem.
    rewrite Hloc. reflexivity.
Qed.

Lemma get_energy_label_no_identifier_column_witness :
  (Subscription.get_energy_label (new_subscription "sub-1" strict_thresholds)
     (Frame frame_without_identifier)).2
  = Return (EnergyLabel.mk EnergyLabel.ResourceGroupEnergyLabel "A" 0 0 0)
  ∧ (ResourceGroup.get_energy_label lower_ascii
       (new_resource_group "rg-1" strict_thresholds)
       (Frame frame_without_identifier)).2
    = Return (EnergyLabel.mk EnergyLabel.ResourceGroupEnergyLabel "A" 0 0 0).
Proof.
  split.
  - rewrite (proj1 get_energy_label_no_identifier_column); reflexivity.
  - rewrite (proj2 get_energy_label_no_identifier_column); reflexivity.
Defined.

(** ** The case of the name of a resource group *)





(** ** The subscriptions that a tenant labels *)

Lemma positions_lookup (keep : Subscription.t → bool)
    (listing before : list Subscription.t) :
  map (fun i => (before ++ listing) !! i) (Tenant.positions keep listing (length before))
  = map Some (List.filter keep listing).
Proof.
  revert before. induction listing as [|subscription listing IH]; intros before;
    [reflexivity|].
  assert (before ++ subscription :: listing = (before ++ [subscription]) ++ listing)
    as Happ by (rewrite <- app_assoc; reflexivity).
  assert (S (length before) = length (before ++ [subscription])) as Hlength
    by (rewrite length_app; simpl; lia).
  simpl. destruct (keep subscription); simpl.
  - rewrite list_lookup_middle by reflexivity. f_equal.
    rewrite Happ, Hlength. apply IH.
  - rewrite Happ, Hlength. apply IH.
Qed.

Lemma filter_bool_decide {A : Type} (P : A → Prop) `{!∀ x, Decision (P x)}
    (l : list A) :
  List.filter (fun x => bool_decide (P x)) l = filter P l.
Proof.
  induction l as [|x l IH]; [reflexivity|].
  simpl. rewrite filter_cons. destruct (decide (P x)) as [HP|HP].
  - rewrite bool_decide_eq_true_2 by exact HP. f_equal. exact IH.
  - rewrite bool_decide_eq_false_2 by exact HP. exact IH.
Qed.

Lemma seq_lookup {A : Type} (l before : list A) :
  map (fun i => (before ++ l) !! i) (seq (length before) (length l)) = map Some l.
Proof.
  revert before. induction l as [|x l IH]; intros before; [reflexivity|].
  simpl. rewrite list_lookup_middle by reflexivity. f_equal.
  assert (before ++ x :: l = (before ++ [x]) ++ l) as ->
    by (rewrite <- app_assoc; reflexivity).
  assert (S (length before) = length (before ++ [x])) as ->
    by (rewrite length_app; simpl; lia).
  apply IH.
Qed.

Lemma get_allowed_subscriptions_at (self : Tenant.t) :
  subscriptions_at self (Tenant.get_allowed_subscriptions self)
  = map Some
      (filter (fun subscription =>
                 Subscription.subscription_id subscription
                 ∈ Tenant.allowed_subscription_ids self)
         (Tenant.subscriptions self)).
Proof.
  unfold subscriptions_at, Tenant.get_allowed_subscriptions.
  rewrite (positions_lookup _ (Tenant.subscriptions self) []), filter_bool_decide.
  reflexivity.
Qed.

Lemma get_not_denied_subscriptions_at (self : Tenant.t) :
  subscriptions_at self (Tenant.get_not_denied_subscriptions self)
  = map Some
      (filter (fun subscription =>
                 Subscription.subscription_id subscription
                 ∉ Tenant.denied_subscription_ids self)
         (Tenant.subscriptions self)).
Proof.
  unfold subscriptions_at, Tenant.get_not_denied_subscriptions.
  rewrite (positions_lookup _ (Tenant.subscriptions self) []), filter_bool_decide.
  reflexivity.
Qed.

(** X8: the subscriptions to be labeled, on their first access: with an
    allow list they are the subscriptions of the tenant whose id is on the
    list, in the order of the listing, and the deny list is not looked at;
    with a deny list only, they are the ones whose id is not on it; with
    neither, they are all subscriptions.  The list is kept on the tenant,
    and a second access returns it again. *)
Theorem subscriptions_to_be_labeled_selection :
  ∀ self : Tenant.t,
    Tenant._subscriptions_to_be_labeled self = None →
    let after := (Tenant.subscriptions_to_be_labeled self).1 in
    let todo := (Tenant.subscriptions_to_be_labeled self).2 in
    (Tenant.allowed_subscription_ids self ≠ [] →
     subscriptions_at self todo
     = map Some
         (filter (fun subscription =>
                    Subscription.subscription_id subscription
                    ∈ Tenant.allowed_subscription_ids self)
            (Tenant.subscriptions self)))
    ∧ (Tenant.allowed_subscription_ids self = [] →
       Tenant.denied_subscription_ids self ≠ [] →
       subscriptions_at self todo
       = map Some
           (filter (fun subscription =>
                      Subscription.subscription_id subscription
                      ∉ Tenant.denied_subscription_ids self)
              (Tenant.subscriptions self)))
    ∧ (Tenant.allowed_subscription_ids self = [] →
       Tenant.denied_subscription_ids self = [] →
       subscriptions_at self todo = map Some (Tenant.subscriptions self))
    ∧ Tenant.subscriptions_to_be_labeled after = (after, todo).
Proof.
  intros self Hcache after todo. subst after todo.
  assert (∃ l, Tenant.subscriptions_to_be_labeled self
               = (Tenant.set_subscriptions_to_be_labeled self l, l)
               ∧ l = if bool_decide (Tenant.allowed_subscription_ids self ≠ [])
                     then Tenant.get_allowed_subscriptions self
                     else if bool_decide (Tenant.denied_subscription_ids self ≠ [])
                     then Tenant.get_not_denied_subscriptions self
                     else seq 0 (length (Tenant.subscriptions self)))
    as (l & -> & Hl).
  { eexists. unfold Tenant.subscriptions_to_be_labeled. rewrite Hcache.
    split; reflexivity. }
  simpl. rewrite Hl. clear Hl l.
  split; [|split; [|split]].
  - intros Hallowed. rewrite bool_decide_eq_true_2 by exact Hallowed.
    apply get_allowed_subscriptions_at.
  - intros Hallowed Hdenied.
    rewrite bool_decide_eq_false_2 by (rewrite Hallowed; auto).
    rewrite bool_decide_eq_true_2 by exact Hdenied.
    apply get_not_denied_subscriptions_at.
  - intros Hallowed Hdenied.
    rewrite bool_decide_eq_false_2 by (rewrite Hallowed; auto).
    rewrite bool_decide_eq_false_2 by (rewrite Hdenied; auto).
    apply (seq_lookup (Tenant.subscriptions self) []).
  - reflexivity.
Qed.

Lemma subscriptions_to_be_labeled_selection_witness :
  subscriptions_at (tenant_with ["sub-3"; "sub-1"] ["sub-1"])
    (Tenant.subscriptions_to_be_labeled (tenant_with ["sub-3"; "sub-1"] ["sub-1"])).2
  = [Some (new_subscription "sub-1" example_thresholds);
     Some (new_subscription "sub-3" example_thresholds)]
  ∧ subscriptions_at (tenant_with [] ["sub-1"])
      (Tenant.subscriptions_to_be_labeled (tenant_with [] ["sub-1"])).2
    = [Some (new_subscription "sub-2" example_thresholds);
       Some (new_subscription "sub-3" example_thresholds)]
  ∧ subscriptions_at (tenant_with [] [])
      (Tenant.subscriptions_to_be_labeled (tenant_with [] [])).2
    = map Some example_listing.
Proof.
  split; [|split].
  - apply (subscriptions_to_be_labeled_selection
             (tenant_with ["sub-3"; "sub-1"] ["sub-1"]) eq_refl).
    discriminate.
  - apply (subscriptions_to_be_labeled_selection (tenant_with [] ["sub-1"]) eq_refl);
      [reflexivity|discriminate].
  - apply (subscriptions_to_be_labeled_selection (tenant_with [] []) eq_refl);
      reflexivity.
Defined.

Lemma validate_tenant_subscription_ids_Return
    (subscription_ids tenant_account_ids validated : list string) :
  Tenant._validate_tenant_subscription_ids subscription_ids tenant_account_ids
  = Return validated →
  validated = subscription_ids
  ∧ ∀ id, id ∈ subscription_ids → id ∈ tenant_account_ids.
Proof.
  unfold Tenant._validate_tenant_subscription_ids.
  case_bool_decide as Hempty; [discriminate|].
  intros [= <-]. split; [reflexivity|].
  apply not_in_tenant_empty.
  destruct (decide ((list_to_set subscription_ids ∖ list_to_set tenant_account_ids
                     : gset string) = ∅)) as [Heq|Hne]; [exact Heq|].
  contradiction.
Qed.

Lemma map_filter_subscription_id (P : string → Prop) `{!∀ id, Decision (P id)}
    (listing : list Subscription.t) :
  map Subscription.subscription_id
    (filter (fun subscription => P (Subscription.subscription_id subscription)) listing)
  = filter P (map Subscription.subscription_id listing).
Proof.
  induction listing as [|subscription listing IH]; [reflexivity|].
  simpl. rewrite !filter_cons.
  destruct (decide (P (Subscription.subscription_id subscription))); simpl;
    rewrite IH; reflexivity.
Qed.

(** X9: a tenant that [__init__] has built with an allow list labels one
    subscription for each id of the list: when the subscription ids of the
    listing are distinct and the ids of the allow list are distinct, the
    ids of the subscriptions to be labeled are the ids of the allow list, up
    to their order. *)
Theorem init_allowed_subscriptions_to_be_labeled :
  ∀ validate listing tenant_id thresholds subscription_thresholds
    resource_group_thresholds allowed_argument denied_argument (self : Tenant.t),
    Tenant.__init__ validate listing tenant_id thresholds subscription_thresholds
      resource_group_thresholds allowed_argument denied_argument
    = Return self →
    NoDup (map Subscription.subscription_id listing) →
    NoDup (Tenant.allowed_subscription_ids self) →
    Tenant.allowed_subscription_ids self ≠ [] →
    ∃ selected,
      subscriptions_at self (Tenant.subscriptions_to_be_labeled self).2
      = map Some selected
      ∧ map Subscription.subscription_id selected
        ≡ₚ Tenant.allowed_subscription_ids self.
Proof.
  intros validate listing tenant_id thresholds st rt a d self Hinit Hids Hallowed Hne.
  unfold Tenant.__init__ in Hinit.
  destruct (validate a d) as [[allowed denied]|e]; [|discriminate Hinit].
  simpl in Hinit.
  destruct (Tenant._validate_tenant_subscription_ids allowed _) as [allowed'|e]
    eqn:Hvalidate; [|discriminate Hinit].
  apply validate_tenant_subscription_ids_Return in Hvalidate as [-> Hpart].
  simpl in Hinit.
  destruct (Tenant._validate_tenant_subscription_ids denied _) as [denied'|e];
    [|discriminate Hinit].
  injection Hinit as <-. simpl in *.
  exists (filter (fun subscription =>
                    Subscription.subscription_id subscription ∈ allowed) listing).
  split.
  - unfold Tenant.subscriptions_to_be_labeled. simpl.
    rewrite bool_decide_eq_true_2 by exact Hne. simpl.
    apply (get_allowed_subscriptions_at
             (Tenant.mk tenant_id thresholds st rt listing allowed denied' None None)).
  - assert (map Subscription.subscription_id
              (filter (fun subscription =>
                         Subscription.subscription_id subscription ∈ allowed) listing)
            = filter (fun id => id ∈ allowed) (map Subscription.subscription_id listing))
      as -> by exact (map_filter_subscription_id (fun id => id ∈ allowed) listing).
    apply NoDup_Permutation; [apply NoDup_filter; exact Hids|exact Hallowed|].
    intros id. rewrite list_elem_of_filter. split; [tauto|]. auto.
Qed.

Lemma init_allowed_subscriptions_to_be_labeled_witness :
  ∃ self selected,
    Tenant.__init__ lists_as_given example_listing "tenant"
      example_tenant_thresholds example_thresholds example_thresholds
      (Some ["sub-3"; "sub-1"]) None
    = Return self
    ∧ subscriptions_at self (Tenant.subscriptions_to_be_labeled self).2
      = map Some selected
    ∧ map Subscription.subscription_id selected ≡ₚ ["sub-3"; "sub-1"].
Proof.
  eexists. 
  destruct (init_allowed_subscriptions_to_be_labeled lists_as_given example_listing
              "tenant" example_tenant_thresholds example_thresholds example_thresholds
              (Some ["sub-3"; "sub-1"]) None _ eq_refl)
    as (selected & Hat & Hperm).
  - compute_done.
  - compute_done.
  - discriminate.
  - exists selected. split; [reflexivity|]. split; [exact Hat|exact Hperm].
Defined.

(** ** The counter of the labels, and the best and worst label *)

Lemma filter_eq_nil (labels : list string) (l : string) :
  l ∉ labels → filter (fun x => x = l) labels = [].
Proof.
  intros Hout. induction labels as [|x labels IH]; [reflexivity|].
  rewrite filter_cons, decide_False.
  - apply IH. intros Hin. apply Hout. apply elem_of_cons. right. exact Hin.
  - intros ->. apply Hout. apply elem_of_cons. left. reflexivity.
Qed.

Lemma Counter_foldl_lookup (labels : list string) (counter : gmap string Z)
    (l : string) :
  foldl (fun counter l => <[l := default 0 (counter !! l) + 1]> counter)
    counter labels !! l
  = if decide (l ∈ labels)
    then Some (default 0 (counter !! l)
               + Z.of_nat (length (filter (fun x => x = l) labels)))
    else counter !! l.
Proof.
  revert counter. induction labels as [|x labels IH]; intros counter.
  - reflexivity.
  - simpl. rewrite IH, filter_cons.
    destruct (decide (x = l)) as [->|Hne].
    + rewrite lookup_insert_eq.
      rewrite (decide_True (P := l ∈ l :: labels))
        by (apply elem_of_cons; left; reflexivity).
      destruct (decide (l ∈ labels)) as [Hin|Hout].
      * simpl. apply (f_equal Some). lia.
      * rewrite filter_eq_nil by exact Hout. simpl. apply (f_equal Some). lia.
    + rewrite lookup_insert_ne by exact Hne.
      destruct (decide (l ∈ labels)) as [Hin|Hout].
      * rewrite decide_True by (apply elem_of_cons; right; exact Hin). reflexivity.
      * rewrite decide_False; [reflexivity|].
        intros [->|Hin]%elem_of_cons; [congruence|contradiction].
Qed.

(** The counter holds, for each label of the population and no other, the
    number of subscriptions that carry it. *)
Lemma Counter_lookup (labels : list string) (l : string) :
  Counter labels !! l
  = if decide (l ∈ labels)
    then Some (Z.of_nat (length (filter (fun x => x = l) labels)))
    else None.
Proof.
  unfold Counter. rewrite Counter_foldl_lookup, lookup_empty.
  destruct (decide (l ∈ labels)); reflexivity.
Qed.

Lemma Counter_Permutation (labels labels' : list string) :
  labels ≡ₚ labels' → Counter labels = Counter labels'.
Proof.
  intros Hperm. apply map_eq. intros l. rewrite !Counter_lookup.
  destruct (decide (l ∈ labels)) as [Hin|Hout].
  - rewrite decide_True by (rewrite <- Hperm; exact Hin). rewrite Hperm. reflexivity.
  - rewrite decide_False by (rewrite <- Hperm; exact Hout). reflexivity.
Qed.

Lemma elem_of_keys (labels : list string) (l : string) :
  l ∈ keys (Counter labels) ↔ l ∈ labels.
Proof.
  unfold keys. rewrite list_elem_of_fmap. split.
  - intros ([k c] & -> & Hin). apply elem_of_map_to_list in Hin.
    rewrite Counter_lookup in Hin. simpl. destruct (decide (k ∈ labels)); congruence.
  - intros Hin. exists (l, Z.of_nat (length (filter (fun x => x = l) labels))).
    split; [reflexivity|]. apply elem_of_map_to_list.
    rewrite Counter_lookup, decide_True by exact Hin. reflexivity.
Qed.

Lemma string_leb_trans (x y z : string) :
  String.leb x y = true → String.leb y z = true → String.leb x z = true.
Proof.
  intros Hxy Hyz. apply Is_true_true. apply Is_true_true in Hxy, Hyz.
  exact (transitivity (R := String.le) Hxy Hyz).
Qed.

Lemma string_ltb_false_leb (x y : string) :
  String.ltb x y = false → String.leb y x = true.
Proof.
  unfold String.ltb, String.leb. rewrite (String.compare_antisym x y).
  destruct (String.compare y x); simpl; congruence.
Qed.

Lemma string_ltb_leb (x y : string) : String.ltb x y = true → String.leb x y = true.
Proof. apply better_better_or_equal. Qed.

Lemma foldl_min (l : list string) (x : string) :
  let m := foldl (fun m y => if String.ltb y m then y else m) x l in
  (m = x ∨ m ∈ l) ∧ String.leb m x = true ∧ ∀ y, y ∈ l → String.leb m y = true.
Proof.
  revert x. induction l as [|y l IH]; intros x; simpl.
  - split; [left; reflexivity|]. split; [apply better_or_equal_refl|].
    intros y Hy. apply not_elem_of_nil in Hy. contradiction.
  - destruct (String.ltb y x) eqn:Hlt.
    + destruct (IH y) as (Hin & Hle & Hall). split; [|split].
      * right. apply elem_of_cons. destruct Hin as [->|Hin]; auto.
      * eapply string_leb_trans; [exact Hle|]. apply string_ltb_leb. exact Hlt.
      * intros z [->|Hz]%elem_of_cons; auto.
    + destruct (IH x) as (Hin & Hle & Hall). split; [|split].
      * destruct Hin as [->|Hin]; [left; reflexivity|].
        right. apply elem_of_cons. right. exact Hin.
      * exact Hle.
      * intros z [->|Hz]%elem_of_cons; [|auto].
        eapply string_leb_trans; [exact Hle|]. apply string_ltb_false_leb. exact Hlt.
Qed.

Lemma foldl_max (l : list string) (x : string) :
  let m := foldl (fun m y => if String.ltb m y then y else m) x l in
  (m = x ∨ m ∈ l) ∧ String.leb x m = true ∧ ∀ y, y ∈ l → String.leb y m = true.
Proof.
  revert x. induction l as [|y l IH]; intros x; simpl.
  - split; [left; reflexivity|]. split; [apply better_or_equal_refl|].
    intros y Hy. apply not_elem_of_nil in Hy. contradiction.
  - destruct (String.ltb x y) eqn:Hlt.
    + destruct (IH y) as (Hin & Hle & Hall). split; [|split].
      * right. apply elem_of_cons. destruct Hin as [->|Hin]; auto.
      * eapply string_leb_trans; [|exact Hle]. apply string_ltb_leb. exact Hlt.
      * intros z [->|Hz]%elem_of_cons; auto.
    + destruct (IH x) as (Hin & Hle & Hall). split; [|split].
      * destruct Hin as [->|Hin]; [left; reflexivity|].
        right. apply elem_of_cons. right. exact Hin.
      * exact Hle.
      * intros z [->|Hz]%elem_of_cons; [|auto].
        eapply string_leb_trans; [|exact Hle]. apply string_ltb_false_leb. exact Hlt.
Qed.

Lemma py_min_spec (l : list string) (m : string) :
  py_min l = Return m → m ∈ l ∧ ∀ y, y ∈ l → String.leb m y = true.
Proof.
  destruct l as [|x l]; [discriminate|]. simpl. intros [= <-].
  destruct (foldl_min l x) as (Hin & Hle & Hall). split.
  - apply elem_of_cons. destruct Hin as [->|Hin]; auto.
  - intros y [->|Hy]%elem_of_cons; auto.
Qed.

Lemma py_max_spec (l : list string) (m : string) :
  py_max l = Return m → m ∈ l ∧ ∀ y, y ∈ l → String.leb y m = true.
Proof.
  destruct l as [|x l]; [discriminate|]. simpl. intros [= <-].
  destruct (foldl_max l x) as (Hin & Hle & Hall). split.
  - apply elem_of_cons. destruct Hin as [->|Hin]; auto.
  - intros y [->|Hy]%elem_of_cons; auto.
Qed.

(** X10: the aggregate label does not depend on the order of the labeled
    subscriptions: two populations that are permutations of each other give
    the same aggregate label, best label, worst label and size, or the same
    exception. *)
Theorem aggregate_energy_label_Permutation :
  ∀ (thresholds : list TenantThreshold.t) (labels labels' : list string),
    labels ≡ₚ labels' →
    aggregate_energy_label thresholds labels
    = aggregate_energy_label thresholds labels'.
Proof.
  intros thresholds labels labels' Hperm. unfold aggregate_energy_label.
  rewrite (Counter_Permutation _ _ Hperm), (Permutation_length Hperm). reflexivity.
Qed.

Lemma aggregate_energy_label_Permutation_witness :
  aggregate_energy_label example_tenant_thresholds example_labels
  = aggregate_energy_label example_tenant_thresholds (rev example_labels).
Proof. apply aggregate_energy_label_Permutation. apply Permutation_rev. Defined.

(** X11: whenever the aggregation returns, the best label that it reports
    is a label of the population and no label of the population is better,
    and the worst label that it reports is a label of the population and no
    label of the population is worse. *)
Theorem aggregate_energy_label_best_worst :
  ∀ (thresholds : list TenantThreshold.t) (labels : list string)
    (l : AggregateSubscriptionEnergyLabel.t),
    aggregate_energy_label thresholds labels = Return l →
    AggregateSubscriptionEnergyLabel.best_label l ∈ labels
    ∧ (∀ x, x ∈ labels →
         better_or_equal (AggregateSubscriptionEnergyLabel.best_label l) x)
    ∧ AggregateSubscriptionEnergyLabel.worst_label l ∈ labels
    ∧ (∀ x, x ∈ labels →
         better_or_equal x (AggregateSubscriptionEnergyLabel.worst_label l)).
Proof.
  intros thresholds labels l. unfold aggregate_energy_label.
  destruct (for_tenant_threshold _ _ _ _) as [matched|e]; [|discriminate]. simpl.
  destruct (py_min (keys (Counter labels))) as [best|e] eqn:Hmin; [|discriminate].
  destruct (py_max (keys (Counter labels))) as [worst|e] eqn:Hmax; [|discriminate].
  simpl. intros [= <-]. simpl.
  apply py_min_spec in Hmin as [Hbest Hleast].
  apply py_max_spec in Hmax as [Hworst Hgreatest].
  rewrite elem_of_keys in Hbest, Hworst.
  split; [exact Hbest|]. split.
  { intros x Hx. apply Hleast. apply elem_of_keys. exact Hx. }
  split; [exact Hworst|].
  intros x Hx. apply Hgreatest. apply elem_of_keys. exact Hx.
Qed.

Lemma aggregate_energy_label_best_worst_witness :
  AggregateSubscriptionEnergyLabel.best_label
    (AggregateSubscriptionEnergyLabel.mk "B" "A" "F" 4) ∈ example_labels
  ∧ (∀ x, x ∈ example_labels → better_or_equal "A" x)
  ∧ "F" ∈ example_labels
  ∧ (∀ x, x ∈ example_labels → better_or_equal x "F").
Proof.
  apply (aggregate_energy_label_best_worst example_tenant_thresholds example_labels
           (AggregateSubscriptionEnergyLabel.mk "B" "A" "F" 4)).
  vm_compute. reflexivity.
Defined.

Lemma for_tenant_threshold_returns (thresholds : list TenantThreshold.t)
    (label_counter : gmap string Z) (number_of_subscriptions : Z)
    (subscription_sums : list Z) :
  number_of_subscriptions ≠ 0 →
  ∃ matched,
    for_tenant_threshold thresholds label_counter number_of_subscriptions
      subscription_sums = Return matched
    ∧ (matched = None
       ∨ ∃ l, matched = Some l ∧ l ∈ map TenantThreshold.label thresholds).
Proof.
  intros Hne. revert subscription_sums.
  induction thresholds as [|rule thresholds IH]; intros sums; simpl.
  - eexists. split; [reflexivity|]. left. reflexivity.
  - unfold div_times_100.
    destruct (Z.eqb_spec number_of_subscriptions 0) as [Hzero|_]; [contradiction|].
    simpl. destruct (PrimFloat.leb _ _).
    + eexists. split; [reflexivity|]. right. eexists. split; [reflexivity|].
      apply elem_of_cons. left. reflexivity.
    + destruct (IH (sums ++ [default 0 (label_counter !! TenantThreshold.label rule)]))
        as (matched & -> & Hmatched).
      eexists. split; [reflexivity|].
      destruct Hmatched as [->|(l & -> & Hin)]; [left; reflexivity|].
      right. eexists. split; [reflexivity|]. apply elem_of_cons. right. exact Hin.
Qed.

Lemma aggregate_energy_label_returns (thresholds : list TenantThreshold.t)
    (labels : list string) :
  labels ≠ [] →
  ∃ l,
    aggregate_energy_label thresholds labels = Return l
    ∧ AggregateSubscriptionEnergyLabel.number_of_subscriptions l
      = Z.of_nat (length labels)
    ∧ (AggregateSubscriptionEnergyLabel.label l = "F"
       ∨ AggregateSubscriptionEnergyLabel.label l
         ∈ map TenantThreshold.label thresholds).
Proof.
  intros Hne. unfold aggregate_energy_label.
  destruct (for_tenant_threshold_returns thresholds (Counter labels)
              (Z.of_nat (length labels)) [])
    as (matched & -> & Hmatched).
  { destruct labels; [congruence|]. simpl. lia. }
  simpl. pose proof (Counter_keys labels Hne) as Hkeys.
  destruct (keys (Counter labels)) as [|k ks]; [congruence|]. simpl.
  eexists. split; [reflexivity|]. simpl. split; [reflexivity|].
  destruct Hmatched as [->|(l & -> & Hin)]; [left; reflexivity|right; exact Hin].
Qed.

(** X12: on a population that is not empty the aggregation returns, with
    any table of rules: the size that it reports is the number of labeled
    subscriptions, and its label is the label of a rule of the table, or
    F. *)
Theorem aggregate_energy_label_total :
  ∀ (thresholds : list TenantThreshold.t) (labels : list string),
    labels ≠ [] →
    ∃ l,
      aggregate_energy_label thresholds labels = Return l
      ∧ AggregateSubscriptionEnergyLabel.number_of_subscriptions l
        = Z.of_nat (length labels)
      ∧ (AggregateSubscriptionEnergyLabel.label l = "F"
         ∨ AggregateSubscriptionEnergyLabel.label l
           ∈ map TenantThreshold.label thresholds).
Proof. exact aggregate_energy_label_returns. Qed.

Lemma aggregate_energy_label_total_witness :
  ∃ l,
    aggregate_energy_label thresholds_without_A three_B_one_A = Return l
    ∧ AggregateSubscriptionEnergyLabel.number_of_subscriptions l = 4
    ∧ (AggregateSubscriptionEnergyLabel.label l = "F"
       ∨ AggregateSubscriptionEnergyLabel.label l
         ∈ map TenantThreshold.label thresholds_without_A).
Proof.
  apply (aggregate_energy_label_total thresholds_without_A three_B_one_A).
  discriminate.
Defined.

(** ** Labelling the subscriptions of a tenant *)

Lemma labels_of_labeled (labeled_subscriptions : list Subscription.t) :
  Forall (fun subscription => is_Some (Subscription.energy_label subscription))
    labeled_subscriptions →
  ∃ labels,
    Tenant.labels_of labeled_subscriptions = Return labels
    ∧ length labels = length labeled_subscriptions.
Proof.
  unfold Tenant.labels_of.
  induction 1 as [|subscription rest [l Hl] _ (labels & IH & Hlength)].
  - exists []. split; reflexivity.
  - exists (EnergyLabel.label l :: labels). split.
    + simpl. rewrite Hl. simpl. rewrite IH. reflexivity.
    + simpl. rewrite Hlength. reflexivity.
Qed.

(** What the loop over the subscriptions to be labeled keeps: the number,
    the data and the thresholds of the subscription objects; and when no
    call raises, there is a labeled subscription for every position. *)
Lemma label_subscriptions_keeps (df : DataFrame.t) (todo : list nat)
    (objects : list Subscription.t) :
  let after := (Tenant.label_subscriptions df objects todo).1 in
  map Subscription._data after = map Subscription._data objects
  ∧ map Subscription._subscription_thresholds after
    = map Subscription._subscription_thresholds objects
  ∧ ∀ labeled,
      (Tenant.label_subscriptions df objects todo).2 = Return labeled →
      length labeled = length todo
      ∧ Forall (fun subscription => is_Some (Subscription.energy_label subscription))
          labeled.
Proof.
  revert objects. induction todo as [|i todo IH]; intros objects; simpl.
  - split; [reflexivity|]. split; [reflexivity|].
    intros labeled [= <-]. split; [reflexivity|constructor].
  - destruct (objects !! i) as [subscription|] eqn:Hlookup; simpl;
      [|split; [reflexivity|split; [reflexivity|discriminate]]].
    pose proof (Subscription_get_energy_label_outcome subscription (Frame df))
      as (Hdata & Hthresholds & Hlabel).
    destruct (Subscription.get_energy_label subscription (Frame df))
      as [subscription' r]. simpl in Hdata, Hthresholds, Hlabel.
    assert (map Subscription._data (<[i:=subscription']> objects)
            = map Subscription._data objects) as Hdata'.
    { change (Subscription._data <$> <[i:=subscription']> objects
              = Subscription._data <$> objects).
      rewrite list_fmap_insert, Hdata. apply list_insert_id.
      rewrite list_lookup_fmap, Hlookup. reflexivity. }
    assert (map Subscription._subscription_thresholds (<[i:=subscription']> objects)
            = map Subscription._subscription_thresholds objects) as Hthresholds'.
    { change (Subscription._subscription_thresholds <$> <[i:=subscription']> objects
              = Subscription._subscription_thresholds <$> objects).
      rewrite list_fmap_insert, Hthresholds. apply list_insert_id.
      rewrite list_lookup_fmap, Hlookup. reflexivity. }
    destruct r as [l|e]; simpl;
      [|split; [exact Hdata'|split; [exact Hthresholds'|discriminate]]].
    specialize (IH (<[i:=subscription']> objects)).
    destruct (Tenant.label_subscriptions df (<[i:=subscription']> objects) todo)
      as [objects' labeled']. simpl in *.
    destruct IH as (IHdata & IHthresholds & IHlabeled).
    split; [congruence|]. split; [congruence|].
    intros labeled Hlabeled. destruct labeled' as [labeled'|e]; [|discriminate].
    simpl in Hlabeled. injection Hlabeled as <-.
    destruct (IHlabeled labeled' eq_refl) as [Hlength Hall].
    split; [simpl; congruence|]. constructor; [|exact Hall].
    rewrite Hlabel. eauto.
Qed.

(** X13: labelling the targeted subscriptions keeps the data and the
    thresholds of every subscription of the tenant; and when it returns,
    it returns one subscription for each subscription to be labeled, each
    with its label set, so that reading the labels cannot fail. *)
Theorem get_labeled_targeted_subscriptions_keeps :
  ∀ (self : Tenant.t) (findings : list Finding.t),
    let after := (Tenant.get_labeled_targeted_subscriptions self findings).1 in
    map Subscription._data (Tenant.subscriptions after)
    = map Subscription._data (Tenant.subscriptions self)
    ∧ map Subscription._subscription_thresholds (Tenant.subscriptions after)
      = map Subscription._subscription_thresholds (Tenant.subscriptions self)
    ∧ ∀ labeled,
        (Tenant.get_labeled_targeted_subscriptions self findings).2 = Return labeled →
        length labeled = length (Tenant.subscriptions_to_be_labeled self).2
        ∧ ∃ labels,
            Tenant.labels_of labeled = Return labels
            ∧ length labels = length labeled.
Proof.
  intros self findings. unfold Tenant.get_labeled_targeted_subscriptions.
  assert (Tenant.subscriptions (Tenant.subscriptions_to_be_labeled self).1
          = Tenant.subscriptions self) as Hsame.
  { unfold Tenant.subscriptions_to_be_labeled.
    destruct (Tenant._subscriptions_to_be_labeled self); reflexivity. }
  destruct (Tenant.subscriptions_to_be_labeled self) as [self' todo].
  simpl in Hsame. rewrite Hsame.
  pose proof (label_subscriptions_keeps
                (pd_DataFrame (map Finding.measurement_data findings)) todo
                (Tenant.subscriptions self)) as (Hdata & Hthresholds & Hlabeled).
  destruct (Tenant.label_subscriptions _ (Tenant.subscriptions self) todo)
    as [objects r]. simpl in *.
  split; [exact Hdata|]. split; [exact Hthresholds|].
  intros labeled ->. destruct (Hlabeled labeled eq_refl) as [Hlength Hall].
  split; [exact Hlength|]. apply labels_of_labeled. exact Hall.
Qed.

Lemma get_labeled_targeted_subscriptions_keeps_witness :
  ∃ labeled,
    (Tenant.get_labeled_targeted_subscriptions (tenant_with [] ["sub-2"])
       example_findings).2 = Return labeled
    ∧ length labeled = 2%nat
    ∧ ∃ labels,
        Tenant.labels_of labeled = Return labels ∧ length labels = length labeled.
Proof.
  eexists. split; [vm_compute; reflexivity|].
  apply (proj2 (proj2 (get_labeled_targeted_subscriptions_keeps
                         (tenant_with [] ["sub-2"]) example_findings))).
  vm_compute. reflexivity.
Defined.

Lemma Subscription_get_energy_label_returns (self : Subscription.t)
    (findings : list Finding.t) :
  Subscription._subscription_thresholds self ≠ [] →
  ∃ l, (Subscription.get_energy_label self
          (Frame (pd_DataFrame (map Finding.measurement_data findings)))).2
       = Return l.
Proof.
  intros Htable. rewrite get_energy_label_frame.
  destruct findings as [|f fs].
  - eexists. reflexivity.
  - rewrite Subscription_get_energy_label_findings by discriminate. simpl.
    destruct (for_threshold_counts
                (EnergyLabel.mk EnergyLabel.SubscriptionEnergyLabel)
                (Subscription._subscription_thresholds self)
                (observed "High" (findings_of_subscription self (f :: fs)))
                (observed "Medium" (findings_of_subscription self (f :: fs)))
                (observed "Low" (findings_of_subscription self (f :: fs)))
                (Subscription.energy_label self) Htable) as [label ->].
    eexists. reflexivity.
Qed.

Lemma label_subscriptions_returns (findings : list Finding.t) (todo : list nat)
    (objects : list Subscription.t) :
  Forall (fun i => (i < length objects)%nat) todo →
  Forall (fun subscription => Subscription._subscription_thresholds subscription ≠ [])
    objects →
  ∃ labeled,
    (Tenant.label_subscriptions (pd_DataFrame (map Finding.measurement_data findings))
       objects todo).2 = Return labeled.
Proof.
  revert objects. induction todo as [|i todo IH]; intros objects Hvalid Htables; simpl.
  - eexists. reflexivity.
  - apply Forall_cons in Hvalid as [Hi Hvalid].
    destruct (lookup_lt_is_Some_2 objects i Hi) as [subscription Hlookup].
    rewrite Hlookup.
    pose proof (Forall_lookup_1 _ _ _ _ Htables Hlookup) as Htable.
    destruct (Subscription_get_energy_label_returns subscription findings Htable)
      as [l Hl].
    pose proof (Subscription_get_energy_label_outcome subscription
                  (Frame (pd_DataFrame (map Finding.measurement_data findings))))
      as (_ & Hthresholds & _).
    destruct (Subscription.get_energy_label subscription _) as [subscription' r].
    simpl in Hl, Hthresholds. subst r.
    destruct (IH (<[i:=subscription']> objects)) as [labeled Hlabeled].
    + rewrite length_insert. exact Hvalid.
    + apply Forall_insert; [exact Htables|]. rewrite Hthresholds. exact Htable.
    + destruct (Tenant.label_subscriptions _ (<[i:=subscription']> objects) todo)
        as [objects' r]. simpl in Hlabeled. subst r. eexists. reflexivity.
Qed.

Lemma subscriptions_at_valid (self : Tenant.t) (todo : list nat)
    (selected : list Subscription.t) :
  subscriptions_at self todo = map Some selected →
  Forall (fun i => (i < length (Tenant.subscriptions self))%nat) todo.
Proof.
  unfold subscriptions_at. revert selected.
  induction todo as [|i todo IH]; intros selected Hat; [constructor|].
  destruct selected as [|subscription selected]; [discriminate Hat|].
  simpl in Hat. injection Hat as Hi Hat. constructor.
  - apply lookup_lt_is_Some. eauto.
  - exact (IH selected Hat).
Qed.

Lemma subscriptions_to_be_labeled_valid (self : Tenant.t) :
  Tenant._subscriptions_to_be_labeled self = None →
  Forall (fun i => (i < length (Tenant.subscriptions self))%nat)
    (Tenant.subscriptions_to_be_labeled self).2.
Proof.
  intros Hcache. unfold Tenant.subscriptions_to_be_labeled. rewrite Hcache. simpl.
  repeat case_bool_decide.
  - eapply subscriptions_at_valid. apply get_allowed_subscriptions_at.
  - eapply subscriptions_at_valid. apply get_not_denied_subscriptions_at.
  - eapply subscriptions_at_valid.
    apply (seq_lookup (Tenant.subscriptions self) []).
Qed.

(** X14: the aggregate label of a tenant exists whenever there is something
    to label: on a tenant that has not been labeled before, with at least
    one subscription to be labeled and with at least one rule in the
    threshold table of each of its subscriptions, the method returns; the
    size that it reports is the number of subscriptions to be labeled, and
    its label is the label of a rule of the tenant's table, or F. *)
Theorem get_energy_label_of_targeted_subscriptions_total :
  ∀ (self : Tenant.t) (findings : list Finding.t),
    Tenant._targeted_subscriptions_energy_label self = None →
    Tenant._subscriptions_to_be_labeled self = None →
    (Tenant.subscriptions_to_be_labeled self).2 ≠ [] →
    Forall (fun subscription =>
              Subscription._subscription_thresholds subscription ≠ [])
      (Tenant.subscriptions self) →
    ∃ l,
      (Tenant.get_energy_label_of_targeted_subscriptions self findings).2 = Return l
      ∧ AggregateSubscriptionEnergyLabel.number_of_subscriptions l
        = Z.of_nat (length (Tenant.subscriptions_to_be_labeled self).2)
      ∧ (AggregateSubscriptionEnergyLabel.label l = "F"
         ∨ AggregateSubscriptionEnergyLabel.label l
           ∈ map TenantThreshold.label (Tenant.thresholds self)).
Proof.
  intros self findings Hlabel Hcache Htodo Htables.
  rewrite get_energy_label_of_targeted_subscriptions_aggregate by exact Hlabel.
  pose proof (subscriptions_to_be_labeled_valid self Hcache) as Hvalid.
  destruct (label_subscriptions_returns findings _ _ Hvalid Htables)
    as [labeled Hlabeled].
  pose proof (label_subscriptions_keeps
                (pd_DataFrame (map Finding.measurement_data findings))
                (Tenant.subscriptions_to_be_labeled self).2
                (Tenant.subscriptions self)) as (_ & _ & Hkeeps).
  destruct (Hkeeps labeled Hlabeled) as [Hlength Hall].
  destruct (labels_of_labeled labeled Hall) as (labels & Hlabels & Hlength').
  assert ((Tenant.get_labeled_targeted_subscriptions self findings).2 = Return labeled)
    as ->.
  { unfold Tenant.get_labeled_targeted_subscriptions.
    assert (Tenant.subscriptions (Tenant.subscriptions_to_be_labeled self).1
            = Tenant.subscriptions self) as Hsame.
    { unfold Tenant.subscriptions_to_be_labeled. rewrite Hcache. reflexivity. }
    destruct (Tenant.subscriptions_to_be_labeled self) as [self' todo].
    simpl in *. rewrite Hsame.
    destruct (Tenant.label_subscriptions _ (Tenant.subscriptions self) todo)
      as [objects r]. simpl in *. exact Hlabeled. }
  simpl. rewrite Hlabels. simpl.
  destruct (aggregate_energy_label_returns (Tenant.thresholds self) labels)
    as (l & Hl & Hsize & Hwhich).
  { intros ->. simpl in Hlength'. apply Htodo.
    destruct (Tenant.subscriptions_to_be_labeled self).2; [reflexivity|].
    simpl in *. lia. }
  exists l. split; [exact Hl|]. split; [|exact Hwhich].
  rewrite Hsize. f_equal. lia.
Qed.

Lemma get_energy_label_of_targeted_subscriptions_total_witness :
  ∃ l,
    (Tenant.get_energy_label_of_targeted_subscriptions (tenant_with [] ["sub-2"])
       example_findings).2 = Return l
    ∧ AggregateSubscriptionEnergyLabel.number_of_subscriptions l = 2
    ∧ (AggregateSubscriptionEnergyLabel.label l = "F"
       ∨ AggregateSubscriptionEnergyLabel.label l
         ∈ map TenantThreshold.label example_tenant_thresholds).
Proof.
  apply (get_energy_label_of_targeted_subscriptions_total
           (tenant_with [] ["sub-2"]) example_findings).
  - reflexivity.
  - reflexivity.
  - vm_compute. discriminate.
  - repeat constructor; discriminate.
Defined.

(** X15: the aggregate label is computed once.  After a call that returned
    it, every further call returns the same label and leaves the tenant as
    it is, whatever findings it is given. *)
Theorem get_energy_label_of_targeted_subscriptions_cached :
  ∀ (self : Tenant.t) (findings findings' : list Finding.t)
    (l : AggregateSubscriptionEnergyLabel.t),
    (Tenant.get_energy_label_of_targeted_subscriptions self findings).2 = Return l →
    let after := (Tenant.get_energy_label_of_targeted_subscriptions self findings).1 in
    Tenant.get_energy_label_of_targeted_subscriptions after findings'
    = (after, Return l).
Proof.
  intros self findings findings' l.
  unfold Tenant.get_energy_label_of_targeted_subscriptions at 1 2.
  destruct (Tenant._targeted_subscriptions_energy_label self) as [cached|] eqn:Hcache.
  - simpl. intros [= <-]. unfold Tenant.get_energy_label_of_targeted_subscriptions.
    rewrite Hcache. reflexivity.
  - destruct (Tenant.get_labeled_targeted_subscriptions self findings)
      as [self' labeled].
    destruct (_ ≫= _) as [l'|e]; simpl; [|discriminate].
    intros [= <-]. reflexivity.
Qed.

Lemma get_energy_label_of_targeted_subscriptions_cached_witness :
  let after :=
    (Tenant.get_energy_label_of_targeted_subscriptions (tenant_with [] [])
       example_findings).1 in
  Tenant.get_energy_label_of_targeted_subscriptions after []
  = (after, Return (AggregateSubscriptionEnergyLabel.mk "C" "A" "F" 3)).
Proof.
  apply (get_energy_label_of_targeted_subscriptions_cached (tenant_with [] [])
           example_findings []).
  vm_compute. reflexivity.
Defined.

(** ** The frameworks of Defender for Cloud *)

Lemma frameworks_subseteq (frameworks : list string) :
  (list_to_set frameworks : gset string) ⊆ DefenderForCloud.frameworks
  ↔ Forall accepted frameworks.
Proof.
  rewrite Forall_forall. unfold DefenderForCloud.frameworks, accepted. split.
  - intros Hsubset framework Hin.
    assert (framework ∈ (list_to_set frameworks : gset string)) as Hset
      by (apply elem_of_list_to_set; exact Hin).
    apply Hsubset in Hset.
    rewrite !elem_of_union, !elem_of_singleton in Hset. tauto.
  - intros Hall framework Hin. apply elem_of_list_to_set in Hin.
    rewrite !elem_of_union, !elem_of_singleton.
    destruct (Hall framework Hin) as [Heq|[Heq|Heq]]; tauto.
Qed.

Lemma validate_frameworks_accepted (frameworks : DefenderForCloud.frameworks_arg) :
  Forall accepted (frameworks_of frameworks) →
  DefenderForCloud.validate_frameworks frameworks = Return (frameworks_of frameworks).
Proof.
  intros Hall. unfold DefenderForCloud.validate_frameworks.
  rewrite bool_decide_eq_true_2; [destruct frameworks; reflexivity|].
  apply frameworks_subseteq. destruct frameworks; exact Hall.
Qed.

Lemma validate_frameworks_not_accepted (frameworks : DefenderForCloud.frameworks_arg) :
  ¬ Forall accepted (frameworks_of frameworks) →
  DefenderForCloud.validate_frameworks frameworks
  = Raise (OtherException "InvalidFrameworks").
Proof.
  intros Hnot. unfold DefenderForCloud.validate_frameworks.
  rewrite bool_decide_eq_false_2; [reflexivity|].
  intros Hsubset. apply Hnot. apply frameworks_subseteq.
  destruct frameworks; exact Hsubset.
Qed.

(** X16: [validate_frameworks] returns the frameworks that it is given, a
    single framework as a list of one, when each of them is one of the
    three accepted names, letter for letter; with any other framework among
    them it raises [InvalidFrameworks].  A list without frameworks is
    accepted. *)
Theorem validate_frameworks_accepts :
  (∀ frameworks : DefenderForCloud.frameworks_arg,
     Forall accepted (frameworks_of frameworks) →
     DefenderForCloud.validate_frameworks frameworks
     = Return (frameworks_of frameworks))
  ∧ (∀ frameworks : DefenderForCloud.frameworks_arg,
       ¬ Forall accepted (frameworks_of frameworks) →
       DefenderForCloud.validate_frameworks frameworks
       = Raise (OtherException "InvalidFrameworks"))
  ∧ DefenderForCloud.validate_frameworks (DefenderForCloud.Many []) = Return [].
Proof.
  split; [exact validate_frameworks_accepted|].
  split; [exact validate_frameworks_not_accepted|reflexivity].
Qed.

Lemma validate_frameworks_accepts_witness :
  DefenderForCloud.validate_frameworks (DefenderForCloud.One "SOC TSP")
  = Return ["SOC TSP"]
  ∧ DefenderForCloud.validate_frameworks
      (DefenderForCloud.Many ["SOC TSP"; "soc tsp"])
    = Raise (OtherException "InvalidFrameworks").
Proof.
  split.
  - apply (proj1 validate_frameworks_accepts (DefenderForCloud.One "SOC TSP")).
    apply Forall_cons. split; [right; left; reflexivity|apply Forall_nil_2].
  - apply (proj1 (proj2 validate_frameworks_accepts)
             (DefenderForCloud.Many ["SOC TSP"; "soc tsp"])).
    intros Hall. apply Forall_cons in Hall as [_ Hall].
    apply Forall_cons in Hall as [[H|[H|H]] _]; discriminate H.
Defined.

Lemma for_framework_returns
    (resources : list string → string → result (list (gmap string string)))
    (subscription_list frameworks : list string)
    (answers : list (list (gmap string string))) (findings : list Finding.t) :
  Forall2 (fun framework answer => resources subscription_list framework = Return answer)
    frameworks answers →
  DefenderForCloud.for_framework resources subscription_list frameworks findings
  = Return (findings ++ map Finding.mk (concat answers)).
Proof.
  intros Hanswers. revert findings.
  induction Hanswers as [|framework answer frameworks answers Hanswer _ IH];
    intros findings; simpl.
  - rewrite app_nil_r. reflexivity.
  - rewrite Hanswer. simpl. rewrite IH, map_app, app_assoc. reflexivity.
Qed.

Lemma for_framework_raises
    (resources : list string → string → result (list (gmap string string)))
    (subscription_list before : list string) (framework : string)
    (after : list string) (answers : list (list (gmap string string)))
    (findings : list Finding.t) (e : exn) :
  Forall2 (fun framework answer => resources subscription_list framework = Return answer)
    before answers →
  resources subscription_list framework = Raise e →
  DefenderForCloud.for_framework resources subscription_list
    (before ++ framework :: after) findings
  = Raise e.
Proof.
  intros Hanswers Hraise. revert findings.
  induction Hanswers as [|f answer before answers Hanswer _ IH]; intros findings; simpl.
  - rewrite Hraise. reflexivity.
  - rewrite Hanswer. simpl. apply IH.
Qed.

(** X17: [get_findings] validates the frameworks before it queries: with a
    framework that is not accepted it raises [InvalidFrameworks] whatever
    the queries would answer.  With accepted frameworks it queries them in
    their order and returns one finding for each record of each answer, in
    that order; and when a query raises, after queries that answered, that
    exception is what [get_findings] raises. *)
Theorem get_findings_of_frameworks :
  ∀ (resources : list string → string → result (list (gmap string string)))
    (self : DefenderForCloud.t) (frameworks : DefenderForCloud.frameworks_arg),
    (¬ Forall accepted (frameworks_of frameworks) →
     DefenderForCloud.get_findings resources self frameworks
     = Raise (OtherException "InvalidFrameworks"))
    ∧ (∀ answers,
         Forall accepted (frameworks_of frameworks) →
         Forall2 (fun framework answer =>
                    resources (DefenderForCloud.subscription_list self) framework
                    = Return answer)
           (frameworks_of frameworks) answers →
         DefenderForCloud.get_findings resources self frameworks
         = Return (map Finding.mk (concat answers)))
    ∧ (∀ before framework after answers e,
         Forall accepted (frameworks_of frameworks) →
         frameworks_of frameworks = before ++ framework :: after →
         Forall2 (fun framework answer =>
                    resources (DefenderForCloud.subscription_list self) framework
                    = Return answer)
           before answers →
         resources (DefenderForCloud.subscription_list self) framework = Raise e →
         DefenderForCloud.get_findings resources self frameworks = Raise e).
Proof.
  intros resources self frameworks. unfold DefenderForCloud.get_findings.
  split; [|split].
  - intros Hnot. rewrite validate_frameworks_not_accepted by exact Hnot. reflexivity.
  - intros answers Hall Hanswers.
    rewrite validate_frameworks_accepted by exact Hall. simpl.
    rewrite (for_framework_returns _ _ _ answers) by exact Hanswers. reflexivity.
  - intros before framework after answers e Hall Hsplit Hanswers Hraise.
    rewrite validate_frameworks_accepted by exact Hall. simpl.
    rewrite Hsplit. exact (for_framework_raises _ _ _ _ _ _ _ _ Hanswers Hraise).
Qed.

Lemma get_findings_of_frameworks_witness :
  DefenderForCloud.get_findings example_resources (DefenderForCloud.mk ["sub-1"])
    (DefenderForCloud.One "CIS")
  = Raise (OtherException "InvalidFrameworks")
  ∧ DefenderForCloud.get_findings example_resources (DefenderForCloud.mk ["sub-1"])
      (DefenderForCloud.Many ["Azure Security Benchmark"; "SOC TSP"])
    = Return [finding "sub-1" "rg-1" "Low"; finding "sub-2" "rg-2" "Medium";
              finding "sub-1" "rg-1" "High"]
  ∧ DefenderForCloud.get_findings example_resources (DefenderForCloud.mk ["sub-1"])
      (DefenderForCloud.Many ["SOC TSP"; "Azure CIS 1.1.0"; "SOC TSP"])
    = Raise (OtherException "HttpResponseError").
Proof.
  split; [|split].
  - apply (proj1 (get_findings_of_frameworks example_resources
                    (DefenderForCloud.mk ["sub-1"]) (DefenderForCloud.One "CIS"))).
    intros Hall. apply Forall_cons in Hall as [[H|[H|H]] _]; discriminate H.
  - apply (proj1 (proj2 (get_findings_of_frameworks example_resources
                           (DefenderForCloud.mk ["sub-1"])
                           (DefenderForCloud.Many
                              ["Azure Security Benchmark"; "SOC TSP"])))
             [[Finding._data (finding "sub-1" "rg-1" "Low");
               Finding._data (finding "sub-2" "rg-2" "Medium")];
              [Finding._data (finding "sub-1" "rg-1" "High")]]).
    + repeat (apply Forall_cons; split; [unfold accepted; auto|]). apply Forall_nil_2.
    + unfold frameworks_of. repeat (constructor; [reflexivity|]). constructor.
  - apply (proj2 (proj2 (get_findings_of_frameworks example_resources
                           (DefenderForCloud.mk ["sub-1"])
                           (DefenderForCloud.Many
                              ["SOC TSP"; "Azure CIS 1.1.0"; "SOC TSP"])))
             ["SOC TSP"] "Azure CIS 1.1.0" ["SOC TSP"]
             [[Finding._data (finding "sub-1" "rg-1" "High")]]).
    + repeat (apply Forall_cons; split; [unfold accepted; auto|]). apply Forall_nil_2.
    + reflexivity.
    + unfold frameworks_of. repeat (constructor; [reflexivity|]). constructor.
    + reflexivity.
Defined.

(** ** The label of a tenant *)

Lemma subscriptions_to_be_labeled_listing (self : Tenant.t) :
  Tenant.subscriptions (Tenant.subscriptions_to_be_labeled self).1
  = Tenant.subscriptions self.
Proof.
  unfold Tenant.subscriptions_to_be_labeled.
  destruct (Tenant._subscriptions_to_be_labeled self); reflexivity.
Qed.

Lemma get_labeled_targeted_subscriptions_listing (self : Tenant.t)
    (findings : list Finding.t) :
  length (Tenant.subscriptions
            (Tenant.get_labeled_targeted_subscriptions self findings).1)
  = length (Tenant.subscriptions self).
Proof.
  unfold Tenant.get_labeled_targeted_subscriptions.
  pose proof (subscriptions_to_be_labeled_listing self) as Hsame.
  destruct (Tenant.subscriptions_to_be_labeled self) as [self' todo].
  simpl in Hsame. rewrite Hsame.
  pose proof (label_subscriptions_keeps
                (pd_DataFrame (map Finding.measurement_data findings)) todo
                (Tenant.subscriptions self)) as (Hdata & _ & _).
  destruct (Tenant.label_subscriptions _ (Tenant.subscriptions self) todo)
    as [objects r]. simpl in *.
  rewrite <- (length_map Subscription._data objects), Hdata, length_map.
  reflexivity.
Qed.

Lemma get_energy_label_of_targeted_subscriptions_listing (self : Tenant.t)
    (findings : list Finding.t) :
  length (Tenant.subscriptions
            (Tenant.get_energy_label_of_targeted_subscriptions self findings).1)
  = length (Tenant.subscriptions self).
Proof.
  unfold Tenant.get_energy_label_of_targeted_subscriptions.
  destruct (Tenant._targeted_subscriptions_energy_label self); [reflexivity|].
  pose proof (get_labeled_targeted_subscriptions_listing self findings) as Hsame.
  destruct (Tenant.get_labeled_targeted_subscriptions self findings)
    as [self' labeled]. simpl in Hsame.
  match goal with
  | |- context [match ?r with Return _ => _ | Raise _ => _ end] => destruct r
  end; exact Hsame.
Qed.

(** X18: the label of a tenant takes its label, its best label and its worst
    label from the aggregate label of the targeted subscriptions, and it
    exists only for a tenant that lists at least one subscription: the
    coverage divides by the number of listed subscriptions, so on a tenant
    that lists none [get_energy_label] always raises. *)
Theorem Tenant_get_energy_label_of_aggregate :
  ∀ (format_2f : float → string) (self : Tenant.t) (findings : list Finding.t),
    (∀ energy_label,
       (Tenant.get_energy_label format_2f self findings).2 = Return energy_label →
       Tenant.subscriptions self ≠ []
       ∧ ∃ aggregate_label,
           (Tenant.get_energy_label_of_targeted_subscriptions self findings).2
           = Return aggregate_label
           ∧ Tenant.label energy_label
             = AggregateSubscriptionEnergyLabel.label aggregate_label
           ∧ Tenant.best_label energy_label
             = AggregateSubscriptionEnergyLabel.best_label aggregate_label
           ∧ Tenant.worst_label energy_label
             = AggregateSubscriptionEnergyLabel.worst_label aggregate_label)
    ∧ (Tenant.subscriptions self = [] →
       ∃ e, (Tenant.get_energy_label format_2f self findings).2 = Raise e).
Proof.
  intros format_2f self findings.
  assert (∀ energy_label,
            (Tenant.get_energy_label format_2f self findings).2 = Return energy_label →
            Tenant.subscriptions self ≠ []
            ∧ ∃ aggregate_label,
                (Tenant.get_energy_label_of_targeted_subscriptions self findings).2
                = Return aggregate_label
                ∧ Tenant.label energy_label
                  = AggregateSubscriptionEnergyLabel.label aggregate_label
                ∧ Tenant.best_label energy_label
                  = AggregateSubscriptionEnergyLabel.best_label aggregate_label
                ∧ Tenant.worst_label energy_label
                  = AggregateSubscriptionEnergyLabel.worst_label aggregate_label)
    as Hreturn.
  { intros energy_label. unfold Tenant.get_energy_label.
    pose proof (get_energy_label_of_targeted_subscriptions_listing self findings)
      as Hlisting.
    destruct (Tenant.get_energy_label_of_targeted_subscriptions self findings)
      as [self' [aggregate_label|e]]; simpl in Hlisting; [|discriminate].
    pose proof (subscriptions_to_be_labeled_listing self') as Hsame.
    destruct (Tenant.subscriptions_to_be_labeled self') as [self'' todo].
    simpl in Hsame. simpl. rewrite Hsame. unfold div_times_100.
    destruct (Z.eqb_spec (Z.of_nat (length (Tenant.subscriptions self'))) 0)
      as [Hzero|Hpositive]; [discriminate|].
    simpl. intros [= <-]. split.
    - intros Hempty. apply Hpositive. rewrite Hlisting, Hempty. reflexivity.
    - exists aggregate_label. repeat split; reflexivity. }
  split; [exact Hreturn|].
  intros Hempty.
  destruct (Tenant.get_energy_label format_2f self findings).2
    as [energy_label|e] eqn:Hresult.
  - destruct (Hreturn energy_label eq_refl) as [Hlisted _]. contradiction.
  - exists e. reflexivity.
Qed.

Lemma Tenant_get_energy_label_of_aggregate_witness :
  (∃ energy_label,
     (Tenant.get_energy_label (fun _ => "100.00") (tenant_with [] []) example_findings).2
     = Return energy_label
     ∧ Tenant.label energy_label = "C")
  ∧ ∃ e, (Tenant.get_energy_label (fun _ => "100.00") empty_tenant example_findings).2
         = Raise e.
Proof.
  split.
  - eexists. split; [vm_compute; reflexivity|].
    destruct (proj1 (Tenant_get_energy_label_of_aggregate (fun _ => "100.00")
                       (tenant_with [] []) example_findings)
                _ ltac:(vm_compute; reflexivity))
      as (_ & aggregate_label & Haggregate & Hlabel & _).
    vm_compute in Haggregate. injection Haggregate as <-. reflexivity.
  - apply (proj2 (Tenant_get_energy_label_of_aggregate (fun _ => "100.00")
                    empty_tenant example_findings)).
    reflexivity.
Defined.
